(** * Dispute decision, idempotent case creation and the query tool

    A shallow embedding of the core of the dispute-resolution service:

    - [crew_ai_app/agents/dispute_decision_agent.py]: the decision rules
      ([_determine_case_status]), amount extraction, the case creation tool
      and the [process_dispute] workflow;
    - [crew_ai_app/db/dynamo_client.py]: [convert_floats_to_decimal], the
      [async_retry] decorator, [create_case], [get_case_by_transaction] and
      [get_open_case_for_transaction];
    - [mcp/tools/dynamo_query_tool.py]: [_run] and [_execute_query];
    - further on, the other case and transaction operations of the client
      ([get_case], [update_case], [list_cases_by_customer],
      [get_transaction]), [get_case_details], and the path from a
      transaction identifier to a dispute case
      ([crew_ai_app/agents/verification_agent.py], [crew_ai_app/crew.py]).

    Python dictionaries with string keys are finite maps [gmap string pyval];
    floats are IEEE binary64 values ([spec_float] at precision 53); code that
    catches or raises exceptions is written over the [exc] error type; the
    DynamoDB tables are an explicit store that every operation threads
    through, together with the trace of store calls it issued. The indexes
    of the case table have no sort key: the order in which they answer is a
    parameter ([IndexOrder]), over which every general statement ranges. *)

From Stdlib Require Import ZArith Ascii String Floats.SpecFloat.
From stdpp Require Import base option strings list gmap pretty sorting.

Local Open Scope string_scope.
Set Warnings "-register-all".

(** ** Python values and runtime *)

Module Py.

(** Python [float]: IEEE 754 binary64. *)
Definition float : Type := spec_float.

Definition prec : Z := 53.
Definition emax : Z := 1024.

(** The float nearest to an integer (round half to even); used for float
    literals with an integral value. *)
Definition float_of_Z (z : Z) : float := binary_normalize prec emax z 0 false.

Definition float_le (x y : float) : bool := SFleb x y.
Definition float_mul (x y : float) : float := SFmul prec emax x y.

(** [decimal.Decimal]: sign, coefficient and exponent, or a special value. *)
Inductive decimal :=
| DecFinite (negative : bool) (coefficient : N) (exponent : Z)
| DecInfinity (negative : bool)
| DecNaN (signaling : bool).

Inductive pyval :=
| VNone
| VBool (b : bool)
| VInt (n : Z)
| VFloat (x : float)
| VDecimal (d : decimal)
| VStr (s : string)
| VList (items : list pyval)
| VDict (entries : list (string * pyval)).

(** A dictionary with string keys, as passed between the agents and stored
    as a DynamoDB item. *)
Abbreviation pydict := (gmap string pyval).

(** A dict display [{k1: v1, ...}] with distinct keys. *)
Definition dict_of (entries : list (string * pyval)) : pydict :=
  list_to_map entries.

(** Exceptions: botocore's [ClientError] carries the error code of the
    response; every other exception is kept by class name and message. *)
Inductive pyexn :=
| ClientError (code : string) (msg : string)
| PyException (cls : string) (msg : string).

(** [str(e)] *)
Definition str_of_exn (e : pyexn) : string :=
  match e with
  | ClientError _ msg => msg
  | PyException _ msg => msg
  end.

(** The outcome of running a piece of code: a value or a raised exception. *)
Inductive exc (A : Type) :=
| Ret (a : A)
| Raise (e : pyexn).
Arguments Ret {A} a.
Arguments Raise {A} e.

Definition exc_bind {A B} (m : exc A) (k : A → exc B) : exc B :=
  match m with
  | Ret a => k a
  | Raise e => Raise e
  end.

(** [try: m  except Exception: handler] *)
Definition try_except {A} (m : exc A) (handler : pyexn → A) : A :=
  match m with
  | Ret a => a
  | Raise e => handler e
  end.

Definition of_option {A} (e : pyexn) (o : option A) : exc A :=
  match o with
  | Some a => Ret a
  | None => Raise e
  end.

#[export] Instance exc_mbind : MBind exc := λ A B k m, exc_bind m k.
#[export] Instance exc_mret : MRet exc := λ A a, Ret a.
#[export] Instance exc_fmap : FMap exc := λ A B f m, exc_bind m (λ a, Ret (f a)).

(** A [datetime]: the wall-clock reading in microseconds from a fixed
    origin, and the UTC offset (microseconds) of its [tzinfo] when it is
    aware. *)
Record datetime := mk_datetime {
  wall_us : Z;
  tzinfo : option Z
}.

(** [dt.replace(tzinfo=tz)] *)
Definition replace_tzinfo (dt : datetime) (tz : option Z) : datetime :=
  {| wall_us := wall_us dt; tzinfo := tz |}.

(** [a - b] as a number of microseconds. Two naive datetimes, or two aware
    ones with the same [tzinfo], are subtracted on their wall clocks; aware
    ones with different offsets are compared in UTC; mixing naive and aware
    raises [TypeError]. *)
Definition datetime_sub (a b : datetime) : exc Z :=
  match tzinfo a, tzinfo b with
  | None, None => Ret (wall_us a - wall_us b)%Z
  | Some oa, Some ob =>
      if bool_decide (oa = ob) then Ret (wall_us a - wall_us b)%Z
      else Ret ((wall_us a - oa) - (wall_us b - ob))%Z
  | _, _ =>
      Raise (PyException "TypeError"
               "can't subtract offset-naive and offset-aware datetimes")
  end.

Definition us_per_day : Z := 86400000000.

(** [timedelta.days]: the normalised day count, a floor division. *)
Definition timedelta_days (us : Z) : Z := (us `div` us_per_day)%Z.

(** What the interpreter and its standard library provide and the service
    only calls: parsing and printing of numbers and dates. [None] stands for
    the [ValueError] the conversion raises. *)
Class Runtime := {
  float_of_string : string → option float;      (* float(s) *)
  float_of_decimal : decimal → option float;    (* float(d) *)
  repr_float : float → string;                  (* str(x), f"{x}" *)
  decimal_of_repr : float → decimal;            (* Decimal(str(x)) *)
  fromisoformat : string → option datetime      (* datetime.fromisoformat(s) *)
}.

(** [float(n)] for an [int]: the nearest float, [OverflowError] when the
    integer is too large. *)
Definition float_of_int (n : Z) : exc float :=
  match float_of_Z n with
  | S754_infinity _ =>
      Raise (PyException "OverflowError" "int too large to convert to float")
  | x => Ret x
  end.

(** [s.replace(c, by)] for a one-character pattern. *)
Fixpoint str_replace (c : ascii) (by_ : string) (s : string) : string :=
  match s with
  | EmptyString => EmptyString
  | String a rest =>
      if bool_decide (a = c) then by_ +:+ str_replace c by_ rest
      else String a (str_replace c by_ rest)
  end.

(** ASCII white space, as [str.strip()] removes it. *)
Definition is_space (a : ascii) : bool :=
  let n := Ascii.nat_of_ascii a in
  bool_decide (n = 32 ∨ (9 ≤ n ∧ n ≤ 13) ∨ (28 ≤ n ∧ n ≤ 31))%nat.

Fixpoint lstrip (s : string) : string :=
  match s with
  | EmptyString => EmptyString
  | String a rest => if is_space a then lstrip rest else s
  end.

Fixpoint rstrip (s : string) : string :=
  match s with
  | EmptyString => EmptyString
  | String a rest =>
      match rstrip rest with
      | EmptyString => if is_space a then EmptyString else String a EmptyString
      | rest' => String a rest'
      end
  end.

Definition strip (s : string) : string := rstrip (lstrip s).

(** [d.get(k)] and [d.get(k, default)] *)
Definition get (d : pydict) (k : string) : pyval := default VNone (d !! k).
Definition get_or (d : pydict) (k : string) (dflt : pyval) : pyval :=
  default dflt (d !! k).

(** [d[k]]: [KeyError] when the key is missing. *)
Definition subscript (d : pydict) (k : string) : exc pyval :=
  of_option (PyException "KeyError" k) (d !! k).

(** [v is not None] *)
Definition is_not_none (v : pyval) : bool :=
  match v with
  | VNone => false
  | _ => true
  end.

(** [v == s] for a string literal [s]: only an equal [str] compares equal. *)
Definition eq_str (v : pyval) (s : string) : bool :=
  match v with
  | VStr s' => bool_decide (s' = s)
  | _ => false
  end.

(** [v in [s1, ..., sn]] for a list of string literals. *)
Definition in_strs (v : pyval) (l : list string) : bool :=
  existsb (eq_str v) l.

(** Truth value of an optional dictionary, as tested by [if not case] and
    [if existing_case]: [None] and the empty dictionary are false. *)
Definition dict_truthy (d : option pydict) : bool :=
  match d with
  | None => false
  | Some m => negb (bool_decide (m = ∅))
  end.

(** The dictionary a test [if d:] lets through. *)
Definition if_truthy (d : option pydict) : option pydict :=
  if dict_truthy d then d else None.

End Py.

(** ** crew_ai_app/db/dynamo_client.py *)

Module DynamoClient.
Import Py.

Definition CARDS_TRANSACTIONS_TABLE : string :=
  "ptr_dispute_resol_customer_cards_and_transactions".
Definition CASE_DB_TABLE : string := "ptr_dispute_resol_case_db".

(** *** The retry decorator *)

Section AsyncRetry.
Context {A : Type}.

(** The wrapped coroutine, seen from the wrapper: what the call made at
    attempt number [attempt] does. *)
Variable func : nat → exc A.
Variables (max_attempts : nat) (delay : float).

Definition throttling_codes : list string :=
  ["ProvisionedThroughputExceededException"; "ThrottlingException"].

(** [delay * (2 ** attempt)] *)
Definition wait_time (attempt : nat) : exc float :=
  p ← float_of_int (2 ^ Z.of_nat attempt); Ret (float_mul delay p).

(** The [for attempt in range(max_attempts)] loop from [attempt] on, with
    [remaining] iterations left. The result is what the wrapper returns
    or raises ([Ret None] when the loop runs out without returning) and
    the arguments of the [asyncio.sleep] calls, in order. *)
Fixpoint wrapper_from (remaining attempt : nat)
  : exc (option A) * list float :=
  match remaining with
  | O => (Ret None, [])
  | S remaining' =>
      match func attempt with
      | Ret a => (Ret (Some a), [])
      | Raise (ClientError error_code msg) =>
          if bool_decide (attempt = max_attempts - 1)%nat
          then (Raise (ClientError error_code msg), [])
          else if bool_decide (error_code ∈ throttling_codes) then
            match wait_time attempt with
            | Ret w =>
                let '(r, sleeps) := wrapper_from remaining' (S attempt) in
                (r, w :: sleeps)
            | Raise e' => (Raise e', [])
            end
          else (Raise (ClientError error_code msg), [])
      | Raise (PyException cls msg) =>
          if bool_decide (attempt = max_attempts - 1)%nat
          then (Raise (PyException cls msg), [])
          else
            let '(r, sleeps) := wrapper_from remaining' (S attempt) in
            (r, delay :: sleeps)
      end
  end.

Definition async_retry : exc (option A) * list float :=
  wrapper_from max_attempts 0.
End AsyncRetry.

(** [0.5] *)
Definition float_half : float := binary_normalize prec emax 1 (-1) false.

(** The decoration used on the store operations:
    [@async_retry(max_attempts=3, delay=0.5)]. *)
Definition store_retry {A} (func : nat → exc A) : exc (option A) * list float :=
  async_retry func 3 float_half.

(** *** The case table *)

(** Calls made on the boto3 table resources. *)
Inductive store_call :=
| QueryCall (table : string) (index_name : string) (key_name : string)
    (key : pyval) (scan_index_forward : bool)
| PutItemCall (table : string) (item : pydict).

(** The case table and the calls issued so far. The table holds the items
    most recently written first; [put_item] replaces the item with the same
    primary key [case_id]. The order of [cases] is the order of writing: it
    is not the order in which an index answers, see [index_sort]. *)
Record store := mk_store {
  cases : list pydict;
  calls : list store_call
}.

Definition log_call (c : store_call) (s : store) : store :=
  {| cases := cases s; calls := calls s ++ [c] |}.

Definition key_matches (key_name : string) (key : pyval) (item : pydict) : bool :=
  match item !! key_name, key with
  | Some (VStr a), VStr b => bool_decide (a = b)
  | _, _ => false
  end.

Definition same_case_id (item other : pydict) : bool :=
  match item !! "case_id", other !! "case_id" with
  | Some (VStr a), Some (VStr b) => bool_decide (a = b)
  | _, _ => false
  end.

(** The call [get_case_by_transaction] makes. *)
Definition index_query (transaction_id : pyval) : store_call :=
  QueryCall CASE_DB_TABLE "TransactionIndex" "transaction_id" transaction_id false.

(** The order in which a key-only index answers. [TransactionIndex] and
    [CustomerIndex] of the case table are created with a HASH key and no
    RANGE key ([initialize_db.py]), so a query returns the items of one key
    in an order of the store's own; [ScanIndexForward=False] reverses that
    order and does not make it the order of writing. Nothing is assumed of
    it but that it is the same from one query to the next: the items are
    answered by increasing [index_rank] of their primary key [case_id],
    whatever that rank is (items of equal rank, the later written first). *)
Class IndexOrder := {
  index_rank : pyval → Z
}.

Section WithIndexOrder.
Context {order : IndexOrder}.

Definition rank_of (item : pydict) : Z := index_rank (get item "case_id").

Fixpoint index_insert (item : pydict) (answer : list pydict) : list pydict :=
  match answer with
  | [] => [item]
  | other :: rest =>
      if bool_decide (rank_of item ≤ rank_of other)%Z then item :: answer
      else other :: index_insert item rest
  end.

(** The items of one key as the index answers them. *)
Definition index_sort (items : list pydict) : list pydict :=
  foldr index_insert [] items.

(** [case_table.query(IndexName='TransactionIndex',
      KeyConditionExpression=Key('transaction_id').eq(transaction_id),
      ScanIndexForward=False)]: the items of the response, those whose
    string attribute [transaction_id] equals the key, in the order of the
    index, or the exception [fault] the call raises. *)
Definition query_transaction_index (fault : option pyexn) (transaction_id : pyval)
    (s : store) : exc (list pydict) * store :=
  let s' := log_call (index_query transaction_id) s in
  match fault with
  | Some e => (Raise e, s')
  | None =>
      (Ret (index_sort
              (filter (λ item, key_matches "transaction_id" transaction_id item)
                 (cases s))), s')
  end.
End WithIndexOrder.

(** [case_table.put_item(Item=item)] *)
Definition put_item (fault : option pyexn) (item : pydict) (s : store)
    : exc unit * store :=
  let s' := log_call (PutItemCall CASE_DB_TABLE item) s in
  match fault with
  | Some e => (Raise e, s')
  | None =>
      (Ret (),
       {| cases := item :: filter (λ other, negb (same_case_id item other))
                             (cases s');
          calls := calls s' |})
  end.

Section WithRuntime.
Context `{Runtime} {order : IndexOrder}.

Fixpoint convert_floats_to_decimal (obj : pyval) : pyval :=
  match obj with
  | VList items => VList (map convert_floats_to_decimal items)
  | VDict entries =>
      VDict (map (λ kv, (kv.1, convert_floats_to_decimal kv.2)) entries)
  | VFloat x => VDecimal (decimal_of_repr x)
  | _ => obj
  end.

(** [convert_floats_to_decimal] on a dictionary at top level. *)
Definition convert_item (d : pydict) : pydict :=
  convert_floats_to_decimal <$> d.

(** [create_case]: both [except] clauses answer [False]. *)
Definition create_case (fault : option pyexn) (case_data : pydict)
    (s : store) : bool * store :=
  let converted_data := convert_item case_data in
  let '(r, s') := put_item fault converted_data s in
  (try_except (_ ← r; Ret true) (λ _, false), s').

(** [get_case_by_transaction]: the first item of the response; [None]
    when there is none and when the query raises. *)
Definition get_case_by_transaction (fault : option pyexn)
    (transaction_id : pyval) (s : store) : option pydict * store :=
  let '(response, s') := query_transaction_index fault transaction_id s in
  (try_except (items ← response; Ret (head items)) (λ _, None), s').

Definition closed_statuses : list string :=
  ["RESOLVED_CUSTOMER"; "RESOLVED_ACQUIRER"; "CLOSED"; "REJECTED_TIME_BARRED"].

(** [get_open_case_for_transaction]; nothing in its [try] block raises,
    [get_case_by_transaction] having caught the store's exceptions. *)
Definition get_open_case_for_transaction (fault : option pyexn)
    (transaction_id : pyval) (s : store) : option pydict * store :=
  let '(case, s') := get_case_by_transaction fault transaction_id s in
  match if_truthy case with
  | None => (None, s')
  | Some case =>
      let status := get_or case "dispute_status" (VStr "") in
      if negb (in_strs status closed_statuses) then (Some case, s')
      else (None, s')
  end.
End WithRuntime.

End DynamoClient.

(** ** crew_ai_app/agents/dispute_decision_agent.py *)

Module DisputeDecisionAgent.
Import Py DynamoClient.

(** What one call of the workflow reads from its surroundings: the clock
    ([datetime.utcnow()], as a wall-clock reading for the age and as the two
    ISO strings taken by the creation tool), the identifier [uuid.uuid4()]
    draws, and the exception, if any, that the index query and the write
    raise. *)
Record call_env := mk_env {
  utcnow : Z;
  uuid4 : string;
  created_at_now : string;
  updated_at_now : string;
  read_fault : option pyexn;
  write_fault : option pyexn
}.

(** The result dictionary of [DisputeCaseCreationTool._run]: the fields are
    those of its two shapes. *)
Inductive creation_result :=
| Created (case_id : string) (case_data : pydict) (message : string)
| NotCreated (message : string).

(** Business rule constants *)
Definition TIME_BARRED_DAYS : Z := 600.
Definition AUTO_RESOLVE_AMOUNT_USD : float := float_of_Z 100.

(** Case status constants *)
Definition STATUS_REJECTED_TIME_BARRED : string := "REJECTED_TIME_BARRED".
Definition STATUS_RESOLVED_CUSTOMER : string := "RESOLVED_CUSTOMER".
Definition STATUS_FORWARDED_TO_ACQUIRER : string := "FORWARDED_TO_ACQUIRER".

(** Credit type constants *)
Definition CREDIT_TYPE_PERMANENT : string := "PERMANENT".
Definition CREDIT_TYPE_TEMPORARY : string := "TEMPORARY".

(** The value returned when no amount can be extracted: [999999.0]. *)
Definition NO_AMOUNT : float := float_of_Z 999999.

Definition amount_fields : list string :=
  ["amount_usd"; "amount"; "transaction_amount"; "value"].

(** [None] or a string, [None] or a float, as dictionary values. *)
Definition opt_str (o : option string) : pyval :=
  match o with
  | Some s => VStr s
  | None => VNone
  end.

Definition opt_float (o : option float) : pyval :=
  match o with
  | Some x => VFloat x
  | None => VNone
  end.

(** The three assignments of [DisputeCaseCreationTool._run]:
    [case_data["case_id"]], [case_data["created_at"]] and
    [case_data["updated_at"]]. *)
Definition identified (env : call_env) (case_data : pydict) : pydict :=
  <["updated_at" := VStr (updated_at_now env)]>
    (<["created_at" := VStr (created_at_now env)]>
       (<["case_id" := VStr (uuid4 env)]> case_data)).

(** The two relations the case record keeps between its fields:
    [credit_issued == (credit_type is not None)] and
    [requires_manual_review == (dispute_status == "FORWARDED_TO_ACQUIRER")]. *)
Definition credit_issued_consistent (case : pydict) : bool :=
  match case !! "credit_issued" with
  | Some (VBool issued) => eqb issued (is_not_none (get case "credit_type"))
  | _ => false
  end.

Definition manual_review_consistent (case : pydict) : bool :=
  match case !! "requires_manual_review" with
  | Some (VBool review) =>
      eqb review (eq_str (get case "dispute_status") STATUS_FORWARDED_TO_ACQUIRER)
  | _ => false
  end.

Definition case_consistent (case : pydict) : bool :=
  credit_issued_consistent case && manual_review_consistent case.

(** A call is consistent when the item it writes, if any, is. *)
Definition write_consistent (c : store_call) : bool :=
  match c with
  | PutItemCall _ item => case_consistent item
  | QueryCall _ _ _ _ _ => true
  end.

Section WithRuntime.
Context `{Runtime} {order : IndexOrder}.

Definition _calculate_transaction_age_days (now : Z) (transaction_date : pyval)
    : Z :=
  try_except
    (s ← match transaction_date with
         | VStr s => Ret s
         | _ => Raise (PyException "AttributeError" "replace")
         end;
     txn_date ← of_option (PyException "ValueError" "Invalid isoformat string")
                  (fromisoformat (str_replace "Z" "+00:00" s));
     let current_date :=
       replace_tzinfo (mk_datetime now None) (tzinfo txn_date) in
     delta ← datetime_sub current_date txn_date;
     Ret (timedelta_days delta))
    (λ _, 0%Z).

(** The [for field in amount_fields] loop: the first field that is present
    with a string or a number decides; a field that is present with
    anything else is passed over. *)
Fixpoint extract_from (fields : list string) (transaction_data : pydict)
    : exc float :=
  match fields with
  | [] => Ret NO_AMOUNT
  | field :: rest =>
      match transaction_data !! field with
      | Some (VStr amount) =>
          let clean_amount :=
            strip (str_replace "," "" (str_replace "$" "" amount)) in
          of_option (PyException "ValueError" "could not convert string to float")
            (float_of_string clean_amount)
      | Some (VBool b) => Ret (float_of_Z (if b then 1 else 0))
      | Some (VInt n) => float_of_int n
      | Some (VFloat x) => Ret x
      | Some (VDecimal d) =>
          of_option (PyException "ValueError" "cannot convert signaling NaN to float")
            (float_of_decimal d)
      | _ => extract_from rest transaction_data
      end
  end.

Definition _extract_amount_usd (transaction_data : pydict) : float :=
  try_except (extract_from amount_fields transaction_data) (λ _, NO_AMOUNT).

Definition _determine_case_status (now : Z) (transaction_data : pydict)
    : string * string * option string * option float :=
  let transaction_date :=
    get_or transaction_data "transaction_date"
      (get_or transaction_data "date" (VStr "")) in
  let amount_usd := _extract_amount_usd transaction_data in
  let age_days := _calculate_transaction_age_days now transaction_date in
  if bool_decide (age_days > TIME_BARRED_DAYS)%Z then
    (STATUS_REJECTED_TIME_BARRED,
     "Transaction is " +:+ pretty age_days +:+ " days old, exceeding the "
       +:+ pretty TIME_BARRED_DAYS +:+ " day limit",
     None, None)
  else if bool_decide (age_days ≤ TIME_BARRED_DAYS)%Z
            && float_le amount_usd AUTO_RESOLVE_AMOUNT_USD then
    (STATUS_RESOLVED_CUSTOMER,
     "Small amount dispute ($" +:+ repr_float amount_usd
       +:+ ") resolved in customer's favor with permanent credit",
     Some CREDIT_TYPE_PERMANENT, Some amount_usd)
  else
    (STATUS_FORWARDED_TO_ACQUIRER,
     "Amount $" +:+ repr_float amount_usd
       +:+ " forwarded to acquirer for investigation with temporary credit issued",
     Some CREDIT_TYPE_TEMPORARY, Some amount_usd).

(** [DisputeCaseCreationTool._run]: the dictionary is completed in place
    with the identifier and the two timestamps, then written. Its handler
    is not entered: [create_case] has caught what the store raises. *)
Definition case_creation_run (env : call_env) (case_data : pydict) (s : store)
    : creation_result * store :=
  let case_id := uuid4 env in
  let case_data := identified env case_data in
  let '(success, s') := create_case (write_fault env) case_data s in
  if success then
    (Created case_id case_data ("Case " +:+ case_id +:+ " created successfully"), s')
  else (NotCreated "Failed to create case in database", s').

(** The dictionary returned for a case that is already open. *)
Definition existing_case_result (existing_case : pydict) : pydict :=
  dict_of [
    ("case_id", get existing_case "case_id");
    ("customer_id", get existing_case "customer_id");
    ("card_id", get existing_case "card_id");
    ("transaction_id", get existing_case "transaction_id");
    ("dispute_status", get existing_case "dispute_status");
    ("decision_reason", get existing_case "decision_reason");
    ("created_at", get existing_case "created_at");
    ("updated_at", get existing_case "updated_at");
    ("auto_decided", get_or existing_case "auto_decided" (VBool false));
    ("requires_manual_review",
       get_or existing_case "requires_manual_review" (VBool false));
    ("existing_case", VBool true);
    ("message", VStr "An open dispute case already exists for this transaction")
  ].

(** The dictionary prepared for the creation tool. *)
Definition new_case_data (transaction_data : pydict)
    (status reason : string) (credit_type : option string)
    (credit_amount : option float) : pydict :=
  dict_of [
    ("customer_id", get transaction_data "customer_id");
    ("card_id", get transaction_data "card_id");
    ("transaction_id", get transaction_data "transaction_id");
    ("transaction_date",
       get_or transaction_data "transaction_date" (get transaction_data "date"));
    ("transaction_amount", VFloat (_extract_amount_usd transaction_data));
    ("merchant", get_or transaction_data "merchant" (VStr "Unknown"));
    ("dispute_status", VStr status);
    ("decision_reason", VStr reason);
    ("auto_decided", VBool true);
    ("requires_manual_review",
       VBool (bool_decide (status = STATUS_FORWARDED_TO_ACQUIRER)));
    ("credit_type", opt_str credit_type);
    ("credit_amount", opt_float credit_amount);
    ("credit_issued", VBool (bool_decide (credit_type ≠ None)))
  ].

(** The dictionary returned for a case that has just been created;
    [result] is the creation tool's [result["case_data"]]. *)
Definition new_case_result (case_id : string) (case_data result : pydict)
    (status reason : string) (credit_type : option string)
    (credit_amount : option float) : exc pydict :=
  customer_id ← subscript case_data "customer_id";
  card_id ← subscript case_data "card_id";
  transaction_id ← subscript case_data "transaction_id";
  created_at ← subscript result "created_at";
  updated_at ← subscript result "updated_at";
  Ret (dict_of [
    ("case_id", VStr case_id);
    ("customer_id", customer_id);
    ("card_id", card_id);
    ("transaction_id", transaction_id);
    ("dispute_status", VStr status);
    ("decision_reason", VStr reason);
    ("created_at", created_at);
    ("updated_at", updated_at);
    ("auto_decided", VBool true);
    ("requires_manual_review",
       VBool (bool_decide (status = STATUS_FORWARDED_TO_ACQUIRER)));
    ("credit_type", opt_str credit_type);
    ("credit_amount", opt_float credit_amount);
    ("credit_issued", VBool (bool_decide (credit_type ≠ None)));
    ("existing_case", VBool false)
  ]).

(** The dictionary returned when the creation tool reports a failure. *)
Definition creation_failed_result (message : string) : pydict :=
  dict_of [
    ("case_id", VNone);
    ("dispute_status", VStr "ERROR");
    ("decision_reason", VStr ("Failed to create dispute case: " +:+ message))
  ].

(** The dictionary returned by the handler of [process_dispute]. *)
Definition processing_error_result (e : pyexn) : pydict :=
  dict_of [
    ("success", VBool false);
    ("message", VStr ("Error processing dispute: " +:+ str_of_exn e))
  ].

(** The body of the [try] block of [process_dispute]. *)
Definition process_dispute_body (env : call_env) (transaction_data : pydict)
    (transaction_id : pyval) (s : store) : exc pydict * store :=
  let '(existing_case, s1) :=
    get_open_case_for_transaction (read_fault env) transaction_id s in
  match if_truthy existing_case with
  | Some existing_case => (Ret (existing_case_result existing_case), s1)
  | None =>
      let '(status, reason, credit_type, credit_amount) :=
        _determine_case_status (utcnow env) transaction_data in
      let case_data :=
        new_case_data transaction_data status reason credit_type credit_amount in
      let '(result, s2) := case_creation_run env case_data s1 in
      (* the tool has completed the caller's dictionary in place *)
      let case_data := identified env case_data in
      match result with
      | Created case_id result_data _ =>
          (new_case_result case_id case_data result_data
             status reason credit_type credit_amount, s2)
      | NotCreated message => (Ret (creation_failed_result message), s2)
      end
  end.

(** [process_dispute]: what it returns or raises, and the store after. *)
Definition process_dispute (env : call_env) (transaction_data : pydict)
    (s : store) : exc pydict * store :=
  let transaction_id := get_or transaction_data "transaction_id" (VStr "unknown") in
  let '(r, s') := process_dispute_body env transaction_data transaction_id s in
  (Ret (try_except r processing_error_result), s').

(** The item that reaches the table for a transaction and a decision:
    the prepared dictionary, identified, with its floats converted. *)
Definition written (env : call_env) (transaction_data : pydict)
    (status reason : string) (credit_type : option string)
    (credit_amount : option float) : pydict :=
  convert_item
    (identified env
       (new_case_data transaction_data status reason credit_type credit_amount)).

(** Disputes processed one after the other, each in its own surroundings. *)
Definition process_disputes (requests : list (call_env * pydict)) (s : store)
    : store :=
  foldl (λ s request, (process_dispute request.1 request.2 s).2) s requests.
End WithRuntime.

End DisputeDecisionAgent.

(** ** mcp/tools/dynamo_query_tool.py *)

Module DynamoQueryTool.
Import Py DynamoClient.

(** boto3 condition objects built by [Key(..)] and [Attr(..)]. *)
Inductive condition :=
| KeyEq (name : string) (value : pyval)
| KeyBeginsWith (name : string) (prefix : pyval)
| KeyBetween (name : string) (low high : pyval)
| AttrEq (name : string) (value : pyval)
| And (left right : condition).

(** The keyword arguments of [table.query] and [table.scan]; an absent
    keyword is [None]. [KeyConditionExpression] is always passed to [query],
    possibly with the Python value [None]. *)
Record query_params := mk_query_params {
  KeyConditionExpression : option condition;
  IndexName : option string;
  ProjectionExpression : option string;
  Limit : option Z;
  FilterExpression : option condition
}.

Record update_params := mk_update_params {
  Key : list (string * pyval);
  UpdateExpression : string;
  ExpressionAttributeNames : gmap string string;
  ExpressionAttributeValues : pydict
}.

(** A response of [query] or [scan]: the keys the tool reads. *)
Record response := mk_response {
  Items : option (list pydict);
  ScannedCount : option Z
}.

(** The calls the tool makes on a table resource. *)
Inductive table_call :=
| Query (table : string) (params : query_params)
| GetItem (table : string) (key : list (string * pyval))
| Scan (table : string) (params : query_params)
| PutItem (table : string) (item : pydict)
| UpdateItem (table : string) (params : update_params).

(** A table resource of the client: its name and what the store answers to
    each call. *)
Record table := mk_table {
  table_name : string;
  query : query_params → exc response;
  get_item : list (string * pyval) → exc (option pydict);
  scan : query_params → exc response;
  put_item : pydict → exc unit;
  update_item : update_params → exc unit
}.

Record db_client := mk_db_client {
  cards_table : table;
  case_table : table
}.

(** The dictionaries the tool returns, by shape. [FailureMessage] is the
    answer of the outermost handler of [_run]; the executors catch their own
    exceptions, so no path of [_run] produces it. *)
Inductive tool_result :=
| Failure (error : string)
| FailureMessage (error message : string)
| NotFound (message : string)
| FoundItems (items : list pydict) (count scanned_count : Z)
| FoundItem (item : pydict)
| Done (message : string).

(** [result["success"]] *)
Definition success (r : tool_result) : bool :=
  match r with
  | FoundItems _ _ _ | FoundItem _ | Done _ => true
  | _ => false
  end.

Definition valid_tables : list string :=
  ["ptr_dispute_resol_customer_cards_and_transactions";
   "ptr_dispute_resol_case_db"].

(** [f"Invalid table name. Must be one of: {valid_tables}"] *)
Definition INVALID_TABLE_NAME : string :=
  "Invalid table name. Must be one of: "
    +:+ "['ptr_dispute_resol_customer_cards_and_transactions', "
    +:+ "'ptr_dispute_resol_case_db']".

(** [', '.join(l)] *)
Fixpoint join (sep : string) (l : list string) : string :=
  match l with
  | [] => ""
  | [x] => x
  | x :: rest => x +:+ sep +:+ join sep rest
  end.

(** ['k' in d] and [d['k']] for a dictionary value. *)
Definition entry (k : string) (entries : list (string * pyval)) : option pyval :=
  snd <$> List.find (λ kv, bool_decide (kv.1 = k)) entries.

(** [v[i]] for an integer index: lists and strings are indexed, anything
    else raises. *)
Definition index (v : pyval) (i : nat) : exc pyval :=
  match v with
  | VList items => of_option (PyException "IndexError" "list index out of range")
                     (items !! i)
  | VStr s => of_option (PyException "IndexError" "string index out of range")
                ((λ a, VStr (String a EmptyString)) <$> String.get i s)
  | VDict _ => Raise (PyException "KeyError" (pretty i))
  | _ => Raise (PyException "TypeError" "object is not subscriptable")
  end.

(** One step of the loop that builds the key condition. *)
Definition key_step (key_expr : option condition) (kv : string * pyval)
    : exc (option condition) :=
  let '(key, value) := kv in
  match value with
  | VDict entries =>
      match entry "begins_with" entries with
      | Some prefix => Ret (Some (KeyBeginsWith key prefix))
      | None =>
          match entry "between" entries with
          | Some bounds =>
              low ← index bounds 0;
              high ← index bounds 1;
              Ret (Some (KeyBetween key low high))
          | None => Ret key_expr
          end
      end
  | _ =>
      match key_expr with
      | None => Ret (Some (KeyEq key value))
      | Some e => Ret (Some (And e (KeyEq key value)))
      end
  end.

Fixpoint build_key_expr (key_expr : option condition)
    (key_condition : list (string * pyval)) : exc (option condition) :=
  match key_condition with
  | [] => Ret key_expr
  | kv :: rest => e ← key_step key_expr kv; build_key_expr e rest
  end.

(** The loop that builds the filter: a conjunction of equalities. *)
Definition build_filter (filter_expression : list (string * pyval))
    : option condition :=
  foldl (λ filter_expr kv,
           match filter_expr with
           | None => Some (AttrEq kv.1 kv.2)
           | Some e => Some (And e (AttrEq kv.1 kv.2))
           end) None filter_expression.

(** Truth values of the optional arguments. *)
Definition nonempty_dict (d : option (list (string * pyval)))
    : option (list (string * pyval)) :=
  match d with
  | Some (kv :: rest) => Some (kv :: rest)
  | _ => None
  end.

Definition nonempty_str (o : option string) : option string :=
  match o with
  | Some (String a rest) => Some (String a rest)
  | _ => None
  end.

Definition projection (attributes_to_get : option (list string)) : option string :=
  match attributes_to_get with
  | Some (a :: rest) => Some (join ", " (a :: rest))
  | _ => None
  end.

Definition nonzero (limit : option Z) : option Z :=
  match limit with
  | Some n => if bool_decide (n = 0%Z) then None else Some n
  | None => None
  end.

(** What [except Exception as e: return {"success": False, "error": str(e)}]
    makes of a computation. *)
Definition caught (m : exc tool_result) : tool_result :=
  try_except m (λ e, Failure (str_of_exn e)).

Definition found (r : response) : tool_result :=
  let items := default [] (Items r) in
  let n := Z.of_nat (length items) in
  FoundItems items n (default n (ScannedCount r)).

Definition _execute_query (t : table)
    (key_condition : option (list (string * pyval)))
    (filter_expression : option (list (string * pyval)))
    (index_name : option string) (attributes_to_get : option (list string))
    (limit : option Z) : tool_result * list table_call :=
  match nonempty_dict key_condition with
  | None => (Failure "key_condition required for query", [])
  | Some key_condition =>
      match build_key_expr None key_condition with
      | Raise e => (Failure (str_of_exn e), [])
      | Ret key_expr =>
          let query_params := {|
            KeyConditionExpression := key_expr;
            IndexName := nonempty_str index_name;
            ProjectionExpression := projection attributes_to_get;
            Limit := nonzero limit;
            FilterExpression :=
              match nonempty_dict filter_expression with
              | Some f => build_filter f
              | None => None
              end |} in
          (caught (r ← query t query_params; Ret (found r)),
           [Query (table_name t) query_params])
      end
  end.

Definition _execute_get_item (t : table)
    (key_condition : option (list (string * pyval)))
    : tool_result * list table_call :=
  match nonempty_dict key_condition with
  | None => (Failure "key_condition required for get_item", [])
  | Some key =>
      (caught (r ← get_item t key;
               Ret (match r with
                    | Some item => FoundItem item
                    | None => NotFound "Item not found"
                    end)),
       [GetItem (table_name t) key])
  end.

Definition _execute_scan (t : table)
    (filter_expression : option (list (string * pyval)))
    (attributes_to_get : option (list string)) (limit : option Z)
    : tool_result * list table_call :=
  let scan_params := {|
    KeyConditionExpression := None;
    IndexName := None;
    ProjectionExpression := projection attributes_to_get;
    Limit := nonzero limit;
    FilterExpression :=
      match nonempty_dict filter_expression with
      | Some f => build_filter f
      | None => None
      end |} in
  (caught (r ← scan t scan_params; Ret (found r)),
   [Scan (table_name t) scan_params]).

(** [s.rstrip(", ")]: trailing commas and blanks are removed. *)
Fixpoint rstrip_comma_space (s : string) : string :=
  match s with
  | EmptyString => EmptyString
  | String a rest =>
      match rstrip_comma_space rest with
      | EmptyString =>
          if bool_decide (a = "," ∨ a = " ")%char then EmptyString
          else String a EmptyString
      | rest' => String a rest'
      end
  end.

Section WithRuntime.
Context `{Runtime}.

Definition _execute_put_item (t : table) (item_data : option pydict)
    : tool_result * list table_call :=
  match if_truthy item_data with
  | None => (Failure "item_data required for put_item", [])
  | Some item_data =>
      let converted_data := convert_item item_data in
      (caught (_ ← put_item t converted_data; Ret (Done "Item created successfully")),
       [PutItem (table_name t) converted_data])
  end.

(** [now_iso] is [datetime.utcnow().isoformat()] at the time of the call. *)
Definition _execute_update_item (now_iso : string) (t : table)
    (key_condition : option (list (string * pyval)))
    (update_expression : option (list (string * pyval)))
    : tool_result * list table_call :=
  match nonempty_dict key_condition with
  | None => (Failure "key_condition required for update_item", [])
  | Some key =>
      match nonempty_dict update_expression with
      | None => (Failure "update_expression required for update_item", [])
      | Some updates =>
          let update_expr :=
            foldl (λ acc kv, acc +:+ "#" +:+ kv.1 +:+ " = :" +:+ kv.1 +:+ ", ")
              "SET " updates in
          let expr_names : gmap string string :=
            foldl (λ acc kv, <["#" +:+ kv.1 := kv.1]> acc) ∅ updates in
          let expr_values : pydict :=
            foldl (λ acc kv, <[":" +:+ kv.1 := kv.2]> acc) ∅ updates in
          let update_expr := rstrip_comma_space update_expr in
          let params := {|
            Key := key;
            UpdateExpression := update_expr +:+ ", #updated_at = :updated_at";
            ExpressionAttributeNames := <["#updated_at" := "updated_at"]> expr_names;
            ExpressionAttributeValues := <[":updated_at" := VStr now_iso]> expr_values
          |} in
          (caught (_ ← update_item t params; Ret (Done "Item updated successfully")),
           [UpdateItem (table_name t) params])
      end
  end.

(** [DynamoQueryCreatorTool._run]: the result and the calls made on the
    tables, in order. *)
Definition _run (db : db_client) (now_iso : string)
    (table_name operation : string)
    (key_condition filter_expression : option (list (string * pyval)))
    (index_name : option string) (attributes_to_get : option (list string))
    (limit : option Z) (item_data : option pydict)
    (update_expression : option (list (string * pyval)))
    : tool_result * list table_call :=
  if negb (bool_decide (table_name ∈ valid_tables)) then
    (Failure INVALID_TABLE_NAME, [])
  else
    let t :=
      if bool_decide (table_name = "ptr_dispute_resol_customer_cards_and_transactions")
      then cards_table db else case_table db in
    if bool_decide (operation = "query") then
      _execute_query t key_condition filter_expression index_name
        attributes_to_get limit
    else if bool_decide (operation = "get_item") then
      _execute_get_item t key_condition
    else if bool_decide (operation = "scan") then
      _execute_scan t filter_expression attributes_to_get limit
    else if bool_decide (operation = "put_item") then
      _execute_put_item t item_data
    else if bool_decide (operation = "update_item") then
      _execute_update_item now_iso t key_condition update_expression
    else (Failure ("Unsupported operation: " +:+ operation), []).
End WithRuntime.

End DynamoQueryTool.

(** ** A runtime to evaluate the model on

    Plain-notation instances of the conversions the service calls, enough to
    run the definitions on concrete transactions: decimal numerals
    [[-]ddd[.ddd]] for [float] and ISO dates [YYYY-MM-DD[THH:MM:SS[+HH:MM]]].
    Floats are printed in full decimal expansion, which is what Python prints
    for the integral and short values used below. *)

Module SampleRuntime.
Import Py.

Definition digit_of (a : ascii) : option Z :=
  let n := Z.of_nat (nat_of_ascii a) in
  if bool_decide (48 ≤ n ≤ 57)%Z then Some (n - 48)%Z else None.

Fixpoint number_from (acc : Z) (s : string) : option Z :=
  match s with
  | EmptyString => Some acc
  | String a rest =>
      match digit_of a with
      | Some d => number_from (10 * acc + d) rest
      | None => None
      end
  end.

(** A non-empty string of decimal digits. *)
Definition number (s : string) : option Z :=
  match s with
  | EmptyString => None
  | _ => number_from 0 s
  end.

(** Splits at the first occurrence of a character. *)
Fixpoint split_at (c : ascii) (s : string) : string * option string :=
  match s with
  | EmptyString => (EmptyString, None)
  | String a rest =>
      if bool_decide (a = c) then (EmptyString, Some rest)
      else let '(l, r) := split_at c rest in (String a l, r)
  end.

Definition signed (negative : bool) (x : float) : float :=
  if negative then SFopp x else x.

Definition ratio (n : Z) (k : nat) : float :=
  SFdiv prec emax (float_of_Z n) (float_of_Z (10 ^ Z.of_nat k)).

Definition parse_float (s : string) : option float :=
  let '(negative, body) :=
    match s with
    | String "-" rest => (true, rest)
    | String "+" rest => (false, rest)
    | _ => (false, s)
    end in
  match split_at "." body with
  | (whole, None) => n ← number whole; Some (signed negative (float_of_Z n))
  | (whole, Some frac) =>
      n ← number (whole +:+ frac);
      if bool_decide (whole = "" ∨ frac = "") then None
      else Some (signed negative (ratio n (String.length frac)))
  end.

Definition decimal_to_float (d : decimal) : option float :=
  match d with
  | DecFinite negative c e =>
      Some (signed negative
              (if bool_decide (0 ≤ e)%Z then float_of_Z (Z.of_N c * 10 ^ e)
               else ratio (Z.of_N c) (Z.to_nat (- e))))
  | DecInfinity negative => Some (S754_infinity negative)
  | DecNaN false => Some S754_nan
  | DecNaN true => None
  end.

(** Removes factors of ten from a coefficient while the exponent stays
    below [-1]: [100.0] keeps one decimal. *)
Fixpoint trim (fuel : nat) (c : Z) (e : Z) : Z * Z :=
  match fuel with
  | O => (c, e)
  | S fuel' =>
      if bool_decide (e < -1 ∧ c `mod` 10 = 0)%Z then trim fuel' (c `div` 10) (e + 1)
      else (c, e)
  end.

(** The full decimal expansion of a finite float: coefficient and (negative)
    exponent of ten. *)
Definition expansion (m : positive) (e : Z) : Z * Z :=
  if bool_decide (0 ≤ e)%Z then (Z.pos m * 2 ^ e * 10, -1)%Z
  else trim (Z.to_nat (- e)) (Z.pos m * 5 ^ (- e) * 10) (e - 1).

Definition float_to_decimal (x : float) : decimal :=
  match x with
  | S754_zero s => DecFinite s 0 (-1)
  | S754_infinity s => DecInfinity s
  | S754_nan => DecNaN false
  | S754_finite s m e => let '(c, k) := expansion m e in DecFinite s (Z.to_N c) k
  end.

Definition pad (k : nat) (s : string) : string :=
  String.concat "" (replicate (k - String.length s) "0") +:+ s.

Definition print_float (x : float) : string :=
  match float_to_decimal x with
  | DecFinite s c e =>
      let k := Z.to_nat (- e) in
      let scale := (10 ^ Z.of_nat k)%Z in
      (if s then "-" else "") +:+ pretty (Z.of_N c `div` scale)%Z +:+ "."
        +:+ pad k (pretty (Z.of_N c `mod` scale)%Z)
  | DecInfinity s => if s then "-inf" else "inf"
  | DecNaN _ => "nan"
  end.

(** Days from 1970-01-01 to a proleptic Gregorian date. *)
Definition days_from_civil (y m d : Z) : Z :=
  let y := (if bool_decide (m ≤ 2) then y - 1 else y)%Z in
  let era := (y `div` 400)%Z in
  let yoe := (y - era * 400)%Z in
  let mp := (if bool_decide (m > 2) then m - 3 else m + 9)%Z in
  let doy := ((153 * mp + 2) `div` 5 + d - 1)%Z in
  let doe := (yoe * 365 + yoe `div` 4 - yoe `div` 100 + doy)%Z in
  (era * 146097 + doe - 719468)%Z.

Definition leap (y : Z) : bool :=
  bool_decide (y `mod` 4 = 0 ∧ (y `mod` 100 ≠ 0 ∨ y `mod` 400 = 0))%Z.

Definition days_in_month (y m : Z) : Z :=
  if bool_decide (m = 2)%Z then (if leap y then 29 else 28)%Z
  else if bool_decide (m = 4 ∨ m = 6 ∨ m = 9 ∨ m = 11)%Z then 30%Z
  else 31%Z.

Definition field (s : string) (start len : nat) : option Z :=
  let f := String.substring start len s in
  if bool_decide (String.length f = len) then number f else None.

Definition char_at (s : string) (i : nat) (c : ascii) : bool :=
  bool_decide (String.get i s = Some c).

Definition parse_date (s : string) : option Z :=
  y ← field s 0 4; m ← field s 5 2; d ← field s 8 2;
  if char_at s 4 "-" && char_at s 7 "-"
     && bool_decide (1 ≤ y ∧ 1 ≤ m ≤ 12 ∧ 1 ≤ d ≤ days_in_month y m)%Z
  then Some (days_from_civil y m d) else None.

(** [HH:MM:SS] in seconds. *)
Definition parse_time (s : string) : option Z :=
  h ← field s 0 2; m ← field s 3 2; sec ← field s 6 2;
  if char_at s 2 ":" && char_at s 5 ":"
     && bool_decide (h < 24 ∧ m < 60 ∧ sec < 60)%Z
  then Some (h * 3600 + m * 60 + sec)%Z else None.

(** [+HH:MM] or [-HH:MM] in microseconds. *)
Definition parse_offset (s : string) : option Z :=
  h ← field s 1 2; m ← field s 4 2;
  if char_at s 3 ":" && bool_decide (String.length s = 6%nat)
     && bool_decide (h < 24 ∧ m < 60)%Z
  then
    if char_at s 0 "+" then Some ((h * 3600 + m * 60) * 1000000)%Z
    else if char_at s 0 "-" then Some (- ((h * 3600 + m * 60) * 1000000))%Z
    else None
  else None.

Definition parse_iso (s : string) : option datetime :=
  days ← parse_date (String.substring 0 10 s);
  let n := String.length s in
  if bool_decide (n = 10%nat) then Some (mk_datetime (days * us_per_day) None)
  else
    secs ← parse_time (String.substring 11 8 s);
    let wall := (days * us_per_day + secs * 1000000)%Z in
    if bool_decide (n = 19%nat) then Some (mk_datetime wall None)
    else off ← parse_offset (String.substring 19 (n - 19) s);
         Some (mk_datetime wall (Some off)).

Definition sample : Runtime := {|
  float_of_string := parse_float;
  float_of_decimal := decimal_to_float;
  repr_float := print_float;
  decimal_of_repr := float_to_decimal;
  fromisoformat := parse_iso
|}.

(** The number written by the digits of a string, other characters passed
    over. *)
Fixpoint digits_value (acc : Z) (s : string) : Z :=
  match s with
  | EmptyString => acc
  | String a rest =>
      match digit_of a with
      | Some d => digits_value (10 * acc + d) rest
      | None => digits_value acc rest
      end
  end.

(** An index that answers by increasing case number: [case-0000] before
    [case-0001]. *)
Definition by_case_id : DynamoClient.IndexOrder := {|
  DynamoClient.index_rank := λ case_id,
    match case_id with
    | VStr id => digits_value 0 id
    | _ => 0%Z
    end
|}.

End SampleRuntime.

(** ** Sample data *)

Module Samples.
Import Py DynamoClient DisputeDecisionAgent DynamoQueryTool SampleRuntime.

(** The wall-clock reading of an ISO date. *)
Definition at_time (iso : string) : Z := default 0%Z (wall_us <$> parse_iso iso).

Definition now : Z := at_time "2024-06-01T12:00:00".

(** A transaction as the verification agent hands it over. *)
Definition transaction (id date : string) (amount : string) : pydict :=
  dict_of [
    ("transaction_id", VStr id);
    ("customer_id", VStr "CUST001");
    ("card_number", VStr "1234");
    ("amount", VFloat (default S754_nan (parse_float amount)));
    ("currency", VStr "USD");
    ("transaction_date", VStr date);
    ("merchant", VStr "Netflix")
  ].

(** The same record without any amount field. *)
Definition transaction_without_amount (id date : string) : pydict :=
  dict_of [
    ("transaction_id", VStr id);
    ("customer_id", VStr "CUST001");
    ("card_number", VStr "1234");
    ("currency", VStr "USD");
    ("transaction_date", VStr date);
    ("merchant", VStr "Netflix")
  ].

(** The same record without [transaction_id]. *)
Definition transaction_without_id (date amount : string) : pydict :=
  dict_of [
    ("customer_id", VStr "CUST001");
    ("card_number", VStr "1234");
    ("amount", VFloat (default S754_nan (parse_float amount)));
    ("currency", VStr "USD");
    ("transaction_date", VStr date);
    ("merchant", VStr "Netflix")
  ].

Definition empty_store : store := {| cases := []; calls := [] |}.

(** Surroundings in which the store answers every call. *)
Definition calm (id : string) : call_env := {|
  utcnow := now;
  uuid4 := id;
  created_at_now := "2024-06-01T12:00:00.000120";
  updated_at_now := "2024-06-01T12:00:00.000131";
  read_fault := None;
  write_fault := None
|}.

Definition unavailable : pyexn :=
  ClientError "InternalServerError" "An error occurred (InternalServerError)".

(** Surroundings in which the index query fails. *)
Definition failing_read (id : string) : call_env := {|
  utcnow := now;
  uuid4 := id;
  created_at_now := "2024-06-01T12:05:00.000120";
  updated_at_now := "2024-06-01T12:05:00.000131";
  read_fault := Some unavailable;
  write_fault := None
|}.

(** Surroundings in which the write fails. *)
Definition failing_write (id : string) : call_env := {|
  utcnow := now;
  uuid4 := id;
  created_at_now := "2024-06-01T12:00:00.000120";
  updated_at_now := "2024-06-01T12:00:00.000131";
  read_fault := None;
  write_fault := Some unavailable
|}.

(** A table resource that knows its indexes: a query on another index is
    refused by the store; every other call is answered. *)
Definition sample_table (name : string) (indexes : list string)
    (items : list pydict) : table := {|
  table_name := name;
  query := λ params,
    match IndexName params with
    | Some i =>
        if bool_decide (i ∈ indexes) then Ret (mk_response (Some []) (Some 0%Z))
        else Raise (ClientError "ValidationException"
                      ("The table does not have the specified index: " +:+ i))
    | None => Ret (mk_response (Some []) (Some 0%Z))
    end;
  get_item := λ _, Ret None;
  scan := λ _, Ret (mk_response (Some items) None);
  DynamoQueryTool.put_item := λ _, Ret ();
  update_item := λ _, Ret ()
|}.

Definition sample_db : db_client := {|
  cards_table := sample_table CARDS_TRANSACTIONS_TABLE ["TransactionIndex"] [];
  case_table := sample_table CASE_DB_TABLE ["TransactionIndex"; "CustomerIndex"] []
|}.

(** The first dispute of a recent transaction of 250.00, and the store and
    the case it leaves. *)
Definition disputed : pydict := transaction "TXN001" "2024-05-22T10:00:00Z" "250.00".

Definition store_after_first : store :=
  (process_dispute (H:=sample) (order:=by_case_id)
      (calm "case-0001") disputed empty_store).2.

(** A table that holds one open case for the transaction [TXN001]. *)
Definition open_case : pydict :=
  dict_of [
    ("case_id", VStr "case-0001");
    ("customer_id", VStr "CUST001");
    ("transaction_id", VStr "TXN001");
    ("dispute_status", VStr "FORWARDED_TO_ACQUIRER");
    ("credit_type", VStr "TEMPORARY");
    ("credit_issued", VBool true);
    ("auto_decided", VBool true);
    ("requires_manual_review", VBool true)
  ].

Definition store_with_open_case : store := {| cases := [open_case]; calls := [] |}.

End Samples.

(** ** crew_ai_app/db/dynamo_client.py: the other case and transaction
       operations *)

Module CaseRepository.
Import Py DynamoClient.

(** [case_table.get_item(Key={'case_id': case_id})] inside [get_case]: the
    item with that primary key, if any; the handlers of [get_case] re-raise
    what the store raises. One call of the undecorated coroutine. *)
Definition get_case_attempt (fault : option pyexn) (case_id : pyval) (s : store)
    : exc (option pydict) :=
  match fault with
  | Some e => Raise e
  | None => Ret (head (filter (λ item, key_matches "case_id" case_id item) (cases s)))
  end.

(** What a decorated coroutine hands back as a Python value: the value
    returned, [None] included. *)
Definition returned {A} (o : option (option A)) : option A :=
  match o with
  | Some (Some a) => Some a
  | _ => None
  end.

(** [get_case] as decorated: [faults attempt] is what the store does at
    each attempt. *)
Definition get_case (faults : nat → option pyexn) (case_id : pyval) (s : store)
    : exc (option (option pydict)) * list float :=
  store_retry (λ attempt, get_case_attempt (faults attempt) case_id s).

(** [DisputeDecisionAgent.get_case_details]: [get_case], any exception
    answered by [None]. *)
Definition get_case_details (faults : nat → option pyexn) (case_id : pyval)
    (s : store) : option pydict :=
  try_except (case_data ← (get_case faults case_id s).1; Ret (returned case_data))
    (λ _, None).

Section WithIndexOrder.
Context {order : IndexOrder}.

(** [case_table.query(IndexName='CustomerIndex',
      KeyConditionExpression=Key('customer_id').eq(customer_id),
      Limit=limit, ScanIndexForward=False)]: at most [limit] items of the
    customer, the first ones in the order of the index, which has no sort
    key either; a limit below 1 does not pass the validation of the
    request. *)
Definition query_customer_index (fault : option pyexn) (customer_id : pyval)
    (limit : Z) (s : store) : exc (list pydict) :=
  match fault with
  | Some e => Raise e
  | None =>
      if bool_decide (limit < 1)%Z then
        Raise (PyException "ParamValidationError"
                 "Invalid range for parameter Limit, valid min value: 1")
      else
        Ret (take (Z.to_nat limit)
               (index_sort
                  (filter (λ item, key_matches "customer_id" customer_id item)
                     (cases s))))
  end.

(** [list_cases_by_customer]: both handlers answer the empty list. *)
Definition list_cases_by_customer (fault : option pyexn) (customer_id : pyval)
    (limit : Z) (s : store) : list pydict :=
  try_except (query_customer_index fault customer_id limit s) (λ _, []).
End WithIndexOrder.

(** The request [update_case] sends with [case_table.update_item]. *)
Record update_request := mk_update_request {
  request_key : pyval;
  update_expression : string;
  expression_names : gmap string string;
  expression_values : pydict
}.

(** [s.rstrip(", ")]: trailing commas and blanks are removed. *)
Fixpoint rstrip_comma_space (s : string) : string :=
  match s with
  | EmptyString => EmptyString
  | String a rest =>
      match rstrip_comma_space rest with
      | EmptyString =>
          if bool_decide (a = "," ∨ a = " ")%char then EmptyString
          else String a EmptyString
      | rest' => String a rest'
      end
  end.

(** [float(v)] for a value read from an item. *)
Definition to_float `{Runtime} (v : pyval) : exc float :=
  match v with
  | VStr s =>
      of_option (PyException "ValueError" "could not convert string to float")
        (float_of_string s)
  | VBool b => Ret (float_of_Z (if b then 1 else 0))
  | VInt n => float_of_int n
  | VFloat x => Ret x
  | VDecimal d =>
      of_option (PyException "ValueError" "cannot convert signaling NaN to float")
        (float_of_decimal d)
  | _ => Raise (PyException "TypeError"
                  "float() argument must be a string or a real number")
  end.

(** Truth value of an optional string argument: [None] and [""] are false. *)
Definition given (o : option string) : option string :=
  match o with
  | Some (String a rest) => Some (String a rest)
  | _ => None
  end.

(** [expected and value != expected] *)
Definition differs (expected : option string) (value : pyval) : bool :=
  match given expected with
  | Some e => negb (eq_str value e)
  | None => false
  end.

Section WithRuntime.
Context `{Runtime}.

(** The request built by [update_case]: the updates with their floats
    converted, one [#key = :key] per field, then the time stamp. *)
Definition update_case_request (now_iso : string) (case_id : pyval)
    (updates : list (string * pyval)) : update_request :=
  let updates := map (λ kv, (kv.1, convert_floats_to_decimal kv.2)) updates in
  let update_expression :=
    foldl (λ acc kv, acc +:+ "#" +:+ kv.1 +:+ " = :" +:+ kv.1 +:+ ", ")
      "SET " updates in
  let expression_names : gmap string string :=
    foldl (λ acc kv, <["#" +:+ kv.1 := kv.1]> acc) ∅ updates in
  let expression_values : pydict :=
    foldl (λ acc kv, <[":" +:+ kv.1 := kv.2]> acc) ∅ updates in
  let update_expression := rstrip_comma_space update_expression in
  {| request_key := case_id;
     update_expression := update_expression +:+ ", #updated_at = :updated_at";
     expression_names := <["#updated_at" := "updated_at"]> expression_names;
     expression_values := <[":updated_at" := VStr now_iso]> expression_values |}.

(** One call of the undecorated [update_case]: the request it sends and
    [True], or [False] when the store raises. *)
Definition update_case_attempt (now_iso : string) (fault : option pyexn)
    (case_id : pyval) (updates : list (string * pyval)) : bool * update_request :=
  let request := update_case_request now_iso case_id updates in
  (try_except (match fault with
               | Some e => Raise e
               | None => Ret true
               end) (λ _, false), request).

(** [update_case] as decorated; [now_iso] is the clock at each attempt. *)
Definition update_case (now_iso : nat → string) (faults : nat → option pyexn)
    (case_id : pyval) (updates : list (string * pyval))
    : exc (option bool) * list float :=
  store_retry (λ attempt,
    Ret (update_case_attempt (now_iso attempt) (faults attempt) case_id updates).1).

(** The dictionary [get_transaction] builds from the item found. *)
Definition transaction_of_item (item : pydict) : exc pydict :=
  amount ← to_float (get_or item "amount" (VInt 0));
  Ret (dict_of [
    ("transaction_id", get item "transaction_id");
    ("customer_id", get item "customer_id");
    ("card_number", get item "card_number");
    ("card_type", get item "card_type");
    ("cardholder_name", get item "cardholder_name");
    ("amount", VFloat amount);
    ("currency", get item "currency");
    ("transaction_date", get item "transaction_date");
    ("merchant", get item "merchant");
    ("description", get item "description");
    ("status", get item "status")
  ]).

(** One call of the undecorated [get_transaction]; [cards] are the items
    of the cards-and-transactions table in the order in which its
    [TransactionIndex] answers. The first item of the answer is checked
    against the customer and the card when they are given. The handler
    re-raises. *)
Definition get_transaction_attempt (fault : option pyexn) (cards : list pydict)
    (transaction_id : pyval) (customer_id card_number : option string)
    : exc (option pydict) :=
  match fault with
  | Some e => Raise e
  | None =>
      match filter (λ item, key_matches "transaction_id" transaction_id item) cards with
      | item :: _ =>
          if differs customer_id (get item "customer_id") then Ret None
          else if differs card_number (get item "card_number") then Ret None
          else Some <$> transaction_of_item item
      | [] => Ret None
      end
  end.

(** [get_transaction] as decorated. *)
Definition get_transaction (faults : nat → option pyexn) (cards : list pydict)
    (transaction_id : pyval) (customer_id card_number : option string)
    : exc (option (option pydict)) * list float :=
  store_retry (λ attempt,
    get_transaction_attempt (faults attempt) cards transaction_id
      customer_id card_number).
End WithRuntime.

End CaseRepository.

(** ** crew_ai_app/agents/verification_agent.py and crew_ai_app/crew.py:
       from a transaction identifier to a dispute case *)

Module Verification.
Import Py DynamoClient DisputeDecisionAgent CaseRepository.

(** The dictionary returned by [TransactionLookupTool._run], by shape. *)
Inductive lookup_result :=
| Found (transaction_id : pyval) (transaction : pydict) (message : string)
| NotFound (message : string).

(** The dictionary returned by [DisputeResolutionCrew.verify_transaction]:
    the failed lookup as it is, or the transaction with its dispute case. *)
Inductive verification_result :=
| Rejected (lookup : lookup_result)
| Disputed (transaction : pydict) (dispute_case : pydict).

(** [result["success"]] / [result.get("success")] *)
Definition lookup_success (r : lookup_result) : bool :=
  match r with
  | Found _ _ _ => true
  | NotFound _ => false
  end.

Definition verification_success (r : verification_result) : bool :=
  match r with
  | Rejected lookup => lookup_success lookup
  | Disputed _ _ => true
  end.

Section WithRuntime.
Context `{Runtime} {order : IndexOrder}.

(** [TransactionLookupTool._run] *)
Definition transaction_lookup_run (faults : nat → option pyexn)
    (cards : list pydict) (transaction_id : pyval)
    (customer_id card_number : option string) : lookup_result :=
  try_except
    (transaction_data ←
       (get_transaction faults cards transaction_id customer_id card_number).1;
     Ret (match if_truthy (returned transaction_data) with
          | Some transaction =>
              Found transaction_id transaction "Transaction found successfully"
          | None => NotFound "Transaction not found"
          end))
    (λ e, NotFound ("Error retrieving transaction data: " +:+ str_of_exn e)).

(** [VerificationAgent.verify_transaction]; the tool raises nothing, so the
    handler of the agent is not entered. *)
Definition agent_verify_transaction (faults : nat → option pyexn)
    (cards : list pydict) (transaction_id : pyval)
    (customer_id card_number : option string) : lookup_result :=
  transaction_lookup_run faults cards transaction_id customer_id card_number.

(** [DisputeResolutionCrew.verify_transaction]: the lookup, then the
    dispute workflow on the transaction found. *)
Definition verify_transaction (faults : nat → option pyexn) (env : call_env)
    (cards : list pydict) (transaction_id : pyval)
    (customer_id card_number : option string) (s : store)
    : exc verification_result * store :=
  let txn_result :=
    agent_verify_transaction faults cards transaction_id customer_id card_number in
  match txn_result with
  | NotFound _ => (Ret (Rejected txn_result), s)
  | Found _ transaction _ =>
      let '(dispute_result, s') := process_dispute env transaction s in
      (r ← dispute_result; Ret (Disputed transaction r), s')
  end.
End WithRuntime.

End Verification.

(** ** Observations used to state properties *)

Module Observe.
Import Py DynamoClient DynamoQueryTool.

(** A float occurs in the value, at any depth. *)
Fixpoint has_float (v : pyval) : bool :=
  match v with
  | VFloat _ => true
  | VList items => existsb has_float items
  | VDict entries => existsb (λ kv, has_float kv.2) entries
  | _ => false
  end.

(** The conjuncts of a condition, left to right. *)
Fixpoint conjuncts (c : condition) : list condition :=
  match c with
  | And l r => conjuncts l ++ conjuncts r
  | _ => [c]
  end.

(** [#k = :k] for each key, joined by [", "]. *)
Definition assignments (keys : list string) : string :=
  join ", " (map (λ k, "#" +:+ k +:+ " = :" +:+ k) keys).

(** A case is open when its status is none of the closed ones. *)
Definition is_open (case : pydict) : bool :=
  negb (in_strs (get_or case "dispute_status" (VStr "")) closed_statuses).

(** The open cases of a transaction in the table. *)
Definition open_cases (transaction_id : string) (s : store) : list pydict :=
  filter (λ case, key_matches "transaction_id" (VStr transaction_id) case
                  && is_open case) (cases s).

(** The cases of a transaction in the table. *)
Definition cases_of (transaction_id : string) (s : store) : list pydict :=
  filter (λ case, key_matches "transaction_id" (VStr transaction_id) case) (cases s).

(** A transaction all of whose cases are open has one case at most. *)
Definition lone_when_open (s : store) : Prop :=
  ∀ tid, Forall (λ case, is_open case = true) (cases_of tid s) →
         (length (cases_of tid s) ≤ 1)%nat.

End Observe.


(** ** More sample data *)

Module MoreSamples.
Import Py DynamoClient DisputeDecisionAgent CaseRepository SampleRuntime Samples.

(** A recent purchase of 50.00: resolved for the customer at once. *)
Definition small_purchase : pydict :=
  transaction "TXN002" "2024-05-22T10:00:00Z" "50.00".

(** The item of the transaction [TXN001] in the cards-and-transactions
    table; the amount is stored as a decimal. *)
Definition card_item : pydict :=
  dict_of [
    ("customer_id", VStr "CUST001");
    ("card_number", VStr "1234");
    ("card_type", VStr "VISA");
    ("cardholder_name", VStr "A. Customer");
    ("transaction_id", VStr "TXN001");
    ("amount", VDecimal (DecFinite false 25000 (-2)));
    ("currency", VStr "USD");
    ("transaction_date", VStr "2024-05-22T10:00:00Z");
    ("merchant", VStr "Netflix");
    ("description", VStr "Monthly subscription");
    ("status", VStr "COMPLETED")
  ].

(** A store that answers every call. *)
Definition no_fault : nat → option pyexn := λ _, None.

(** An earlier case of the transaction [TXN001], which the acquirer has
    resolved since: closed. *)
Definition resolved_case : pydict :=
  dict_of [
    ("case_id", VStr "case-0000");
    ("customer_id", VStr "CUST001");
    ("transaction_id", VStr "TXN001");
    ("dispute_status", VStr "RESOLVED_ACQUIRER");
    ("created_at", VStr "2024-03-01T09:00:00.000000");
    ("updated_at", VStr "2024-03-20T16:30:00.000000")
  ].

(** A table that holds this closed case only. *)
Definition store_with_resolved_case : store :=
  {| cases := [resolved_case]; calls := [] |}.

(** A table in which the transaction [TXN001] has a lineage: the closed
    case and, written after it, the open case of a later dispute. *)
Definition store_with_lineage : store :=
  {| cases := [open_case; resolved_case]; calls := [] |}.

(** The [case_id]s of a list of cases. *)
Definition case_ids (l : list pydict) : list (option pyval) :=
  map (λ case, case !! "case_id") l.

(** What a result says of the case it is about. *)
Definition outcome (r : exc pydict)
    : exc (option pyval * option pyval * option pyval) :=
  (λ d, (d !! "existing_case", d !! "dispute_status", d !! "case_id")) <$> r.

(** What a decorated lookup returned, or the empty dictionary. *)
Definition transaction_found (r : exc (option (option pydict))) : pydict :=
  match r with
  | Ret (Some (Some d)) => d
  | _ => ∅
  end.

Definition is_found (r : exc (option (option pydict))) : bool :=
  match r with
  | Ret (Some (Some _)) => true
  | _ => false
  end.

(** Three disputes in a row: twice the same transaction, then a small
    purchase whose write the store refuses. *)
Definition three_requests : list (call_env * pydict) :=
  [(calm "case-0001", disputed); (calm "case-0002", disputed);
   (failing_write "case-0003", small_purchase)].

End MoreSamples.

(** * Properties *)

Import Py DynamoClient DisputeDecisionAgent DynamoQueryTool SampleRuntime Samples.
Import CaseRepository Verification Observe MoreSamples.

(** ** The retry decorator *)

Lemma wait_time_0 delay : wait_time delay 0 = Ret (float_mul delay (float_of_Z 1)).
Proof. reflexivity. Qed.
Lemma wait_time_1 delay : wait_time delay 1 = Ret (float_mul delay (float_of_Z 2)).
Proof. reflexivity. Qed.

Ltac retry_case func :=
  match goal with
  | |- context [bool_decide (?c ∈ throttling_codes)] =>
      let Hc := fresh "Hcode" in
      destruct (decide (c ∈ throttling_codes)) as [Hc|Hc];
      [rewrite (bool_decide_eq_true_2 _ Hc) | rewrite (bool_decide_eq_false_2 _ Hc)]
  | |- context [match func ?k with _ => _ end] =>
      let E := fresh "Ecall" in
      destruct (func k) as [?|[? ?|? ?]] eqn:E; simpl bool_decide; cbv iota
  end.

(** C8 (as amended). A store operation decorated with
    [@async_retry(max_attempts=3, delay=0.5)] is called at most three times;
    the calls made are those numbered [0] to the number of sleeps, and the
    wrapper ends with the outcome of the last of them. A call that raises a
    throttling [ClientError] before the last attempt is followed by a sleep
    of [0.5 * 2 ** attempt] seconds (0.5, then 1.0) and another call; a
    [ClientError] with any other code is raised to the caller at once, with
    no further call or sleep; an exception that is not a [ClientError] is
    followed, before the last attempt, by a sleep of the flat 0.5 seconds
    and another call; a call that returns ends the wrapper with its value;
    no sleep is made for another reason. *)
Theorem store_retry_schedule {A} (func : nat → exc A) :
  let '(r, sleeps) := store_retry func in
  (length sleeps ≤ 2)%nat ∧
  r = (Some <$> func (length sleeps)) ∧
  (∀ k code msg, (k < 2)%nat → (k ≤ length sleeps)%nat →
     func k = Raise (ClientError code msg) → code ∈ throttling_codes →
     (k < length sleeps)%nat ∧
     sleeps !! k = Some (float_mul float_half (float_of_Z (2 ^ Z.of_nat k)))) ∧
  (∀ k cls msg, (k < 2)%nat → (k ≤ length sleeps)%nat →
     func k = Raise (PyException cls msg) →
     (k < length sleeps)%nat ∧ sleeps !! k = Some float_half) ∧
  (∀ k code msg, (k ≤ length sleeps)%nat →
     func k = Raise (ClientError code msg) → code ∉ throttling_codes →
     k = length sleeps ∧ r = Raise (ClientError code msg)) ∧
  (∀ k a, (k ≤ length sleeps)%nat → func k = Ret a →
     k = length sleeps ∧ r = Ret (Some a)) ∧
  (∀ k w, sleeps !! k = Some w →
     (∃ code msg, func k = Raise (ClientError code msg) ∧
        code ∈ throttling_codes ∧
        w = float_mul float_half (float_of_Z (2 ^ Z.of_nat k)))
     ∨ (∃ cls msg, func k = Raise (PyException cls msg) ∧ w = float_half)) ∧
  float_mul float_half (float_of_Z (2 ^ 0)) = float_half ∧
  float_mul float_half (float_of_Z (2 ^ 1)) = float_of_Z 1.
Proof.
  unfold store_retry, async_retry. cbn [wrapper_from].
  rewrite wait_time_0, wait_time_1.
  repeat retry_case func.
  all: split; [simpl; lia|].
  all: split; [simpl length; rewrite ?Ecall, ?Ecall0, ?Ecall1; reflexivity|].
  all: split;
    [intros [|[|k]] cd ms Hk Hreached Hf Hn; simpl in Hreached; try lia;
     first [congruence | split; [simpl; lia|reflexivity]]|].
  all: split;
    [intros [|[|k]] cl ms Hk Hreached Hf; simpl in Hreached; try lia;
     first [congruence | split; [simpl; lia|reflexivity]]|].
  all: split;
    [intros [|[|[|k]]] cd ms Hk Hf Hn; simpl in Hk; try lia;
     first [congruence | split; [reflexivity|congruence]]|].
  all: split;
    [intros [|[|[|k]]] a' Hk Hf; simpl in Hk; try lia;
     first [congruence | split; [reflexivity|congruence]]|].
  all: split; [intros [|[|k]] w Hw; simplify_eq/=; eauto 10|].
  all: split; reflexivity.
Qed.

Lemma wrapper_from_sleeps {A} (func : nat → exc A) max_attempts delay remaining attempt :
  (attempt + remaining = max_attempts)%nat →
  (length (wrapper_from func max_attempts delay remaining attempt).2 ≤ remaining - 1)%nat.
Proof.
  revert attempt. induction remaining as [|remaining IH]; intros attempt Hsum; [simpl; lia|].
  cbn [wrapper_from].
  destruct (func attempt) as [a|[code msg|cls msg]]; [simpl; lia| |].
  - case_bool_decide; [simpl; lia|].
    case_bool_decide; [|simpl; lia].
    destruct (wait_time delay attempt); [|simpl; lia].
    specialize (IH (S attempt) ltac:(lia)).
    destruct (wrapper_from func max_attempts delay remaining (S attempt)) as [r sleeps].
    simpl in *. lia.
  - case_bool_decide; [simpl; lia|].
    specialize (IH (S attempt) ltac:(lia)).
    destruct (wrapper_from func max_attempts delay remaining (S attempt)) as [r sleeps].
    simpl in *. lia.
Qed.

Lemma async_retry_attempts {A} (func : nat → exc A) max_attempts delay :
  (length (async_retry func max_attempts delay).2 ≤ max_attempts - 1)%nat.
Proof. apply wrapper_from_sleeps. lia. Qed.

(** C8 as stated fails: a connection error, which is not a throttling
    error, does not reach the caller; the wrapper sleeps 0.5 seconds, calls
    again and returns the value of the second call. *)
Lemma other_exception_is_retried :
  let e := PyException "EndpointConnectionError" "Could not connect to the endpoint URL" in
  let func := λ attempt : nat, match attempt with O => Raise e | S _ => Ret 7%Z end in
  store_retry func = (Ret (Some 7%Z), [float_half]) ∧
  store_retry func ≠ (Raise e, []).
Proof. split; [reflexivity | discriminate]. Qed.

(** ** The decision rules *)

Section Decision.
Context `{Runtime}.

(** The two tests of [_determine_case_status] as one cascade: the second
    test repeats the negation of the first, which can be dropped. *)
Lemma first_match_wins (now : Z) (transaction_data : pydict) :
  let age_days :=
    _calculate_transaction_age_days now
      (get_or transaction_data "transaction_date"
         (get_or transaction_data "date" (VStr ""))) in
  let amount_usd := _extract_amount_usd transaction_data in
  _determine_case_status now transaction_data =
    (if bool_decide (age_days > 600)%Z then
       ("REJECTED_TIME_BARRED",
        "Transaction is " +:+ pretty age_days
          +:+ " days old, exceeding the 600 day limit",
        None, None)
     else if float_le amount_usd (float_of_Z 100) then
       ("RESOLVED_CUSTOMER",
        "Small amount dispute ($" +:+ repr_float amount_usd
          +:+ ") resolved in customer's favor with permanent credit",
        Some "PERMANENT", Some amount_usd)
     else
       ("FORWARDED_TO_ACQUIRER",
        "Amount $" +:+ repr_float amount_usd
          +:+ " forwarded to acquirer for investigation with temporary credit issued",
        Some "TEMPORARY", Some amount_usd)).
Proof.
  intros age_days amount_usd.
  unfold _determine_case_status. fold amount_usd. fold age_days.
  unfold TIME_BARRED_DAYS.
  case_bool_decide as Hage; [reflexivity|].
  rewrite bool_decide_eq_true_2 by lia. reflexivity.
Qed.

(** C1. The decision is the first rule that applies: an age above 600 days
    rejects the dispute as time-barred, with the age in the reason and no
    credit; otherwise an amount of at most 100.0 resolves it for the
    customer with a permanent credit of that amount; otherwise it is
    forwarded to the acquirer with a temporary credit of that amount. The
    amount 100.0 itself passes the amount test and the age 600 itself does
    not pass the age test. *)
Theorem decision_rules (now : Z) (transaction_data : pydict) :
  let age_days :=
    _calculate_transaction_age_days now
      (get_or transaction_data "transaction_date"
         (get_or transaction_data "date" (VStr ""))) in
  let amount_usd := _extract_amount_usd transaction_data in
  _determine_case_status now transaction_data =
    (if bool_decide (age_days > 600)%Z then
       ("REJECTED_TIME_BARRED",
        "Transaction is " +:+ pretty age_days
          +:+ " days old, exceeding the 600 day limit",
        None, None)
     else if float_le amount_usd (float_of_Z 100) then
       ("RESOLVED_CUSTOMER",
        "Small amount dispute ($" +:+ repr_float amount_usd
          +:+ ") resolved in customer's favor with permanent credit",
        Some "PERMANENT", Some amount_usd)
     else
       ("FORWARDED_TO_ACQUIRER",
        "Amount $" +:+ repr_float amount_usd
          +:+ " forwarded to acquirer for investigation with temporary credit issued",
        Some "TEMPORARY", Some amount_usd))
  ∧ float_le (float_of_Z 100) AUTO_RESOLVE_AMOUNT_USD = true
  ∧ bool_decide (600 > TIME_BARRED_DAYS)%Z = false.
Proof.
  intros age_days amount_usd. split; [|split; reflexivity].
  apply first_match_wins.
Qed.

Lemma extract_no_amount (t : pydict) :
  (∀ field, field ∈ amount_fields → t !! field = None) →
  _extract_amount_usd t = NO_AMOUNT.
Proof.
  intros Hnone. unfold _extract_amount_usd.
  assert (Hloop : ∀ fields, fields ⊆ amount_fields → extract_from fields t = Ret NO_AMOUNT).
  { induction fields as [|field rest IH]; intros Hsub; [reflexivity|].
    simpl. rewrite Hnone by (apply Hsub; left).
    apply IH. intros x Hx. apply Hsub. by right. }
  by rewrite Hloop.
Qed.

(** C5 (as amended). A record with none of the fields [amount_usd],
    [amount], [transaction_amount], [value] raises nothing: the extracted
    amount is 999999.0, and the decision is to forward to the acquirer with
    a temporary credit unless the transaction is older than 600 days, which
    is tested first and rejects it as time-barred. *)
Theorem no_amount_field_forwards (now : Z) (transaction_data : pydict) :
  (∀ field, field ∈ amount_fields → transaction_data !! field = None) →
  let age_days :=
    _calculate_transaction_age_days now
      (get_or transaction_data "transaction_date"
         (get_or transaction_data "date" (VStr ""))) in
  _extract_amount_usd transaction_data = float_of_Z 999999 ∧
  ((age_days ≤ 600)%Z →
     ∃ reason, _determine_case_status now transaction_data =
       ("FORWARDED_TO_ACQUIRER", reason, Some "TEMPORARY", Some (float_of_Z 999999))) ∧
  ((age_days > 600)%Z →
     ∃ reason, _determine_case_status now transaction_data =
       ("REJECTED_TIME_BARRED", reason, None, None)).
Proof.
  intros Hnone age_days.
  pose proof (extract_no_amount _ Hnone) as Hamount.
  pose proof (first_match_wins now transaction_data) as Hrules.
  cbv zeta in Hrules. fold age_days in Hrules. rewrite Hamount in Hrules.
  split; [exact Hamount|]. split; intros Hage.
  - rewrite bool_decide_eq_false_2 in Hrules by lia.
    replace (float_le NO_AMOUNT (float_of_Z 100)) with false in Hrules by reflexivity.
    eexists. exact Hrules.
  - rewrite bool_decide_eq_true_2 in Hrules by lia.
    eexists. exact Hrules.
Qed.
End Decision.

Lemma no_amount_field_forwards_witness :
  let t := transaction_without_amount "TXN001" "2024-05-22T10:00:00Z" in
  _extract_amount_usd (H:=sample) t = float_of_Z 999999 ∧
  ∃ reason, _determine_case_status (H:=sample) now t =
    ("FORWARDED_TO_ACQUIRER", reason, Some "TEMPORARY", Some (float_of_Z 999999)).
Proof.
  intros t.
  assert (Hnone : ∀ field, field ∈ amount_fields → t !! field = None).
  { intros field Hfield. unfold amount_fields in Hfield.
    repeat (apply elem_of_cons in Hfield as [->|Hfield]; [reflexivity|]).
    by apply elem_of_nil in Hfield. }
  destruct (no_amount_field_forwards (H:=sample) now t Hnone) as (Hamount & Hrecent & _).
  split; [exact Hamount|]. apply Hrecent. vm_compute. discriminate.
Defined.

(** C5 as stated fails: a record without any amount field, dated 700 days
    back, is rejected as time-barred and gets no credit. *)
Lemma no_amount_field_time_barred :
  let t := transaction_without_amount "TXN001" "2022-07-02T10:00:00Z" in
  t !! "amount_usd" = None ∧ t !! "amount" = None ∧
  t !! "transaction_amount" = None ∧ t !! "value" = None ∧
  _extract_amount_usd (H:=sample) t = float_of_Z 999999 ∧
  _determine_case_status (H:=sample) now t =
    ("REJECTED_TIME_BARRED",
     "Transaction is 700 days old, exceeding the 600 day limit", None, None).
Proof. vm_compute. repeat split. Qed.

Example scenario_A :
  (_determine_case_status (H:=sample) now
     (transaction "TXN001" "2022-07-02T10:00:00Z" "50.00")).1.1.1
  = "REJECTED_TIME_BARRED".
Proof. reflexivity. Qed.
Example scenario_B :
  ∃ reason, _determine_case_status (H:=sample) now
     (transaction "TXN001" "2024-05-22T10:00:00Z" "100.00")
  = ("RESOLVED_CUSTOMER", reason, Some "PERMANENT", Some (float_of_Z 100)).
Proof. eexists. vm_compute. reflexivity. Qed.
Example scenario_C :
  ∃ reason, _determine_case_status (H:=sample) now
     (transaction "TXN001" "2024-05-22T10:00:00Z" "100.01")
  = ("FORWARDED_TO_ACQUIRER", reason, Some "TEMPORARY", parse_float "100.01").
Proof. eexists. vm_compute. reflexivity. Qed.
Example age_600_is_not_time_barred :
  _calculate_transaction_age_days (H:=sample) now (VStr "2022-10-10T12:00:00Z") = 600%Z ∧
  (_determine_case_status (H:=sample) now
     (transaction "TXN001" "2022-10-10T12:00:00Z" "100.00")).1.1.1
  = "RESOLVED_CUSTOMER".
Proof. vm_compute. split; reflexivity. Qed.

(** ** The order of an index *)

Lemma filter_true (P : pydict → bool) (h : pydict) (tl : list pydict) :
  P h = true → filter (λ c, P c) (h :: tl) = h :: filter (λ c, P c) tl.
Proof. intros Hh. rewrite filter_cons_True; [done|]. by apply Is_true_true_2. Qed.

Lemma filter_false (P : pydict → bool) (h : pydict) (tl : list pydict) :
  P h = false → filter (λ c, P c) (h :: tl) = filter (λ c, P c) tl.
Proof. intros Hh. rewrite filter_cons_False; [done|]. by apply Is_true_false_2. Qed.

Section IndexOrderFacts.
Context {order : IndexOrder}.

Lemma index_insert_perm (item : pydict) (answer : list pydict) :
  index_insert item answer ≡ₚ item :: answer.
Proof.
  induction answer as [|other rest IH]; [done|].
  cbn [index_insert]. case_bool_decide; [done|].
  rewrite IH. apply Permutation_swap.
Qed.

Lemma index_sort_perm (items : list pydict) : index_sort items ≡ₚ items.
Proof.
  induction items as [|item items IH]; [done|].
  cbn [index_sort foldr]. fold (index_sort items).
  by rewrite index_insert_perm, IH.
Qed.

Lemma index_sort_elem (item : pydict) (items : list pydict) :
  item ∈ index_sort items ↔ item ∈ items.
Proof. by rewrite index_sort_perm. Qed.

Lemma index_sort_cons (item : pydict) (items : list pydict) :
  index_sort (item :: items) = index_insert item (index_sort items).
Proof. reflexivity. Qed.

Lemma index_sort_singleton (item : pydict) : index_sort [item] = [item].
Proof. reflexivity. Qed.

Lemma index_insert_sorted (item : pydict) (answer : list pydict) :
  StronglySorted (λ a b, rank_of a ≤ rank_of b)%Z answer →
  StronglySorted (λ a b, rank_of a ≤ rank_of b)%Z (index_insert item answer).
Proof.
  induction 1 as [|other rest Hrest IH Hother]; cbn [index_insert].
  { repeat constructor. }
  case_bool_decide as Hle.
  - constructor; [by constructor|]. constructor; [done|].
    eapply Forall_impl; [exact Hother|]. intros b Hb. cbn beta in *. lia.
  - constructor; [exact IH|].
    rewrite index_insert_perm. constructor; [lia|done].
Qed.

Lemma index_sort_sorted (items : list pydict) :
  StronglySorted (λ a b, rank_of a ≤ rank_of b)%Z (index_sort items).
Proof.
  induction items as [|item items IH]; [constructor|].
  rewrite index_sort_cons. by apply index_insert_sorted.
Qed.

(** The first item of an answer to which an item is added is that item or
    the first item of before, which then ranks strictly before it. *)
Lemma head_index_insert (item : pydict) (answer : list pydict) :
  head (index_insert item answer) = Some item ∨
  ∃ other, head answer = Some other ∧ head (index_insert item answer) = Some other ∧
           (rank_of other < rank_of item)%Z.
Proof.
  destruct answer as [|other rest]; [by left|].
  cbn [index_insert]. case_bool_decide; [by left|].
  right. exists other. repeat split. lia.
Qed.

Lemma index_insert_filter_out (q : pydict → bool) (item : pydict) (answer : list pydict) :
  q item = false →
  filter (λ x, q x) (index_insert item answer) = filter (λ x, q x) answer.
Proof.
  intros Hq. induction answer as [|other rest IH]; cbn [index_insert].
  - by rewrite filter_false.
  - case_bool_decide; [by rewrite filter_false|].
    destruct (q other) eqn:Ho.
    + by rewrite !(filter_true q other), IH.
    + by rewrite !(filter_false q other), IH.
Qed.

Lemma index_insert_first (item : pydict) (answer : list pydict) :
  (∀ other, head answer = Some other → (rank_of item ≤ rank_of other)%Z) →
  index_insert item answer = item :: answer.
Proof.
  destruct answer as [|other rest]; [done|]. intros Hle.
  cbn [index_insert]. by rewrite bool_decide_eq_true_2 by (by apply Hle).
Qed.

Lemma index_insert_filter_in (q : pydict → bool) (item : pydict) (answer : list pydict) :
  StronglySorted (λ a b, rank_of a ≤ rank_of b)%Z answer →
  q item = true →
  filter (λ x, q x) (index_insert item answer)
  = index_insert item (filter (λ x, q x) answer).
Proof.
  intros Hsorted Hq.
  induction Hsorted as [|other rest Hrest IH Hother]; cbn [index_insert].
  - by rewrite filter_true.
  - case_bool_decide as Hle.
    + rewrite (filter_true q item) by done.
      rewrite index_insert_first; [done|].
      intros y Hy. apply head_Some_elem_of in Hy.
      apply list_elem_of_filter in Hy as [_ Hy].
      apply elem_of_cons in Hy as [->|Hy]; [done|].
      rewrite Forall_forall in Hother. specialize (Hother y Hy). cbn beta in Hother. lia.
    + destruct (q other) eqn:Ho.
      * rewrite !(filter_true q other) by done. cbn [index_insert].
        rewrite bool_decide_eq_false_2 by done. by rewrite IH.
      * rewrite !(filter_false q other) by done. exact IH.
Qed.

(** Taking items away changes nothing in the order of the others. *)
Lemma filter_index_sort (q : pydict → bool) (items : list pydict) :
  filter (λ x, q x) (index_sort items) = index_sort (filter (λ x, q x) items).
Proof.
  induction items as [|item items IH]; [done|].
  rewrite index_sort_cons. destruct (q item) eqn:Hq.
  - rewrite index_insert_filter_in by (apply index_sort_sorted || done).
    by rewrite filter_true, index_sort_cons, IH.
  - rewrite index_insert_filter_out by done.
    by rewrite filter_false.
Qed.
End IndexOrderFacts.

(** ** The workflow *)

Section Workflow.
Context `{Runtime} {order : IndexOrder}.

Lemma Ret_inj {A} (a b : A) : Ret a = Ret b → a = b.
Proof. by intros [= ->]. Qed.

Lemma key_matches_nonempty key_name key (item : pydict) :
  key_matches key_name key item = true → item ≠ ∅.
Proof.
  unfold key_matches. intros Hm ->. by rewrite lookup_empty in Hm.
Qed.

Lemma query_items fault tid s items :
  (query_transaction_index fault tid s).1 = Ret items →
  fault = None ∧
  items = index_sort (filter (λ item, key_matches "transaction_id" tid item) (cases s)).
Proof.
  unfold query_transaction_index. destruct fault; cbn [fst]; [discriminate|].
  intros [= <-]. done.
Qed.

Lemma query_head_nonempty fault tid s c rest :
  (query_transaction_index fault tid s).1 = Ret (c :: rest) →
  key_matches "transaction_id" tid c = true.
Proof.
  intros [_ Hitems]%query_items.
  assert (Hin : c ∈ filter (λ item, key_matches "transaction_id" tid item) (cases s)).
  { apply index_sort_elem. rewrite <- Hitems. left. }
  apply list_elem_of_filter in Hin as [Hm _]. by apply Is_true_true.
Qed.

Lemma get_case_by_transaction_eq fault tid s :
  get_case_by_transaction fault tid s =
    (match (query_transaction_index fault tid s).1 with
     | Ret items => head items
     | Raise _ => None
     end, log_call (index_query tid) s).
Proof.
  unfold get_case_by_transaction, query_transaction_index.
  destruct fault; reflexivity.
Qed.

Lemma get_open_case_store fault tid s :
  (get_open_case_for_transaction fault tid s).2 = log_call (index_query tid) s.
Proof.
  unfold get_open_case_for_transaction. rewrite get_case_by_transaction_eq.
  destruct (if_truthy _); [|reflexivity].
  destruct (negb _); reflexivity.
Qed.

Lemma open_case_is_first_item fault tid s c :
  (get_open_case_for_transaction fault tid s).1 = Some c →
  (∃ rest, (query_transaction_index fault tid s).1 = Ret (c :: rest)) ∧
  in_strs (get_or c "dispute_status" (VStr "")) closed_statuses = false.
Proof.
  unfold get_open_case_for_transaction. rewrite get_case_by_transaction_eq.
  destruct ((query_transaction_index fault tid s).1) as [[|c' rest]|e] eqn:Hq;
    cbn [head]; unfold if_truthy, dict_truthy; [discriminate| |discriminate].
  rewrite bool_decide_eq_false_2
    by (eapply key_matches_nonempty, query_head_nonempty, Hq).
  cbn [negb].
  destruct (in_strs (get_or c' "dispute_status" (VStr "")) closed_statuses) eqn:Hst;
    cbn [negb fst]; [discriminate|].
  intros [= ->]. eauto.
Qed.

Lemma first_open_item_is_returned fault tid s c rest :
  (query_transaction_index fault tid s).1 = Ret (c :: rest) →
  in_strs (get_or c "dispute_status" (VStr "")) closed_statuses = false →
  (get_open_case_for_transaction fault tid s).1 = Some c.
Proof.
  intros Hq Hopen.
  unfold get_open_case_for_transaction. rewrite get_case_by_transaction_eq, Hq.
  cbn [head]. unfold if_truthy, dict_truthy.
  rewrite bool_decide_eq_false_2
    by (eapply key_matches_nonempty, query_head_nonempty, Hq).
  cbn [negb]. by rewrite Hopen.
Qed.

(** [get_open_case_for_transaction] returns a case exactly when the query
    on the transaction index answers, that case is the first item of the
    answer, and its [dispute_status] is none of RESOLVED_CUSTOMER,
    RESOLVED_ACQUIRER, CLOSED, REJECTED_TIME_BARRED; in every other
    situation (no item, a closed first item, a failing query) it returns
    [None]. Which case the index answers first is the index's business. *)
Lemma get_open_case_iff fault tid s c :
  (get_open_case_for_transaction fault tid s).1 = Some c ↔
  (∃ rest, (query_transaction_index fault tid s).1 = Ret (c :: rest)) ∧
  in_strs (get_or c "dispute_status" (VStr "")) closed_statuses = false.
Proof.
  split.
  - apply open_case_is_first_item.
  - intros [[rest Hfirst] Hopen]. by eapply first_open_item_is_returned.
Qed.

Lemma open_case_nonempty fault tid s c :
  (get_open_case_for_transaction fault tid s).1 = Some c → if_truthy (Some c) = Some c.
Proof.
  intros [[rest Hq] _]%open_case_is_first_item.
  unfold if_truthy, dict_truthy.
  rewrite bool_decide_eq_false_2; [done|].
  eapply key_matches_nonempty, query_head_nonempty, Hq.
Qed.

Lemma process_dispute_unfold env t s :
  let tid := get_or t "transaction_id" (VStr "unknown") in
  let s1 := log_call (index_query tid) s in
  process_dispute env t s =
    match if_truthy (get_open_case_for_transaction (read_fault env) tid s).1 with
    | Some c => (Ret (existing_case_result c), s1)
    | None =>
        let '(st, re, ct, ca) := _determine_case_status (utcnow env) t in
        let item := written env t st re ct ca in
        let s2 := log_call (PutItemCall CASE_DB_TABLE item) s1 in
        match write_fault env with
        | None =>
            (Ret (dict_of [
               ("case_id", VStr (uuid4 env));
               ("customer_id", get t "customer_id");
               ("card_id", get t "card_id");
               ("transaction_id", get t "transaction_id");
               ("dispute_status", VStr st);
               ("decision_reason", VStr re);
               ("created_at", VStr (created_at_now env));
               ("updated_at", VStr (updated_at_now env));
               ("auto_decided", VBool true);
               ("requires_manual_review",
                  VBool (bool_decide (st = STATUS_FORWARDED_TO_ACQUIRER)));
               ("credit_type", opt_str ct);
               ("credit_amount", opt_float ca);
               ("credit_issued", VBool (bool_decide (ct ≠ None)));
               ("existing_case", VBool false)
             ]),
             {| cases := item :: filter (λ other, negb (same_case_id item other)) (cases s);
                calls := calls s2 |})
        | Some _ =>
            (Ret (creation_failed_result "Failed to create case in database"), s2)
        end
    end.
Proof.
  intros tid s1. unfold process_dispute, process_dispute_body. fold tid.
  rewrite (surjective_pairing (get_open_case_for_transaction (read_fault env) tid s)).
  rewrite get_open_case_store. fold s1.
  destruct (if_truthy _) as [c|]; [reflexivity|].
  destruct (_determine_case_status (utcnow env) t) as [[[st re] ct] ca].
  unfold case_creation_run, create_case, put_item.
  destruct (write_fault env) as [e|]; reflexivity.
Qed.


Lemma process_dispute_returns env t s :
  process_dispute env t s =
    (Ret (try_except (process_dispute env t s).1 (λ _, ∅)), (process_dispute env t s).2).
Proof.
  unfold process_dispute.
  by destruct (process_dispute_body env t _ s) as [r s'].
Qed.

Lemma if_truthy_open_case fault tid s :
  if_truthy (get_open_case_for_transaction fault tid s).1 =
  (get_open_case_for_transaction fault tid s).1.
Proof.
  destruct ((get_open_case_for_transaction fault tid s).1) as [c|] eqn:Hopen; [|done].
  by eapply open_case_nonempty.
Qed.

Lemma written_case_id env t st re ct ca :
  written env t st re ct ca !! "case_id" = Some (VStr (uuid4 env)).
Proof. reflexivity. Qed.

Lemma written_status env t st re ct ca :
  written env t st re ct ca !! "dispute_status" = Some (VStr st).
Proof. reflexivity. Qed.

Lemma written_transaction_id env t st re ct ca :
  written env t st re ct ca !! "transaction_id" =
  Some (convert_floats_to_decimal (get t "transaction_id")).
Proof. reflexivity. Qed.

Lemma written_consistent env t st re ct ca :
  case_consistent (written env t st re ct ca) = true.
Proof.
  unfold case_consistent, credit_issued_consistent, manual_review_consistent.
  change (written env t st re ct ca !! "credit_issued")
    with (Some (VBool (bool_decide (ct ≠ None)))).
  change (written env t st re ct ca !! "requires_manual_review")
    with (Some (VBool (bool_decide (st = STATUS_FORWARDED_TO_ACQUIRER)))).
  change (get (written env t st re ct ca) "credit_type")
    with (convert_floats_to_decimal (opt_str ct)).
  change (get (written env t st re ct ca) "dispute_status") with (VStr st).
  apply andb_true_intro. split.
  - destruct ct; reflexivity.
  - simpl. by destruct (bool_decide _).
Qed.

Lemma process_dispute_keeps_consistency env t s :
  Forall (λ c, case_consistent c = true) (cases s) →
  Forall (λ c, write_consistent c = true) (calls s) →
  Forall (λ c, case_consistent c = true) (cases (process_dispute env t s).2) ∧
  Forall (λ c, write_consistent c = true) (calls (process_dispute env t s).2).
Proof.
  intros Hcases Hcalls. rewrite process_dispute_unfold. cbv zeta.
  destruct (if_truthy _) as [c|].
  { split; [done|]. simpl. apply Forall_app. split; [done|]. by repeat constructor. }
  destruct (_determine_case_status (utcnow env) t) as [[[st re] ct] ca].
  assert (Hlog : Forall (λ c, write_consistent c = true)
            (calls s ++ [index_query (get_or t "transaction_id" (VStr "unknown"))]
               ++ [PutItemCall CASE_DB_TABLE (written env t st re ct ca)])).
  { apply Forall_app. split; [done|]. repeat constructor. simpl. apply written_consistent. }
  destruct (write_fault env); cbn [snd cases calls log_call]; rewrite <- ?app_assoc.
  - done.
  - split; [|done]. constructor; [apply written_consistent|].
    apply Forall_forall. intros c [_ Hc]%list_elem_of_filter.
    by eapply Forall_forall in Hcases.
Qed.

Lemma process_disputes_keep_consistency requests s :
  Forall (λ c, case_consistent c = true) (cases s) →
  Forall (λ c, write_consistent c = true) (calls s) →
  Forall (λ c, case_consistent c = true) (cases (process_disputes requests s)) ∧
  Forall (λ c, write_consistent c = true) (calls (process_disputes requests s)).
Proof.
  revert s. induction requests as [|[env t] requests IH]; intros s Hcases Hcalls.
  - by split.
  - simpl. destruct (process_dispute_keeps_consistency env t s Hcases Hcalls).
    by apply IH.
Qed.

(** C4. Whatever disputes the workflow processes, starting from an empty
    table, one after the other and whatever the store answers: every item it
    writes and every case in the table has [credit_issued] equal to
    [credit_type is not None] and [requires_manual_review] equal to
    [dispute_status == "FORWARDED_TO_ACQUIRER"]. *)
Theorem persisted_cases_consistent (requests : list (call_env * pydict)) :
  let s := process_disputes requests {| cases := []; calls := [] |} in
  Forall (λ case, credit_issued_consistent case = true ∧
                  manual_review_consistent case = true) (cases s) ∧
  Forall (λ call, match call with
                  | PutItemCall _ item =>
                      credit_issued_consistent item = true ∧
                      manual_review_consistent item = true
                  | QueryCall _ _ _ _ _ => True
                  end) (calls s).
Proof.
  intros s.
  destruct (process_disputes_keep_consistency requests {| cases := []; calls := [] |})
    as [Hcases Hcalls]; [by constructor..|].
  fold s in Hcases, Hcalls. split.
  - eapply Forall_impl; [exact Hcases|]. intros c Hc. by apply andb_prop in Hc.
  - eapply Forall_impl; [exact Hcalls|]. intros [] Hc; [done|]. by apply andb_prop in Hc.
Qed.

Lemma get_tid (t : pydict) tid :
  t !! "transaction_id" = Some (VStr tid) →
  get_or t "transaction_id" (VStr "unknown") = VStr tid ∧
  get t "transaction_id" = VStr tid.
Proof. intros Ht. unfold get_or, get. by rewrite Ht. Qed.

Lemma written_matches env t tid st re ct ca :
  t !! "transaction_id" = Some (VStr tid) →
  key_matches "transaction_id" (VStr tid) (written env t st re ct ca) = true.
Proof.
  intros [_ Ht]%get_tid. unfold key_matches.
  rewrite written_transaction_id, Ht. simpl. by apply bool_decide_eq_true_2.
Qed.

Lemma written_open env t re ct ca :
  in_strs (get_or (written env t STATUS_FORWARDED_TO_ACQUIRER re ct ca)
             "dispute_status" (VStr "")) closed_statuses = false.
Proof. reflexivity. Qed.

Lemma filter_of_none (P Q : pydict → bool) (l : list pydict) :
  filter (λ c, P c) l = [] → filter (λ c, P c) (filter (λ c, Q c) l) = [].
Proof.
  intros Hnone.
  destruct (filter (λ c, P c) (filter (λ c, Q c) l)) as [|x xs] eqn:Hx; [done|].
  assert (Hin : x ∈ filter (λ c, P c) (filter (λ c, Q c) l)) by (rewrite Hx; left).
  apply list_elem_of_filter in Hin as [HP [_ Hl]%list_elem_of_filter].
  assert (Hin : x ∈ filter (λ c, P c) l) by (by apply list_elem_of_filter).
  rewrite Hnone in Hin. by apply elem_of_nil in Hin.
Qed.

(** X24. Idempotence for a transaction disputed for the first time,
    whatever the order of the index: when the table holds no case of the
    [transaction_id] and a first call of [process_dispute] creates a case
    ([existing_case] false) with status FORWARDED_TO_ACQUIRER, a second
    call for a transaction with the same [transaction_id], made on the store
    the first call left and whose index query answers, writes nothing,
    leaves the table as it is, and returns [existing_case] true with the
    [case_id] of the first call. *)
Theorem first_dispute_is_idempotent env1 env2 t1 t2 tid s r1 s1 :
  filter (λ case, key_matches "transaction_id" (VStr tid) case) (cases s) = [] →
  t1 !! "transaction_id" = Some (VStr tid) →
  t2 !! "transaction_id" = Some (VStr tid) →
  process_dispute env1 t1 s = (Ret r1, s1) →
  r1 !! "existing_case" = Some (VBool false) →
  r1 !! "dispute_status" = Some (VStr "FORWARDED_TO_ACQUIRER") →
  read_fault env2 = None →
  ∃ r2 s2,
    process_dispute env2 t2 s1 = (Ret r2, s2) ∧
    cases s2 = cases s1 ∧
    calls s2 = (calls s1 ++ [index_query (VStr tid)])%list ∧
    r2 !! "existing_case" = Some (VBool true) ∧
    r2 !! "case_id" = r1 !! "case_id" ∧
    r1 !! "case_id" = Some (VStr (uuid4 env1)).
Proof.
  intros Hfirst_time Ht1 Ht2 Hfirst Hnew Hstatus Hread.
  rewrite process_dispute_unfold in Hfirst. cbv zeta in Hfirst.
  destruct (if_truthy _) as [c|]; [by simplify_eq|].
  destruct (_determine_case_status (utcnow env1) t1) as [[[st re] ct] ca].
  destruct (write_fault env1); [by simplify_eq|].
  apply pair_equal_spec in Hfirst as [Hr1 <-].
  apply Ret_inj in Hr1 as <-.
  change (Some (VStr st) = Some (VStr "FORWARDED_TO_ACQUIRER")) in Hstatus.
  injection Hstatus as ->.
  set (item := written env1 t1 "FORWARDED_TO_ACQUIRER" re ct ca).
  rewrite process_dispute_unfold. cbv zeta.
  rewrite if_truthy_open_case.
  destruct (get_tid t2 tid Ht2) as [-> _]. rewrite Hread.
  match goal with |- context [get_open_case_for_transaction None (VStr tid) ?s] =>
    assert (Hopen : (get_open_case_for_transaction None (VStr tid) s).1 = Some item)
  end.
  { eapply first_open_item_is_returned; [|apply written_open].
    unfold query_transaction_index. cbn [fst cases].
    rewrite (filter_true (key_matches "transaction_id" (VStr tid)))
      by (by apply written_matches).
    rewrite (filter_of_none (key_matches "transaction_id" (VStr tid))) by done.
    reflexivity. }
  rewrite Hopen. do 2 eexists. split; [reflexivity|].
  repeat split.
Qed.

Lemma failed_read_is_absence e tid s :
  (get_case_by_transaction (Some e) tid s).1 = None ∧
  (get_open_case_for_transaction (Some e) tid s).1 = None.
Proof. split; reflexivity. Qed.


(** C6 (as amended). Without a [transaction_id], [process_dispute] raises
    nothing: its first store call is the open-case query under the
    identifier ["unknown"]; an open case found there is returned as the
    existing case, and otherwise a case whose [transaction_id] is [None] is
    decided and written. *)
Theorem missing_transaction_id_uses_unknown env t s :
  t !! "transaction_id" = None →
  ∃ r s' later,
    process_dispute env t s = (Ret r, s') ∧
    calls s' = (calls s ++ index_query (VStr "unknown") :: later)%list ∧
    match (get_open_case_for_transaction (read_fault env) (VStr "unknown") s).1 with
    | Some c => r = existing_case_result c ∧ later = [] ∧ cases s' = cases s
    | None =>
        ∃ item, later = [PutItemCall CASE_DB_TABLE item] ∧
          item !! "transaction_id" = Some VNone ∧
          match write_fault env with
          | None => r !! "existing_case" = Some (VBool false) ∧
                    r !! "transaction_id" = Some VNone ∧ item ∈ cases s'
          | Some _ => r = creation_failed_result "Failed to create case in database"
                      ∧ cases s' = cases s
          end
    end.
Proof.
  intros Ht. rewrite process_dispute_unfold. cbv zeta.
  rewrite if_truthy_open_case.
  assert (Hunknown : get_or t "transaction_id" (VStr "unknown") = VStr "unknown").
  { unfold get_or. by rewrite Ht. }
  assert (Hnone : get t "transaction_id" = VNone).
  { unfold get. by rewrite Ht. }
  rewrite Hunknown.
  destruct ((get_open_case_for_transaction (read_fault env) (VStr "unknown") s).1) as [c|].
  { by eexists _, _, []. }
  destruct (_determine_case_status (utcnow env) t) as [[[st re] ct] ca].
  assert (Hitem : written env t st re ct ca !! "transaction_id" = Some VNone).
  { by rewrite written_transaction_id, Hnone. }
  destruct (write_fault env).
  - eexists _, _, [_]. split; [reflexivity|]. split; [simpl; by rewrite <- app_assoc|].
    by eexists.
  - eexists _, _, [_]. split; [reflexivity|]. split; [simpl; by rewrite <- app_assoc|].
    eexists. split; [reflexivity|]. split; [done|].
    split; [reflexivity|]. split; [|left].
    change (Some (get t "transaction_id") = Some VNone). by rewrite Hnone.
Qed.

(** C7 (as amended). When the write of a newly decided case fails,
    [process_dispute] returns the same three-key dictionary whatever was
    decided: [case_id] [None], [dispute_status] ["ERROR"] and a
    [decision_reason] that repeats the creation tool's message; the table
    is unchanged. *)
Theorem failed_write_returns_error_only env e t s :
  write_fault env = Some e →
  (get_open_case_for_transaction (read_fault env)
     (get_or t "transaction_id" (VStr "unknown")) s).1 = None →
  ∃ s',
    process_dispute env t s =
      (Ret (dict_of [
         ("case_id", VNone);
         ("dispute_status", VStr "ERROR");
         ("decision_reason",
            VStr "Failed to create dispute case: Failed to create case in database")
       ]), s') ∧
    cases s' = cases s.
Proof.
  intros Hwrite Hopen. rewrite process_dispute_unfold. cbv zeta.
  rewrite if_truthy_open_case, Hopen, Hwrite.
  destruct (_determine_case_status (utcnow env) t) as [[[st re] ct] ca].
  by eexists.
Qed.
End Workflow.

(** ** The query tool *)

Section QueryTool.
Context `{Runtime}.

(** C9 (as amended). A table name outside the two-table list makes [_run]
    answer with the failure "Invalid table name..." before any call on a
    table. The index name is not checked: a query on a valid table with a
    well-formed key condition and a non-empty index name, whatever it is,
    makes exactly one call, [query], with [IndexName] set to that name, and
    the answer is what the handler makes of the store's response. *)
Theorem table_checked_index_forwarded (db : db_client) (now_iso : string)
    (table_name operation : string)
    (key_condition filter_expression : option (list (string * pyval)))
    (index_name : option string) (attributes_to_get : option (list string))
    (limit : option Z) (item_data : option pydict)
    (update_expression : option (list (string * pyval))) :
  (table_name ∉ valid_tables →
     _run db now_iso table_name operation key_condition filter_expression
       index_name attributes_to_get limit item_data update_expression
     = (Failure INVALID_TABLE_NAME, [])) ∧
  (table_name ∈ valid_tables →
     operation = "query" →
     ∀ kv rest key_expr a name,
       key_condition = Some (kv :: rest) →
       build_key_expr None (kv :: rest) = Ret key_expr →
       index_name = Some (String a name) →
       ∃ t params,
         t = (if bool_decide (table_name = CARDS_TRANSACTIONS_TABLE)
              then cards_table db else case_table db) ∧
         IndexName params = Some (String a name) ∧
         _run db now_iso table_name operation key_condition filter_expression
           index_name attributes_to_get limit item_data update_expression
         = (caught (r ← query t params; Ret (found r)),
            [Query (DynamoQueryTool.table_name t) params])).
Proof.
  split.
  - intros Hinvalid. unfold _run. rewrite (bool_decide_eq_false_2 (table_name ∈ valid_tables)) by done.
    reflexivity.
  - intros Hvalid -> kv rest key_expr a name -> Hbuild ->.
    unfold _run. rewrite (bool_decide_eq_true_2 (table_name ∈ valid_tables)) by done.
    cbn [negb].
    rewrite (bool_decide_eq_true_2 ("query" = "query")) by done.
    unfold _execute_query. cbn [nonempty_dict]. rewrite Hbuild.
    eexists _, _. split; [reflexivity|]. split; [|reflexivity]. reflexivity.
Qed.
End QueryTool.

Lemma table_checked_index_forwarded_witness :
  _run (H:=sample) sample_db "2024-06-01T12:00:00" "ptr_dispute_resol_orders" "query"
    (Some [("transaction_id", VStr "TXN001")]) None (Some "TransactionIndex")
    None None None None
  = (Failure INVALID_TABLE_NAME, []) ∧
  ∃ t params,
    t = case_table sample_db ∧
    IndexName params = Some "CustomerIndex" ∧
    _run (H:=sample) sample_db "2024-06-01T12:00:00" CASE_DB_TABLE "query"
      (Some [("customer_id", VStr "CUST001")]) None (Some "CustomerIndex")
      None (Some 50%Z) None None
    = (caught (r ← query t params; Ret (found r)),
       [Query (DynamoQueryTool.table_name t) params]).
Proof.
  split.
  - apply (table_checked_index_forwarded (H:=sample)). vm_compute.
    intros Hin. repeat (apply elem_of_cons in Hin as [Hin|Hin]; [discriminate Hin|]).
    by apply elem_of_nil in Hin.
  - eapply (proj2 (table_checked_index_forwarded (H:=sample) sample_db _ CASE_DB_TABLE
              "query" _ None _ None (Some 50%Z) None None)).
    + right. left.
    + reflexivity.
    + reflexivity.
    + reflexivity.
    + reflexivity.
Defined.

(** C9 as stated fails: a query naming an index that is in no list reaches
    the store, and the failure returned is the store's own. *)
Lemma unknown_index_reaches_store :
  _run (H:=sample) sample_db "2024-06-01T12:00:00" "ptr_dispute_resol_case_db" "query"
    (Some [("transaction_id", VStr "TXN001")]) None (Some "NoSuchIndex")
    None None None None
  = (Failure "The table does not have the specified index: NoSuchIndex",
     [Query "ptr_dispute_resol_case_db"
        {| KeyConditionExpression := Some (KeyEq "transaction_id" (VStr "TXN001"));
           IndexName := Some "NoSuchIndex";
           ProjectionExpression := None;
           Limit := None;
           FilterExpression := None |}]).
Proof. reflexivity. Qed.

(** ** The workflow on sample data *)

(** C3 (defect of the code). The most recent case of a transaction is not
    what [get_open_case_for_transaction] looks at when the transaction has a
    lineage. In a table where [TXN001] has a closed case [case-0000] and,
    written after it, an open case [case-0001], an index that answers by
    case number (the index has no sort key: nothing makes it answer by
    recency) gives [case-0000] first; [get_case_by_transaction] returns that
    closed case and [get_open_case_for_transaction] returns [None], although
    the most recent case exists and is open. *)
Theorem most_recent_open_case_is_not_returned :
  let s := store_with_lineage in
  case_ids (cases_of "TXN001" s) = [Some (VStr "case-0001"); Some (VStr "case-0000")] ∧
  is_open <$> head (cases_of "TXN001" s) = Some true ∧
  case_ids <$> (query_transaction_index (order:=by_case_id) None (VStr "TXN001") s).1
    = Ret [Some (VStr "case-0000"); Some (VStr "case-0001")] ∧
  (λ case, case !! "case_id") <$>
    (get_case_by_transaction (order:=by_case_id) None (VStr "TXN001") s).1
    = Some (Some (VStr "case-0000")) ∧
  (get_open_case_for_transaction (order:=by_case_id) None (VStr "TXN001") s).1
    = None.
Proof. vm_compute. repeat split. Qed.

(** C2 (defect of the code). A second dispute of a transaction whose first
    dispute was forwarded creates a second open case when the transaction
    has an older, closed case that the index answers first. The table holds
    the closed [case-0000] of [TXN001]; a first call finds no open case,
    decides FORWARDED_TO_ACQUIRER and writes [case-0001]; the second call's
    query answers [case-0000] before [case-0001], so the second call finds
    no open case either, returns [existing_case] false with the new
    [case_id] [case-0002], and [TXN001] has two open cases. *)
Theorem second_dispute_creates_second_open_case :
  let '(r1, s1) :=
    process_dispute (H:=sample) (order:=by_case_id) (calm "case-0001") disputed
      store_with_resolved_case in
  let '(r2, s2) :=
    process_dispute (H:=sample) (order:=by_case_id) (calm "case-0002") disputed s1 in
  outcome r1 = Ret (Some (VBool false), Some (VStr "FORWARDED_TO_ACQUIRER"),
                    Some (VStr "case-0001")) ∧
  case_ids <$> (query_transaction_index (order:=by_case_id) None (VStr "TXN001") s1).1
    = Ret [Some (VStr "case-0000"); Some (VStr "case-0001")] ∧
  outcome r2 = Ret (Some (VBool false), Some (VStr "FORWARDED_TO_ACQUIRER"),
                    Some (VStr "case-0002")) ∧
  case_ids (open_cases "TXN001" s2) = [Some (VStr "case-0002"); Some (VStr "case-0001")].
Proof. vm_compute. repeat split. Qed.

Lemma first_dispute_is_idempotent_witness :
  ∃ r1 r2 s2,
    process_dispute (H:=sample) (order:=by_case_id)
        (calm "case-0001") disputed empty_store
      = (Ret r1, store_after_first) ∧
    r1 !! "existing_case" = Some (VBool false) ∧
    r1 !! "dispute_status" = Some (VStr "FORWARDED_TO_ACQUIRER") ∧
    process_dispute (H:=sample) (order:=by_case_id)
        (calm "case-0002") disputed store_after_first
      = (Ret r2, s2) ∧
    cases s2 = cases store_after_first ∧
    r2 !! "existing_case" = Some (VBool true) ∧
    r2 !! "case_id" = Some (VStr "case-0001").
Proof.
  pose proof (process_dispute_returns (H:=sample) (order:=by_case_id)
      (calm "case-0001") disputed
                empty_store) as Hfirst.
  set (r1 := try_except _ _) in Hfirst.
  assert (Hnew : r1 !! "existing_case" = Some (VBool false)) by (vm_compute; reflexivity).
  assert (Hstatus : r1 !! "dispute_status" = Some (VStr "FORWARDED_TO_ACQUIRER"))
    by (vm_compute; reflexivity).
  destruct (first_dispute_is_idempotent (H:=sample) (order:=by_case_id)
              (calm "case-0001") (calm "case-0002") disputed disputed "TXN001"
              empty_store r1 store_after_first
              eq_refl eq_refl eq_refl Hfirst Hnew Hstatus eq_refl)
    as (r2 & s2 & Hsecond & Hcases & _ & Hexisting & Hid & Hfirst_id).
  exists r1, r2, s2.
  split; [exact Hfirst|]. split; [exact Hnew|]. split; [exact Hstatus|].
  split; [exact Hsecond|]. split; [exact Hcases|]. split; [exact Hexisting|].
  rewrite Hid. exact Hfirst_id.
Defined.


Lemma missing_transaction_id_uses_unknown_witness :
  ∃ r s' later,
    process_dispute (H:=sample) (order:=by_case_id) (calm "case-0001")
      (transaction_without_id "2024-05-22T10:00:00Z" "250.00") empty_store
      = (Ret r, s') ∧
    calls s' = index_query (VStr "unknown") :: later.
Proof.
  destruct (missing_transaction_id_uses_unknown (H:=sample) (order:=by_case_id)
      (calm "case-0001")
              (transaction_without_id "2024-05-22T10:00:00Z" "250.00") empty_store)
    as (r & s' & later & Hrun & Hcalls & _); [reflexivity|].
  exists r, s', later. split; [exact Hrun | exact Hcalls].
Defined.

(** C6 as stated fails: a transaction without [transaction_id] raises
    nothing. On an empty table the open-case query is made under
    ["unknown"] and a case with a null [transaction_id] is written and
    returned; on a table that holds an open case filed under ["unknown"],
    that case is returned as the existing one. *)
Lemma missing_transaction_id_is_processed :
  let t := transaction_without_id "2024-05-22T10:00:00Z" "250.00" in
  let unknown_case : pydict :=
    dict_of [("case_id", VStr "case-0000"); ("transaction_id", VStr "unknown");
             ("dispute_status", VStr "FORWARDED_TO_ACQUIRER")] in
  let '(r, s') := process_dispute (H:=sample) (order:=by_case_id)
      (calm "case-0001") t empty_store in
  let '(r0, s0) :=
    process_dispute (H:=sample) (order:=by_case_id) (calm "case-0001") t
      {| cases := [unknown_case]; calls := [] |} in
  t !! "transaction_id" = None ∧
  (λ d, (d !! "case_id", d !! "transaction_id", d !! "existing_case")) <$> r
    = Ret (Some (VStr "case-0001"), Some VNone, Some (VBool false)) ∧
  match calls s' with
  | [lookup; PutItemCall table item] =>
      lookup = index_query (VStr "unknown") ∧ table = CASE_DB_TABLE ∧
      item !! "transaction_id" = Some VNone ∧
      (λ case, case !! "case_id") <$> cases s' = [Some (VStr "case-0001")]
  | _ => False
  end ∧
  (λ d, (d !! "case_id", d !! "existing_case")) <$> r0
    = Ret (Some (VStr "case-0000"), Some (VBool true)) ∧
  calls s0 = [index_query (VStr "unknown")].
Proof. vm_compute. repeat split. Qed.

Lemma failed_write_returns_error_only_witness :
  ∃ s',
    process_dispute (H:=sample) (order:=by_case_id)
        (failing_write "case-0001") disputed empty_store =
      (Ret (dict_of [
         ("case_id", VNone);
         ("dispute_status", VStr "ERROR");
         ("decision_reason",
            VStr "Failed to create dispute case: Failed to create case in database")
       ]), s') ∧
    cases s' = [].
Proof.
  apply (failed_write_returns_error_only (H:=sample) (failing_write "case-0001")
           unavailable disputed empty_store); reflexivity.
Defined.

(** C7 as stated fails: the decision for the sample transaction is to
    forward it with a temporary credit of 250.0, and when the write fails
    the dictionary returned carries the status ["ERROR"] and neither
    [credit_type] nor [credit_amount]. *)
Lemma failed_write_drops_decision :
  let '(status, _, credit_type, credit_amount) :=
    _determine_case_status (H:=sample) now disputed in
  let '(r, s') :=
    process_dispute (H:=sample) (order:=by_case_id)
        (failing_write "case-0001") disputed empty_store in
  (status, credit_type, credit_amount)
    = ("FORWARDED_TO_ACQUIRER", Some "TEMPORARY", parse_float "250.00") ∧
  (λ d, (d !! "case_id", d !! "dispute_status", d !! "decision_reason")) <$> r
    = Ret (Some VNone, Some (VStr "ERROR"),
           Some (VStr "Failed to create dispute case: Failed to create case in database")) ∧
  (λ d, (d !! "credit_type", d !! "credit_amount")) <$> r = Ret (None, None) ∧
  cases s' = [].
Proof. vm_compute. repeat split. Qed.

(** Scenario E of the specification: two disputes of the same transaction
    in a row, the case being forwarded and still open. *)
Example scenario_E :
  let '(r1, s1) :=
    process_dispute (H:=sample) (order:=by_case_id)
        (calm "case-0001") disputed empty_store in
  let '(r2, s2) := process_dispute (H:=sample) (order:=by_case_id)
      (calm "case-0002") disputed s1 in
  (λ r, r !! "case_id") <$> r1 = Ret (Some (VStr "case-0001")) ∧
  (λ r, r !! "case_id") <$> r2 = Ret (Some (VStr "case-0001")) ∧
  (λ r, r !! "existing_case") <$> r1 = Ret (Some (VBool false)) ∧
  (λ r, r !! "existing_case") <$> r2 = Ret (Some (VBool true)) ∧
  length (cases s2) = 1%nat.
Proof. vm_compute. repeat split. Qed.

(** * Further properties *)

(** ** More on the decision rules *)

Section DecisionMore.
Context `{Runtime}.

Lemma age_of_parsed (now : Z) (date : string) (dt : datetime) :
  fromisoformat (str_replace "Z" "+00:00" date) = Some dt →
  _calculate_transaction_age_days now (VStr date)
  = ((now - wall_us dt) `div` 86400000000)%Z.
Proof.
  destruct dt as [wall tz]. intros Hparse. unfold _calculate_transaction_age_days.
  cbn [mbind exc_mbind exc_bind]. rewrite Hparse.
  unfold datetime_sub, replace_tzinfo.
  cbn [of_option mbind exc_mbind exc_bind tzinfo wall_us].
  destruct tz; [rewrite bool_decide_eq_true_2 by done|]; reflexivity.
Qed.

Lemma age_of_unparsed (now : Z) (date : string) :
  fromisoformat (str_replace "Z" "+00:00" date) = None →
  _calculate_transaction_age_days now (VStr date) = 0%Z.
Proof.
  intros Hparse. unfold _calculate_transaction_age_days.
  cbn [mbind exc_mbind exc_bind]. by rewrite Hparse.
Qed.

Lemma age_monotone (now1 now2 : Z) (transaction_date : pyval) :
  (now1 ≤ now2)%Z →
  (_calculate_transaction_age_days now1 transaction_date
   ≤ _calculate_transaction_age_days now2 transaction_date)%Z.
Proof.
  intros Hle. destruct transaction_date as [| | | | |s| |]; try reflexivity.
  destruct (fromisoformat (str_replace "Z" "+00:00" s)) as [dt|] eqn:Hparse.
  - rewrite !(age_of_parsed _ _ _ Hparse). apply Z.div_le_mono; lia.
  - by rewrite !age_of_unparsed.
Qed.

(** X1. The age of a transaction does not decrease as the clock advances,
    so a dispute that is rejected as time-barred at one time is rejected as
    time-barred at every later time. *)
Theorem time_barred_stays_time_barred (now1 now2 : Z) (transaction_data : pydict) :
  (now1 ≤ now2)%Z →
  (_determine_case_status now1 transaction_data).1.1.1 = "REJECTED_TIME_BARRED" →
  (_determine_case_status now2 transaction_data).1.1.1 = "REJECTED_TIME_BARRED".
Proof.
  intros Hle. rewrite !first_match_wins. cbv zeta.
  set (date := get_or transaction_data "transaction_date" _).
  pose proof (age_monotone now1 now2 date Hle) as Hage.
  case_bool_decide as H1.
  - intros _. by rewrite bool_decide_eq_true_2 by lia.
  - destruct (float_le _ _); discriminate.
Qed.

(** X2. A transaction date that is not a string, or that
    [datetime.fromisoformat] refuses, counts as age 0: the dispute is never
    rejected as time-barred and the amount alone decides. *)
Theorem unreadable_date_never_time_bars (now : Z) (transaction_data : pydict) :
  match get_or transaction_data "transaction_date"
          (get_or transaction_data "date" (VStr "")) with
  | VStr s => fromisoformat (str_replace "Z" "+00:00" s) = None
  | _ => True
  end →
  let amount_usd := _extract_amount_usd transaction_data in
  _calculate_transaction_age_days now
    (get_or transaction_data "transaction_date"
       (get_or transaction_data "date" (VStr ""))) = 0%Z ∧
  (_determine_case_status now transaction_data).1.1.1 =
    (if float_le amount_usd (float_of_Z 100) then "RESOLVED_CUSTOMER"
     else "FORWARDED_TO_ACQUIRER").
Proof.
  intros Hdate amount_usd.
  assert (Hage : _calculate_transaction_age_days now
            (get_or transaction_data "transaction_date"
               (get_or transaction_data "date" (VStr ""))) = 0%Z).
  { destruct (get_or transaction_data "transaction_date" _); try reflexivity.
    by apply age_of_unparsed. }
  split; [exact Hage|].
  rewrite first_match_wins. cbv zeta. rewrite Hage. fold amount_usd.
  rewrite bool_decide_eq_false_2 by lia.
  by destruct (float_le _ _).
Qed.

(** X3. The UTC offset of the transaction date plays no part in the age:
    the clock reading is given the date's own [tzinfo] before the
    subtraction, so two date strings that read the same wall clock have the
    same age whatever their offsets. *)
Theorem offset_does_not_change_age (now : Z) (date1 date2 : string) dt1 dt2 :
  fromisoformat (str_replace "Z" "+00:00" date1) = Some dt1 →
  fromisoformat (str_replace "Z" "+00:00" date2) = Some dt2 →
  wall_us dt1 = wall_us dt2 →
  _calculate_transaction_age_days now (VStr date1)
  = _calculate_transaction_age_days now (VStr date2) ∧
  _calculate_transaction_age_days now (VStr date1)
  = ((now - wall_us dt1) `div` 86400000000)%Z.
Proof.
  intros H1 H2 Hwall.
  rewrite (age_of_parsed _ _ _ H1), (age_of_parsed _ _ _ H2), Hwall. done.
Qed.

Lemma extract_from_skips (fields : list string) (t : pydict) field v :
  t !! field = Some v →
  match v with VNone | VList _ | VDict _ => True | _ => False end →
  extract_from fields t = extract_from fields (delete field t).
Proof.
  intros Hfield Hskip. induction fields as [|f rest IH]; [reflexivity|].
  cbn [extract_from]. destruct (decide (f = field)) as [->|Hne].
  - rewrite Hfield, lookup_delete_eq. by destruct v.
  - rewrite lookup_delete_ne by done. by rewrite IH.
Qed.

(** X4. An amount field that is present but holds neither a string nor a
    number ([None], a list, a dictionary) is passed over: the extracted
    amount is that of the record without the field, so a lower-priority
    field or the 999999.0 sentinel decides. *)
Theorem non_numeric_amount_field_is_skipped (t : pydict) field v :
  t !! field = Some v →
  match v with VNone | VList _ | VDict _ => True | _ => False end →
  _extract_amount_usd t = _extract_amount_usd (delete field t).
Proof.
  intros Hfield Hskip. unfold _extract_amount_usd.
  by rewrite (extract_from_skips _ _ _ _ Hfield Hskip).
Qed.

Lemma extract_from_absent_prefix (pre post : list string) (t : pydict) :
  (∀ f, f ∈ pre → t !! f = None) →
  extract_from (pre ++ post)%list t = extract_from post t.
Proof.
  induction pre as [|f pre IH]; intros Hpre; [reflexivity|].
  cbn [app extract_from]. rewrite Hpre by left.
  apply IH. intros g Hg. apply Hpre. by right.
Qed.

(** X5. The first amount field that is present decides, also when it cannot
    be read: if it is a string that [float] refuses once [$], [,] and the
    surrounding blanks are removed, the amount is the 999999.0 sentinel,
    whatever the fields of lower priority hold. *)
Theorem unreadable_amount_string_gives_sentinel (t : pydict) pre field post s :
  amount_fields = (pre ++ field :: post)%list →
  (∀ f, f ∈ pre → t !! f = None) →
  t !! field = Some (VStr s) →
  float_of_string (strip (str_replace "," "" (str_replace "$" "" s))) = None →
  _extract_amount_usd t = float_of_Z 999999.
Proof.
  intros Hfields Hpre Hfield Hparse. unfold _extract_amount_usd.
  rewrite Hfields, extract_from_absent_prefix by done.
  cbn [extract_from]. by rewrite Hfield, Hparse.
Qed.

(** X6. Whatever the transaction, the decision has one of three statuses;
    the credit type and the credit amount are both [None] exactly when the
    status is REJECTED_TIME_BARRED, and otherwise the credit amount is the
    extracted amount and the credit is TEMPORARY exactly when the dispute
    is forwarded. *)
Theorem decision_is_coherent (now : Z) (transaction_data : pydict) :
  let '(status, _, credit_type, credit_amount) :=
    _determine_case_status now transaction_data in
  status ∈ ["REJECTED_TIME_BARRED"; "RESOLVED_CUSTOMER"; "FORWARDED_TO_ACQUIRER"] ∧
  (credit_type = None ↔ status = "REJECTED_TIME_BARRED") ∧
  (credit_amount = None ↔ status = "REJECTED_TIME_BARRED") ∧
  (status ≠ "REJECTED_TIME_BARRED" →
     credit_amount = Some (_extract_amount_usd transaction_data)) ∧
  (credit_type = Some "TEMPORARY" ↔ status = "FORWARDED_TO_ACQUIRER") ∧
  (credit_type = Some "PERMANENT" ↔ status = "RESOLVED_CUSTOMER").
Proof.
  rewrite first_match_wins. cbv zeta.
  case_bool_decide; [|destruct (float_le _ _)].
  all: split; [set_solver|].
  all: repeat split; intros; try done; try discriminate.
Qed.
End DecisionMore.

Lemma time_barred_stays_time_barred_witness :
  (_determine_case_status (H:=sample) (now + 86400000000)
     (transaction "TXN001" "2022-07-02T10:00:00Z" "50.00")).1.1.1
  = "REJECTED_TIME_BARRED".
Proof.
  apply (time_barred_stays_time_barred (H:=sample) now); [vm_compute; discriminate|].
  vm_compute. reflexivity.
Defined.

Lemma unreadable_date_never_time_bars_witness :
  let t := dict_of [("transaction_id", VStr "TXN001"); ("amount", VInt 40);
                    ("transaction_date", VStr "02/07/2012")] in
  _calculate_transaction_age_days (H:=sample) now
    (get_or t "transaction_date" (get_or t "date" (VStr ""))) = 0%Z ∧
  (_determine_case_status (H:=sample) now t).1.1.1 =
    (if float_le (_extract_amount_usd (H:=sample) t) (float_of_Z 100)
     then "RESOLVED_CUSTOMER" else "FORWARDED_TO_ACQUIRER").
Proof.
  intros t. apply (unreadable_date_never_time_bars (H:=sample) now t).
  vm_compute. reflexivity.
Defined.

Lemma offset_does_not_change_age_witness :
  _calculate_transaction_age_days (H:=sample) now (VStr "2024-05-22T10:00:00+05:00")
  = _calculate_transaction_age_days (H:=sample) now (VStr "2024-05-22T10:00:00Z").
Proof.
  pose (wall := at_time "2024-05-22T10:00:00").
  apply (offset_does_not_change_age (H:=sample) now
           "2024-05-22T10:00:00+05:00" "2024-05-22T10:00:00Z"
           (mk_datetime wall (Some 18000000000%Z)) (mk_datetime wall (Some 0%Z)));
    vm_compute; reflexivity.
Defined.

Lemma non_numeric_amount_field_is_skipped_witness :
  let t := dict_of [("amount_usd", VNone); ("amount", VInt 40)] in
  _extract_amount_usd (H:=sample) t
  = _extract_amount_usd (H:=sample) (delete "amount_usd" t).
Proof.
  intros t. by apply (non_numeric_amount_field_is_skipped (H:=sample) t "amount_usd" VNone).
Defined.

Lemma unreadable_amount_string_gives_sentinel_witness :
  _extract_amount_usd (H:=sample)
    (dict_of [("amount", VStr "forty dollars"); ("value", VInt 40)])
  = float_of_Z 999999.
Proof.
  apply (unreadable_amount_string_gives_sentinel (H:=sample) _
           ["amount_usd"] "amount" ["transaction_amount"; "value"] "forty dollars").
  - reflexivity.
  - intros f Hf. apply list_elem_of_singleton in Hf as ->. reflexivity.
  - reflexivity.
  - reflexivity.
Defined.

(** ** More on the workflow *)

Section WorkflowMore.
Context `{Runtime} {order : IndexOrder}.

Lemma decided_status (now : Z) (t : pydict) :
  (_determine_case_status now t).1.1.1 ∈
    ["REJECTED_TIME_BARRED"; "RESOLVED_CUSTOMER"; "FORWARDED_TO_ACQUIRER"].
Proof.
  rewrite first_match_wins. cbv zeta.
  case_bool_decide; [|destruct (float_le _ _)]; set_solver.
Qed.

Lemma convert_is_str (v : pyval) (s : string) :
  convert_floats_to_decimal v = VStr s → v = VStr s.
Proof. by destruct v. Qed.

Lemma written_matches_inv env t tid st re ct ca :
  key_matches "transaction_id" (VStr tid) (written env t st re ct ca) = true →
  t !! "transaction_id" = Some (VStr tid).
Proof.
  unfold key_matches. rewrite written_transaction_id.
  destruct (convert_floats_to_decimal (get t "transaction_id")) as [| | | | |a| |] eqn:Hc;
    try discriminate.
  intros ->%bool_decide_eq_true_1. apply convert_is_str in Hc.
  unfold get in Hc. by destruct (t !! "transaction_id") as [v|]; simplify_eq/=.
Qed.

Lemma written_closed env t st re ct ca :
  st ∈ ["REJECTED_TIME_BARRED"; "RESOLVED_CUSTOMER"] →
  in_strs (get_or (written env t st re ct ca) "dispute_status" (VStr ""))
    closed_statuses = true.
Proof.
  intros Hst. change (get_or (written env t st re ct ca) "dispute_status" (VStr ""))
    with (VStr st).
  apply elem_of_cons in Hst as [->|Hst]; [reflexivity|].
  apply list_elem_of_singleton in Hst as ->. reflexivity.
Qed.

Lemma closed_head_is_not_open fault tid s c rest :
  (query_transaction_index fault tid s).1 = Ret (c :: rest) →
  in_strs (get_or c "dispute_status" (VStr "")) closed_statuses = true →
  (get_open_case_for_transaction fault tid s).1 = None.
Proof.
  intros Hq Hclosed.
  destruct ((get_open_case_for_transaction fault tid s).1) as [c'|] eqn:Hopen; [|done].
  apply open_case_is_first_item in Hopen as [[rest' Hq'] Hopen].
  rewrite Hq in Hq'. injection Hq' as -> _. congruence.
Qed.

Lemma filter_filter_comm (P Q : pydict → bool) (l : list pydict) :
  filter (λ c, P c) (filter (λ c, Q c) l) = filter (λ c, Q c) (filter (λ c, P c) l).
Proof.
  induction l as [|h tl IH]; [done|].
  destruct (P h) eqn:HP, (Q h) eqn:HQ.
  - by rewrite (filter_true Q h tl HQ), (filter_true P h tl HP),
      (filter_true P h _ HP), (filter_true Q h _ HQ), IH.
  - by rewrite (filter_false Q h tl HQ), (filter_true P h tl HP),
      (filter_false Q h _ HQ), IH.
  - by rewrite (filter_true Q h tl HQ), (filter_false P h tl HP),
      (filter_false P h _ HP), IH.
  - by rewrite (filter_false Q h tl HQ), (filter_false P h tl HP), IH.
Qed.

Lemma same_case_id_rank (item other : pydict) :
  same_case_id item other = true → rank_of other = rank_of item.
Proof.
  unfold same_case_id, rank_of, get.
  destruct (item !! "case_id") as [[| | | | |a| |]|]; try discriminate.
  destruct (other !! "case_id") as [[| | | | |b| |]|]; try discriminate.
  by intros ->%bool_decide_eq_true_1.
Qed.

Lemma no_open_case_head_closed tid s c rest :
  (get_open_case_for_transaction None tid s).1 = None →
  index_sort (filter (λ case, key_matches "transaction_id" tid case) (cases s))
    = c :: rest →
  in_strs (get_or c "dispute_status" (VStr "")) closed_statuses = true.
Proof.
  intros Hnone Hanswer.
  destruct (in_strs (get_or c "dispute_status" (VStr "")) closed_statuses) eqn:Hc; [done|].
  rewrite (first_open_item_is_returned None tid s c rest) in Hnone; [done| |done].
  unfold query_transaction_index. cbn [fst]. by rewrite Hanswer.
Qed.

(** Writing a closed case leaves the lookup of its transaction without an
    open case, wherever the index places the new case: the first item of the
    answer is the one of before or the case written. *)
Lemma closed_write_keeps_lookup_empty (item : pydict) tid s s' :
  cases s' = item :: filter (λ other, negb (same_case_id item other)) (cases s) →
  key_matches "transaction_id" tid item = true →
  in_strs (get_or item "dispute_status" (VStr "")) closed_statuses = true →
  (get_open_case_for_transaction None tid s).1 = None →
  (get_open_case_for_transaction None tid s').1 = None.
Proof.
  intros Hcases Hmatch Hclosed Hnone.
  pose proof (no_open_case_head_closed tid s) as Hhead.
  pose proof (index_sort_sorted
                (filter (λ case, key_matches "transaction_id" tid case) (cases s)))
    as Hsorted.
  assert (Hanswer :
    index_sort (filter (λ case, key_matches "transaction_id" tid case) (cases s'))
    = index_insert item
        (filter (λ other, negb (same_case_id item other))
           (index_sort
              (filter (λ case, key_matches "transaction_id" tid case) (cases s))))).
  { rewrite Hcases, (filter_true (key_matches "transaction_id" tid)) by done.
    rewrite index_sort_cons.
    rewrite (filter_filter_comm (key_matches "transaction_id" tid)
               (λ other, negb (same_case_id item other))).
    by rewrite (filter_index_sort (λ other, negb (same_case_id item other))). }
  set (before := index_sort
                   (filter (λ case, key_matches "transaction_id" tid case) (cases s)))
    in *.
  set (kept := filter (λ other, negb (same_case_id item other)) before) in *.
  assert (Hfirst : ∃ c rest, index_insert item kept = c :: rest ∧
            in_strs (get_or c "dispute_status" (VStr "")) closed_statuses = true).
  { destruct (head_index_insert item kept) as [Hitem|(other & Hother & Hfirst & Hrank)].
    - destruct (index_insert item kept) as [|c rest]; [done|].
      injection Hitem as ->. by exists item, rest.
    - destruct (index_insert item kept) as [|c rest]; [done|].
      injection Hfirst as ->. exists other, rest. split; [done|].
      destruct before as [|h answer] eqn:Hbefore; [done|].
      specialize (Hhead h answer Hnone eq_refl).
      subst kept. destruct (same_case_id item h) eqn:Hsame.
      + rewrite (filter_false (λ other, negb (same_case_id item other))) in Hother
          by (by rewrite Hsame).
        apply head_Some_elem_of, list_elem_of_filter in Hother as [_ Hin].
        apply StronglySorted_inv in Hsorted as [_ Hle].
        rewrite Forall_forall in Hle. specialize (Hle other Hin). cbn beta in Hle.
        apply same_case_id_rank in Hsame. lia.
      + rewrite (filter_true (λ other, negb (same_case_id item other))) in Hother
          by (by rewrite Hsame).
        by injection Hother as <-. }
  destruct Hfirst as (c & rest & Hnew & Hc).
  eapply (closed_head_is_not_open None tid s' c rest); [|exact Hc].
  unfold query_transaction_index. cbn [fst]. by rewrite Hanswer, Hnew.
Qed.

(** X7. Idempotence does not extend to terminal decisions: when a first
    call, whose query answers, creates a case that is resolved for the
    customer or rejected as time-barred, a second call for the same
    [transaction_id] whose query and write succeed decides again and writes
    a second case; both cases are in the table afterwards. This holds
    wherever the index places the cases. *)
Theorem closed_decision_is_decided_again env1 env2 t1 t2 tid s r1 s1 :
  t1 !! "transaction_id" = Some (VStr tid) →
  t2 !! "transaction_id" = Some (VStr tid) →
  read_fault env1 = None →
  process_dispute env1 t1 s = (Ret r1, s1) →
  r1 !! "existing_case" = Some (VBool false) →
  r1 !! "dispute_status" ≠ Some (VStr "FORWARDED_TO_ACQUIRER") →
  read_fault env2 = None →
  write_fault env2 = None →
  uuid4 env2 ≠ uuid4 env1 →
  ∃ r2 s2 first second,
    process_dispute env2 t2 s1 = (Ret r2, s2) ∧
    r2 !! "existing_case" = Some (VBool false) ∧
    r1 !! "case_id" = Some (VStr (uuid4 env1)) ∧
    r2 !! "case_id" = Some (VStr (uuid4 env2)) ∧
    first ∈ cases s2 ∧ second ∈ cases s2 ∧
    first !! "case_id" = Some (VStr (uuid4 env1)) ∧
    second !! "case_id" = Some (VStr (uuid4 env2)) ∧
    key_matches "transaction_id" (VStr tid) first = true ∧
    key_matches "transaction_id" (VStr tid) second = true.
Proof.
  intros Ht1 Ht2 Hread1 Hfirst Hnew Hstatus Hread Hwrite Hfresh.
  rewrite process_dispute_unfold in Hfirst. cbv zeta in Hfirst.
  rewrite if_truthy_open_case in Hfirst.
  destruct (get_tid t1 tid Ht1) as [Htid1 _]. rewrite Htid1, Hread1 in Hfirst.
  destruct ((get_open_case_for_transaction None (VStr tid) s).1)
    as [c|] eqn:Hbefore; [by simplify_eq|].
  pose proof (decided_status (utcnow env1) t1) as Hst.
  destruct (_determine_case_status (utcnow env1) t1) as [[[st re] ct] ca].
  cbn [fst] in Hst.
  destruct (write_fault env1); [by simplify_eq|].
  apply pair_equal_spec in Hfirst as [Hr1 <-].
  apply Ret_inj in Hr1 as <-.
  change (Some (VStr st) ≠ Some (VStr "FORWARDED_TO_ACQUIRER")) in Hstatus.
  assert (Hclosed : st ∈ ["REJECTED_TIME_BARRED"; "RESOLVED_CUSTOMER"]).
  { apply elem_of_cons in Hst as [->|Hst]; [left|].
    apply elem_of_cons in Hst as [->|Hst]; [right; left|].
    by apply list_elem_of_singleton in Hst as ->. }
  set (item := written env1 t1 st re ct ca).
  rewrite process_dispute_unfold. cbv zeta.
  rewrite if_truthy_open_case.
  destruct (get_tid t2 tid Ht2) as [-> _]. rewrite Hread, Hwrite.
  match goal with |- context [get_open_case_for_transaction None (VStr tid) ?s] =>
    assert (Hopen : (get_open_case_for_transaction None (VStr tid) s).1 = None)
  end.
  { by eapply (closed_write_keeps_lookup_empty item (VStr tid) s);
      [reflexivity|apply written_matches|apply written_closed|]. }
  rewrite Hopen.
  destruct (_determine_case_status (utcnow env2) t2) as [[[st2 re2] ct2] ca2].
  eexists _, _, item, (written env2 t2 st2 re2 ct2 ca2).
  split; [reflexivity|]. split; [reflexivity|]. split; [reflexivity|].
  split; [reflexivity|]. split.
  { cbn [cases log_call]. right. apply list_elem_of_filter. split; [|left].
    apply Is_true_true. unfold same_case_id. rewrite !written_case_id.
    apply negb_true_iff, bool_decide_eq_false_2. congruence. }
  split; [left|]. split; [reflexivity|]. split; [reflexivity|].
  split; by apply written_matches.
Qed.

(** X8. One call of [process_dispute] makes the open-case query first and
    at most one write after it, and writes only when the query gave no open
    case. The table is left as it is or gains the written item at its head;
    a case whose [case_id] is not the identifier drawn is never removed. *)
Theorem process_dispute_store_discipline env t s :
  let s' := (process_dispute env t s).2 in
  let lookup := index_query (get_or t "transaction_id" (VStr "unknown")) in
  ((calls s' = (calls s ++ [lookup])%list ∧ cases s' = cases s) ∨
   (∃ item,
      calls s' = (calls s ++ [lookup; PutItemCall CASE_DB_TABLE item])%list ∧
      item !! "case_id" = Some (VStr (uuid4 env)) ∧
      (get_open_case_for_transaction (read_fault env)
         (get_or t "transaction_id" (VStr "unknown")) s).1 = None ∧
      (cases s' = cases s ∨
       cases s' = item :: filter (λ other, negb (same_case_id item other)) (cases s)))) ∧
  (∀ case, case ∈ cases s → case !! "case_id" ≠ Some (VStr (uuid4 env)) →
           case ∈ cases s') ∧
  (length (cases s') ≤ S (length (cases s)))%nat.
Proof.
  intros s' lookup. subst s'. rewrite process_dispute_unfold. cbv zeta.
  rewrite if_truthy_open_case. fold lookup.
  destruct ((get_open_case_for_transaction _ _ s).1) as [c|] eqn:Hopen.
  { cbn [snd]. split; [by left|]. split; [done|]. cbn [cases log_call]. lia. }
  destruct (_determine_case_status (utcnow env) t) as [[[st re] ct] ca].
  destruct (write_fault env); cbn [snd cases calls log_call].
  - split; [|split; [done|lia]].
    right. eexists. rewrite <- app_assoc. split; [reflexivity|].
    split; [apply written_case_id|]. split; [done|]. by left.
  - split; [|split].
    + right. eexists. rewrite <- app_assoc. split; [reflexivity|].
      split; [apply written_case_id|]. split; [done|]. by right.
    + intros case Hcase Hid. right. apply list_elem_of_filter. split; [|done].
      apply Is_true_true. unfold same_case_id. rewrite written_case_id.
      destruct (case !! "case_id") as [[]|]; try done.
      apply negb_true_iff, bool_decide_eq_false_2. congruence.
    + cbn [length]. apply le_n_S, length_filter.
Qed.

(** X9. What [process_dispute] returns for a new case is what it wrote:
    the item sent to the table, now at the head of the table, agrees with
    the result on every key of the result but [existing_case], floats being
    stored as decimals. *)
Theorem new_case_result_is_what_was_written env t s r s' :
  process_dispute env t s = (Ret r, s') →
  r !! "existing_case" = Some (VBool false) →
  ∃ item,
    last (calls s') = Some (PutItemCall CASE_DB_TABLE item) ∧
    head (cases s') = Some item ∧
    Forall (λ key, item !! key = convert_floats_to_decimal <$> r !! key)
      ["case_id"; "customer_id"; "card_id"; "transaction_id"; "dispute_status";
       "decision_reason"; "created_at"; "updated_at"; "auto_decided";
       "requires_manual_review"; "credit_type"; "credit_amount"; "credit_issued"].
Proof.
  intros Hrun Hnew. rewrite process_dispute_unfold in Hrun. cbv zeta in Hrun.
  destruct (if_truthy _) as [c|]; [by simplify_eq|].
  destruct (_determine_case_status (utcnow env) t) as [[[st re] ct] ca].
  destruct (write_fault env); [by simplify_eq|].
  apply pair_equal_spec in Hrun as [Hr <-].
  apply Ret_inj in Hr as <-.
  exists (written env t st re ct ca).
  split; [cbn [calls log_call]; by rewrite !last_snoc|].
  split; [reflexivity|].
  repeat (apply Forall_cons; split; [reflexivity|]).
  constructor.
Qed.

Lemma filter_and (P Q : pydict → bool) (l : list pydict) :
  filter (λ c, P c && Q c) l = filter (λ c, Q c) (filter (λ c, P c) l).
Proof.
  induction l as [|h tl IH]; [done|].
  destruct (P h) eqn:HP, (Q h) eqn:HQ.
  - rewrite (filter_true (λ c, P c && Q c) h tl) by (by rewrite HP, HQ).
    by rewrite (filter_true P h tl HP), (filter_true Q h _ HQ), IH.
  - rewrite (filter_false (λ c, P c && Q c) h tl) by (by rewrite HP, HQ).
    by rewrite (filter_true P h tl HP), (filter_false Q h _ HQ), IH.
  - rewrite (filter_false (λ c, P c && Q c) h tl) by (by rewrite HP).
    by rewrite (filter_false P h tl HP), IH.
  - rewrite (filter_false (λ c, P c && Q c) h tl) by (by rewrite HP).
    by rewrite (filter_false P h tl HP), IH.
Qed.

Lemma filter_all (P : pydict → bool) (l : list pydict) :
  Forall (λ c, P c = true) l → filter (λ c, P c) l = l.
Proof.
  induction 1 as [|c l Hc _ IH]; [done|]. by rewrite filter_true, IH.
Qed.

(** A fresh identifier replaces no case. *)
Lemma fresh_case_id_replaces_nothing (item : pydict) (id : string) (l : list pydict) :
  item !! "case_id" = Some (VStr id) →
  Forall (λ case, case !! "case_id" ≠ Some (VStr id)) l →
  filter (λ other, negb (same_case_id item other)) l = l.
Proof.
  intros Hid Hfresh. apply filter_all.
  eapply Forall_impl; [exact Hfresh|]. intros c Hc. cbn beta in *.
  unfold same_case_id. rewrite Hid.
  destruct (c !! "case_id") as [[| | | | |b| |]|]; try done.
  apply negb_true_iff, bool_decide_eq_false_2. congruence.
Qed.

Lemma process_dispute_keeps_lone env t s :
  read_fault env = None →
  Forall (λ case, case !! "case_id" ≠ Some (VStr (uuid4 env))) (cases s) →
  lone_when_open s →
  lone_when_open (process_dispute env t s).2.
Proof.
  intros Hread Hfresh Hlone. rewrite process_dispute_unfold. cbv zeta.
  rewrite if_truthy_open_case, Hread.
  destruct ((get_open_case_for_transaction None _ s).1) as [c|] eqn:Hopen; [done|].
  destruct (_determine_case_status (utcnow env) t) as [[[st re] ct] ca].
  destruct (write_fault env); [done|].
  cbn [snd]. intros tid. unfold cases_of. cbn [cases log_call].
  set (item := written env t st re ct ca).
  rewrite (fresh_case_id_replaces_nothing item (uuid4 env))
    by (done || apply written_case_id).
  destruct (key_matches "transaction_id" (VStr tid) item) eqn:Hitem.
  - rewrite (filter_true (λ case, key_matches "transaction_id" (VStr tid) case)
               item _ Hitem).
    intros [Hnew Hold]%Forall_cons. specialize (Hlone tid Hold).
    apply written_matches_inv in Hitem.
    destruct (get_tid t tid Hitem) as [Hkey _]. rewrite Hkey in Hopen.
    unfold cases_of in Hlone, Hold.
    destruct (filter _ (cases s)) as [|o [|o' rest]] eqn:Hcases; [simpl; lia| |simpl in Hlone; lia].
    apply Forall_cons in Hold as [Ho _].
    rewrite (first_open_item_is_returned None (VStr tid) s o []) in Hopen; [done| |].
    + unfold query_transaction_index. cbn [fst]. by rewrite Hcases.
    + unfold is_open in Ho. by apply negb_true_iff in Ho.
  - rewrite (filter_false (λ case, key_matches "transaction_id" (VStr tid) case)
               item _ Hitem).
    apply Hlone.
Qed.

Lemma process_dispute_case_ids env t s (id : string) :
  id ≠ uuid4 env →
  Forall (λ case, case !! "case_id" ≠ Some (VStr id)) (cases s) →
  Forall (λ case, case !! "case_id" ≠ Some (VStr id)) (cases (process_dispute env t s).2).
Proof.
  intros Hid Hs. rewrite process_dispute_unfold. cbv zeta.
  destruct (if_truthy _) as [c|]; [done|].
  destruct (_determine_case_status (utcnow env) t) as [[[st re] ct] ca].
  destruct (write_fault env); [done|].
  cbn [snd cases]. constructor.
  - rewrite written_case_id. congruence.
  - apply Forall_forall. intros c [_ Hc]%list_elem_of_filter.
    by eapply Forall_forall in Hs.
Qed.

Lemma process_disputes_keep_lone (requests : list (call_env * pydict)) s :
  Forall (λ request, read_fault request.1 = None) requests →
  NoDup (map (λ request, uuid4 request.1) requests) →
  Forall (λ request,
            Forall (λ case, case !! "case_id" ≠ Some (VStr (uuid4 request.1)))
              (cases s)) requests →
  lone_when_open s →
  lone_when_open (process_disputes requests s).
Proof.
  intros Hreads. revert s.
  induction Hreads as [|[env t] requests Hread _ IH]; intros s Hids Hfresh Hlone; [done|].
  cbn [process_disputes foldl].
  apply NoDup_cons in Hids as [Hnew Hids]. cbn [map fst] in Hnew.
  apply Forall_cons in Hfresh as [Hfresh_env Hfresh].
  apply IH; [done| |by apply process_dispute_keeps_lone].
  apply Forall_forall. intros request Hrequest.
  apply process_dispute_case_ids.
  - intros Heq. apply Hnew. cbn [fst] in Heq. rewrite <- Heq.
    apply (list_elem_of_fmap_2 (λ request : call_env * pydict, uuid4 request.1)), Hrequest.
  - by eapply Forall_forall in Hfresh.
Qed.

(** X10. Disputes processed one after the other from an empty table, with
    identifiers never drawn twice and none of whose open-case queries fails:
    a transaction all of whose cases are open has one case at most, and so
    one open case at most, wherever the index places the cases and whatever
    the transactions, the clock and the outcome of the writes. More than
    one open case can only arise for a transaction that has a closed case
    in its lineage. *)
Theorem lone_open_case_without_closed_lineage (requests : list (call_env * pydict)) :
  Forall (λ request, read_fault request.1 = None) requests →
  NoDup (map (λ request, uuid4 request.1) requests) →
  ∀ tid,
    let s := process_disputes requests {| cases := []; calls := [] |} in
    Forall (λ case, is_open case = true) (cases_of tid s) →
    (length (cases_of tid s) ≤ 1)%nat ∧ (length (open_cases tid s) ≤ 1)%nat.
Proof.
  intros Hreads Hids tid s Hopen.
  assert (Hlone : lone_when_open s).
  { apply process_disputes_keep_lone; [done..| |].
    - apply Forall_forall. intros request _. constructor.
    - intros tid' _. unfold cases_of. cbn [cases]. rewrite filter_nil. simpl. lia. }
  specialize (Hlone tid Hopen). split; [exact Hlone|].
  unfold open_cases.
  rewrite (filter_and (λ case, key_matches "transaction_id" (VStr tid) case)
             (λ case, is_open case)).
  etrans; [apply length_filter|exact Hlone].
Qed.
End WorkflowMore.

(** ** The case repository and the way to a dispute *)

Lemma wrapper_from_returned {A} (func : nat → exc A) max_attempts delay remaining attempt a :
  (wrapper_from func max_attempts delay remaining attempt).1 = Ret (Some a) →
  ∃ k, func k = Ret a.
Proof.
  revert attempt. induction remaining as [|remaining IH]; intros attempt; [discriminate|].
  cbn [wrapper_from].
  destruct (func attempt) as [a'|[code msg|cls msg]] eqn:Hcall.
  - intros [= ->]. eauto.
  - case_bool_decide; [discriminate|].
    case_bool_decide; [|discriminate].
    destruct (wait_time delay attempt); [|discriminate].
    specialize (IH (S attempt)).
    destruct (wrapper_from func max_attempts delay remaining (S attempt)) as [r sleeps].
    exact IH.
  - case_bool_decide; [discriminate|].
    specialize (IH (S attempt)).
    destruct (wrapper_from func max_attempts delay remaining (S attempt)) as [r sleeps].
    exact IH.
Qed.

Section Repository.
Context `{Runtime} {order : IndexOrder}.

(** X11. A case written by [create_case] is read back by [get_case] and
    [get_case_details] under its [case_id], with its floats as decimals;
    the cases filed under other identifiers are read as before; and a write
    that the store refuses leaves every case as it was. *)
Theorem created_case_is_read_back (case_data : pydict) (id : string) (s : store)
    (e : pyexn) :
  case_data !! "case_id" = Some (VStr id) →
  let '(created, s') := create_case None case_data s in
  let '(refused, s'') := create_case (Some e) case_data s in
  created = true ∧
  get_case_attempt None (VStr id) s' = Ret (Some (convert_item case_data)) ∧
  get_case_details (λ _, None) (VStr id) s' = Some (convert_item case_data) ∧
  (∀ other, other ≠ id →
     get_case_attempt None (VStr other) s' = get_case_attempt None (VStr other) s) ∧
  refused = false ∧ cases s'' = cases s.
Proof.
  intros Hid. unfold create_case, DynamoClient.put_item. cbn [try_except mbind exc_mbind exc_bind].
  set (item := convert_item case_data).
  assert (Hitem : item !! "case_id" = Some (VStr id)).
  { unfold item, convert_item. by rewrite lookup_fmap, Hid. }
  assert (Hread : get_case_attempt None (VStr id)
            {| cases := item :: filter (λ other, negb (same_case_id item other))
                                  (cases (log_call (PutItemCall CASE_DB_TABLE item) s));
               calls := calls (log_call (PutItemCall CASE_DB_TABLE item) s) |}
          = Ret (Some item)).
  { unfold get_case_attempt. cbn [cases].
    rewrite (filter_true (λ c, key_matches "case_id" (VStr id) c)); [done|].
    unfold key_matches. rewrite Hitem. by apply bool_decide_eq_true_2. }
  split; [done|]. split; [exact Hread|]. split.
  { unfold get_case_details, get_case, store_retry, async_retry.
    cbn [wrapper_from]. by rewrite Hread. }
  split; [|done].
  intros other Hother. unfold get_case_attempt. cbn [cases log_call]. f_equal. f_equal.
  rewrite (filter_false (λ c, key_matches "case_id" (VStr other) c)).
  2:{ unfold key_matches. rewrite Hitem. by apply bool_decide_eq_false_2; congruence. }
  rewrite (filter_filter_comm (λ c, key_matches "case_id" (VStr other) c)
             (λ c, negb (same_case_id item c))).
  apply filter_all. apply Forall_forall.
  intros c [Hc _]%list_elem_of_filter. apply Is_true_true_1 in Hc.
  unfold same_case_id. rewrite Hitem. unfold key_matches in Hc.
  destruct (c !! "case_id") as [[]|]; try done.
  apply bool_decide_eq_true_1 in Hc as ->.
  apply negb_true_iff, bool_decide_eq_false_2. congruence.
Qed.

(** X12. [update_case] answers [False] to whatever the store raises, so
    its retry decoration never comes into play: the operation is called
    once and no sleep is made, also when the store throttles; the answer is
    [True] exactly when that one call is not refused. *)
Theorem update_case_is_never_retried (now_iso : nat → string)
    (faults : nat → option pyexn) (case_id : pyval) (updates : list (string * pyval)) :
  update_case now_iso faults case_id updates
  = (Ret (Some (match faults 0%nat with Some _ => false | None => true end)), []).
Proof.
  unfold update_case, store_retry, async_retry. cbn [wrapper_from].
  unfold update_case_attempt. by destruct (faults 0%nat).
Qed.

(** X13. [list_cases_by_customer] raises nothing and returns at most
    [limit] cases, all of the customer asked for and each returned as often
    at most as the table holds it; with a failing query or a limit below 1
    it returns the empty list, and with a limit that the customer's cases do
    not exceed it returns them all. Which cases a smaller limit keeps, and
    in which order they come, is the index's business: it has no sort key. *)
Theorem customer_cases_are_bounded (fault : option pyexn) (customer_id : pyval)
    (limit : Z) (s : store) :
  let listed := list_cases_by_customer fault customer_id limit s in
  let held := filter (λ case, key_matches "customer_id" customer_id case) (cases s) in
  (length listed ≤ Z.to_nat limit)%nat ∧
  Forall (λ case, key_matches "customer_id" customer_id case = true) listed ∧
  listed ⊆+ held ∧
  (fault ≠ None ∨ (limit < 1)%Z → listed = []) ∧
  (fault = None → (1 ≤ limit)%Z → (length held ≤ Z.to_nat limit)%nat →
     listed ≡ₚ held).
Proof.
  intros listed held. subst listed.
  unfold list_cases_by_customer, query_customer_index. fold held.
  destruct fault as [e|]; cbn [try_except].
  { split; [simpl; lia|]. split; [done|]. split; [apply submseteq_nil_l|]. by split. }
  case_bool_decide as Hlimit; cbn [try_except].
  { split; [simpl; lia|]. split; [done|]. split; [apply submseteq_nil_l|].
    split; [done|]. lia. }
  split; [rewrite length_take; lia|]. split.
  { apply Forall_take, Forall_forall.
    intros c [Hc _]%index_sort_elem%list_elem_of_filter. by apply Is_true_true_1. }
  split.
  { rewrite <- (index_sort_perm held) at 2. apply sublist_submseteq, sublist_take. }
  split; [intros [?|?]; [done|lia]|].
  intros _ _ Hall. rewrite take_ge; [apply index_sort_perm|].
  by rewrite index_sort_perm.
Qed.

Lemma transaction_of_item_fields (item d : pydict) :
  transaction_of_item item = Ret d →
  d !! "transaction_id" = Some (get item "transaction_id") ∧
  d !! "customer_id" = Some (get item "customer_id") ∧
  d !! "card_number" = Some (get item "card_number") ∧
  (∃ x, d !! "amount" = Some (VFloat x)) ∧
  d !! "card_id" = None ∧
  d ≠ ∅.
Proof.
  unfold transaction_of_item. cbn [mbind exc_mbind exc_bind].
  destruct (to_float _) as [x|e]; [|discriminate].
  intros [= <-]. repeat split; eauto.
Qed.

Lemma differs_false (expected : option string) (value : pyval) e :
  differs expected value = false → given expected = Some e → value = VStr e.
Proof.
  unfold differs. intros Hd Hgiven. rewrite Hgiven in Hd. apply negb_false_iff in Hd.
  destruct value; try discriminate. by apply bool_decide_eq_true_1 in Hd as ->.
Qed.

Lemma get_transaction_attempt_found fault cards tid cust card d :
  get_transaction_attempt fault cards tid cust card = Ret (Some d) →
  (∀ c, given cust = Some c → d !! "customer_id" = Some (VStr c)) ∧
  (∀ n, given card = Some n → d !! "card_number" = Some (VStr n)) ∧
  (∃ id, tid = VStr id ∧ d !! "transaction_id" = Some (VStr id)) ∧
  (∃ x, d !! "amount" = Some (VFloat x)) ∧
  d !! "card_id" = None ∧ d ≠ ∅.
Proof.
  unfold get_transaction_attempt. destruct fault; [discriminate|].
  destruct (filter _ cards) as [|item rest] eqn:Hf; [discriminate|].
  assert (Hmatch : key_matches "transaction_id" tid item = true).
  { assert (Hin : item ∈ filter (λ item, key_matches "transaction_id" tid item) cards)
      by (rewrite Hf; left).
    apply list_elem_of_filter in Hin as [Hm _]. by apply Is_true_true_1. }
  destruct (differs cust _) eqn:Hcust; [discriminate|].
  destruct (differs card _) eqn:Hcard; [discriminate|].
  destruct (transaction_of_item item) as [d'|] eqn:Hd; [|discriminate].
  intros [= <-].
  destruct (transaction_of_item_fields _ _ Hd) as (Htid & Hc & Hn & Hamount & Hcard_id & Hne).
  split; [intros c Hgiven; by rewrite Hc, (differs_false _ _ _ Hcust Hgiven)|].
  split; [intros n Hgiven; by rewrite Hn, (differs_false _ _ _ Hcard Hgiven)|].
  split; [|done].
  unfold key_matches in Hmatch. unfold get in Htid.
  destruct (item !! "transaction_id") as [[]|]; try done.
  destruct tid; try done. apply bool_decide_eq_true_1 in Hmatch as ->. eauto.
Qed.

Lemma returned_transaction_fields (faults : nat → option pyexn)
    (cards : list pydict) (transaction_id : pyval)
    (customer_id card_number : option string) (d : pydict) :
  (get_transaction faults cards transaction_id customer_id card_number).1
    = Ret (Some (Some d)) →
  ∃ id, transaction_id = VStr id ∧ d !! "transaction_id" = Some (VStr id) ∧
        d !! "card_id" = None.
Proof.
  intros [k Hk]%wrapper_from_returned.
  destruct (get_transaction_attempt_found _ _ _ _ _ _ Hk)
    as (_ & _ & (id & -> & Hid) & _ & Hcard & _).
  eauto.
Qed.

(** X14. A transaction that [get_transaction] returns is the one asked
    for: it carries the requested [transaction_id]; it belongs to the
    customer and to the card whenever these are given and non-empty; its
    [amount] is a float; and it has no [card_id] key. *)
Theorem returned_transaction_is_the_one_asked_for (faults : nat → option pyexn)
    (cards : list pydict) (transaction_id : pyval)
    (customer_id card_number : option string) (d : pydict) :
  (get_transaction faults cards transaction_id customer_id card_number).1
    = Ret (Some (Some d)) →
  (∀ c, given customer_id = Some c → d !! "customer_id" = Some (VStr c)) ∧
  (∀ n, given card_number = Some n → d !! "card_number" = Some (VStr n)) ∧
  (∃ id, transaction_id = VStr id ∧ d !! "transaction_id" = Some (VStr id)) ∧
  (∃ x, d !! "amount" = Some (VFloat x)) ∧
  d !! "card_id" = None.
Proof.
  intros [k Hk]%wrapper_from_returned.
  by destruct (get_transaction_attempt_found _ _ _ _ _ _ Hk) as (?&?&?&?&?&?).
Qed.

Lemma lookup_found faults cards tid cust card id' txn msg :
  agent_verify_transaction faults cards tid cust card = Found id' txn msg →
  (get_transaction faults cards tid cust card).1 = Ret (Some (Some txn)).
Proof.
  unfold agent_verify_transaction, transaction_lookup_run.
  destruct ((get_transaction faults cards tid cust card).1) as [[[d|]|]|e];
    cbn [try_except mbind exc_mbind exc_bind returned if_truthy dict_truthy];
    try discriminate.
  unfold if_truthy, dict_truthy.
  case_bool_decide; cbn [negb]; [discriminate|]. by intros [= _ ->].
Qed.

(** X15. [verify_transaction] of the crew touches the case table only for
    a transaction the lookup found. When the lookup fails (no such
    transaction, another customer or card, a store error) the failed lookup
    is returned and no call is made on the case table. When it succeeds,
    [process_dispute] runs on the transaction found, its open-case query is
    made under the requested identifier, a case it creates has a null
    [card_id] (the lookup returns [card_number]), and the answer reports
    success whatever the workflow returned. *)
Theorem verify_transaction_disputes_found_transactions (faults : nat → option pyexn)
    (env : call_env) (cards : list pydict) (transaction_id : pyval)
    (customer_id card_number : option string) (s : store) :
  let '(answer, s') :=
    verify_transaction faults env cards transaction_id customer_id card_number s in
  match agent_verify_transaction faults cards transaction_id customer_id card_number with
  | NotFound message =>
      answer = Ret (Rejected (NotFound message)) ∧ s' = s
  | Found _ transaction _ =>
      ∃ id r later,
        transaction_id = VStr id ∧
        process_dispute env transaction s = (Ret r, s') ∧
        answer = Ret (Disputed transaction r) ∧
        verification_success (Disputed transaction r) = true ∧
        calls s' = (calls s ++ index_query (VStr id) :: later)%list ∧
        (r !! "existing_case" = Some (VBool false) → r !! "card_id" = Some VNone)
  end.
Proof.
  unfold verify_transaction.
  destruct (agent_verify_transaction _ _ _ _ _) as [id' txn msg|msg] eqn:Hlookup; [|done].
  apply lookup_found in Hlookup.
  destruct (returned_transaction_fields faults cards transaction_id customer_id
              card_number txn Hlookup) as (id & -> & Htid & Hcard).
  rewrite process_dispute_unfold. cbv zeta.
  rewrite if_truthy_open_case.
  destruct (get_tid txn id Htid) as [-> _].
  assert (Hcard_id : get txn "card_id" = VNone) by (unfold get; by rewrite Hcard).
  destruct ((get_open_case_for_transaction _ _ s).1) as [c|].
  { exists id. eexists _, []. repeat split; try reflexivity. intros [=]. }
  destruct (_determine_case_status (utcnow env) txn) as [[[st re] ct] ca].
  destruct (write_fault env).
  - exists id. eexists _, [_]. split; [done|]. split; [reflexivity|].
    split; [reflexivity|]. split; [reflexivity|].
    split; [cbn [calls log_call]; by rewrite <- app_assoc|]. intros [=].
  - exists id. eexists _, [_]. split; [done|]. split; [reflexivity|].
    split; [reflexivity|]. split; [reflexivity|].
    split; [cbn [calls log_call]; by rewrite <- app_assoc|].
    intros _. change (Some (get txn "card_id") = Some VNone). by rewrite Hcard_id.
Qed.
End Repository.

(** ** Conversion of floats *)

Lemma pyval_nested_ind (P : pyval → Prop) :
  P VNone → (∀ b, P (VBool b)) → (∀ n, P (VInt n)) → (∀ x, P (VFloat x)) →
  (∀ d, P (VDecimal d)) → (∀ s, P (VStr s)) →
  (∀ items, Forall P items → P (VList items)) →
  (∀ entries, Forall (λ kv, P kv.2) entries → P (VDict entries)) →
  ∀ v, P v.
Proof.
  intros HNone HBool HInt HFloat HDecimal HStr HList HDict.
  fix IH 1. intros [|b|n|x|d|s|items|entries].
  - exact HNone.
  - apply HBool.
  - apply HInt.
  - apply HFloat.
  - apply HDecimal.
  - apply HStr.
  - apply HList. induction items as [|v items IHitems]; constructor; [apply IH|exact IHitems].
  - apply HDict. induction entries as [|[k v] entries IHentries]; constructor;
      [apply IH|exact IHentries].
Qed.

Section Conversion.
Context `{Runtime}.

(** X16. [convert_floats_to_decimal] leaves no float at any depth of lists
    and dictionaries, changes nothing in a value that holds no float, and
    applied twice does what it does once. *)
Theorem conversion_removes_every_float (v : pyval) :
  has_float (convert_floats_to_decimal v) = false ∧
  (has_float v = false → convert_floats_to_decimal v = v) ∧
  convert_floats_to_decimal (convert_floats_to_decimal v) = convert_floats_to_decimal v.
Proof.
  induction v as [| | | | | |items IH|entries IH] using pyval_nested_ind;
    try (by repeat split).
  - cbn [convert_floats_to_decimal has_float]. split; [|split].
    + induction IH as [|v items [Hv _] _ IHitems]; [done|].
      cbn [map existsb]. by rewrite Hv, IHitems.
    + intros Hnone. f_equal.
      induction IH as [|v items (_ & Hv & _) _ IHitems]; [done|].
      cbn [map existsb] in *. apply orb_false_elim in Hnone as [Hhead Htail].
      by rewrite Hv, IHitems.
    + f_equal. induction IH as [|v items (_ & _ & Hv) _ IHitems]; [done|].
      cbn [map]. by rewrite Hv, IHitems.
  - cbn [convert_floats_to_decimal has_float]. split; [|split].
    + induction IH as [|[k v] entries [Hv _] _ IHentries]; [done|].
      cbn [map existsb fst snd] in *. by rewrite Hv, IHentries.
    + intros Hnone. f_equal.
      induction IH as [|[k v] entries (_ & Hv & _) _ IHentries]; [done|].
      cbn [map existsb fst snd] in *. apply orb_false_elim in Hnone as [Hhead Htail].
      by rewrite Hv, IHentries.
    + f_equal. induction IH as [|[k v] entries (_ & _ & Hv) _ IHentries]; [done|].
      cbn [map fst snd] in *. by rewrite Hv, IHentries.
Qed.

Lemma convert_has_no_float (v : pyval) :
  has_float (convert_floats_to_decimal v) = false.
Proof.
  induction v as [| | | | | |items IH|entries IH] using pyval_nested_ind; try done.
  - cbn [convert_floats_to_decimal has_float].
    induction IH as [|v items Hv _ IHitems]; [done|].
    cbn [map existsb]. by rewrite Hv, IHitems.
  - cbn [convert_floats_to_decimal has_float].
    induction IH as [|[k v] entries Hv _ IHentries]; [done|].
    cbn [map existsb fst snd] in *. by rewrite Hv, IHentries.
Qed.

Lemma convert_item_has_no_float (d : pydict) :
  map_Forall (λ _ v, has_float v = false) (convert_item d).
Proof.
  intros k v. unfold convert_item. rewrite lookup_fmap.
  destruct (d !! k); [|discriminate]. intros [= <-]. apply convert_has_no_float.
Qed.

(** X17. No float reaches the table through a write of an item:
    [create_case] and the [put_item] operation of the query tool send an
    item none of whose values holds a float, at any depth. *)
Theorem written_items_hold_no_float (fault : option pyexn) (case_data : pydict)
    (s : store) (db : db_client) (now_iso table_name : string)
    (key_condition filter_expression : option (list (string * pyval)))
    (index_name : option string) (attributes_to_get : option (list string))
    (limit : option Z) (item_data : option pydict)
    (update_expression : option (list (string * pyval))) :
  Forall (λ call, match call with
                  | PutItemCall _ item =>
                      map_Forall (λ _ v, has_float v = false) item
                  | QueryCall _ _ _ _ _ => True
                  end)
    (drop (length (calls s)) (calls (create_case fault case_data s).2)) ∧
  Forall (λ call, match call with
                  | PutItem _ item => map_Forall (λ _ v, has_float v = false) item
                  | _ => True
                  end)
    (_run db now_iso table_name "put_item" key_condition filter_expression
       index_name attributes_to_get limit item_data update_expression).2.
Proof.
  split.
  - unfold create_case, DynamoClient.put_item.
    destruct fault; cbn [snd calls log_call]; rewrite drop_app_length;
      repeat constructor; apply convert_item_has_no_float.
  - unfold _run. destruct (negb _); [constructor|].
    rewrite (bool_decide_eq_false_2 ("put_item" = "query")) by done.
    rewrite (bool_decide_eq_false_2 ("put_item" = "get_item")) by done.
    rewrite (bool_decide_eq_false_2 ("put_item" = "scan")) by done.
    rewrite (bool_decide_eq_true_2 ("put_item" = "put_item")) by done.
    unfold _execute_put_item. destruct (if_truthy item_data); [|constructor].
    repeat constructor. apply convert_item_has_no_float.
Qed.
End Conversion.

(** ** More on the query tool *)

Lemma build_key_expr_app acc pre post :
  build_key_expr acc (pre ++ post)%list
  = acc' ← build_key_expr acc pre; build_key_expr acc' post.
Proof.
  revert acc. induction pre as [|kv pre IH]; intros acc; [reflexivity|].
  cbn [app build_key_expr mbind exc_mbind exc_bind].
  destruct (key_step acc kv) as [acc'|e]; [apply IH|reflexivity].
Qed.

(** X18. A [begins_with] condition in the key condition replaces what the
    loop had built before it rather than being joined to it: the equalities
    given earlier in the dictionary, the partition key among them, are not
    part of the key expression sent to the store. *)
Theorem begins_with_replaces_earlier_conditions (acc built : option condition)
    (pre post : list (string * pyval)) (key : string)
    (entries : list (string * pyval)) (prefix : pyval) :
  build_key_expr acc pre = Ret built →
  entry "begins_with" entries = Some prefix →
  build_key_expr acc (pre ++ (key, VDict entries) :: post)%list
  = build_key_expr (Some (KeyBeginsWith key prefix)) post.
Proof.
  intros Hpre Hentry. rewrite build_key_expr_app, Hpre.
  cbn [mbind exc_mbind exc_bind build_key_expr key_step]. by rewrite Hentry.
Qed.

Lemma foldl_conjuncts (leaf : string * pyval → condition)
    (Hleaf : ∀ kv, conjuncts (leaf kv) = [leaf kv])
    (l : list (string * pyval)) (c : condition) :
  ∃ c', foldl (λ acc kv, match acc with
                         | None => Some (leaf kv)
                         | Some e => Some (And e (leaf kv))
                         end) (Some c) l = Some c' ∧
        conjuncts c' = (conjuncts c ++ map leaf l)%list.
Proof.
  revert c. induction l as [|kv l IH]; intros c.
  - exists c. by rewrite app_nil_r.
  - cbn [foldl]. destruct (IH (And c (leaf kv))) as (c' & Hfold & Hconj).
    exists c'. split; [exact Hfold|].
    rewrite Hconj. cbn [conjuncts map]. by rewrite Hleaf, <- app_assoc.
Qed.

(** X19. The filter built from a dictionary is absent for the empty
    dictionary and otherwise a conjunction whose conjuncts are exactly the
    equalities [Attr(k).eq(v)] of its entries, in their order. For a key
    condition whose values are all plain (no dictionary) the key expression
    is built without an exception and is likewise the conjunction of
    [Key(k).eq(v)] for its entries, in their order. *)
Theorem conditions_are_conjunctions_of_equalities (f : list (string * pyval)) :
  build_filter [] = None ∧
  (f ≠ [] → ∃ c, build_filter f = Some c ∧
                 conjuncts c = map (λ kv, AttrEq kv.1 kv.2) f) ∧
  (f ≠ [] → Forall (λ kv, match kv.2 with VDict _ => False | _ => True end) f →
     ∃ c, build_key_expr None f = Ret (Some c) ∧
          conjuncts c = map (λ kv, KeyEq kv.1 kv.2) f).
Proof.
  split; [reflexivity|]. split.
  - destruct f as [|kv f]; [done|]. intros _. unfold build_filter. cbn [foldl].
    destruct (foldl_conjuncts (λ kv, AttrEq kv.1 kv.2) (λ _, eq_refl) f
                (AttrEq kv.1 kv.2)) as (c & Hfold & Hconj).
    exists c. split; [exact Hfold|]. by rewrite Hconj.
  - destruct f as [|kv f]; [done|]. intros _ Hplain.
    assert (Hgen : ∀ l c, Forall (λ kv, match kv.2 with VDict _ => False | _ => True end) l →
              ∃ c', build_key_expr (Some c) l = Ret (Some c') ∧
                    conjuncts c' = (conjuncts c ++ map (λ kv, KeyEq kv.1 kv.2) l)%list).
    { induction l as [|[k v] l IH]; intros c Hl.
      - exists c. by rewrite app_nil_r.
      - apply Forall_cons in Hl as [Hv Hl]. cbn [snd] in Hv.
        destruct (IH (And c (KeyEq k v)) Hl) as (c' & Hbuild & Hconj).
        exists c'. split.
        + cbn [build_key_expr key_step mbind exc_mbind exc_bind].
          by destruct v.
        + rewrite Hconj. cbn [conjuncts map fst snd]. by rewrite <- app_assoc. }
    apply Forall_cons in Hplain as [Hv Hplain]. destruct kv as [k v]. cbn [snd] in Hv.
    destruct (Hgen f (KeyEq k v) Hplain) as (c & Hbuild & Hconj).
    exists c. split; [|by rewrite Hconj].
    cbn [build_key_expr key_step mbind exc_mbind exc_bind]. by destruct v.
Qed.

Section QueryToolMore.
Context `{Runtime}.

(** X20. Whatever its arguments, one run of the query tool makes at most
    one call on a table. *)
Theorem run_makes_at_most_one_call (db : db_client) (now_iso : string)
    (table_name operation : string)
    (key_condition filter_expression : option (list (string * pyval)))
    (index_name : option string) (attributes_to_get : option (list string))
    (limit : option Z) (item_data : option pydict)
    (update_expression : option (list (string * pyval))) :
  (length (_run db now_iso table_name operation key_condition filter_expression
             index_name attributes_to_get limit item_data update_expression).2
   ≤ 1)%nat.
Proof.
  unfold _run, _execute_query, _execute_get_item, _execute_scan, _execute_put_item,
    _execute_update_item.
  repeat first
    [ progress cbn [snd length]
    | lia
    | match goal with
      | |- context [if ?b then _ else _] => destruct b
      | |- context [match nonempty_dict ?d with _ => _ end] => destruct (nonempty_dict d)
      | |- context [match if_truthy ?d with _ => _ end] => destruct (if_truthy d)
      | |- context [match build_key_expr ?a ?l with _ => _ end] =>
          destruct (build_key_expr a l)
      end ].
Qed.

(** X21. On a valid table, an operation that lacks what it needs fails
    before any call on the table: [query], [get_item] and [update_item]
    without a key condition (missing or empty), [put_item] without item
    data, [update_item] without updates, and any operation outside the five
    supported ones. *)
Theorem incomplete_operations_make_no_call (db : db_client) (now_iso : string)
    (table_name operation : string)
    (key_condition filter_expression : option (list (string * pyval)))
    (index_name : option string) (attributes_to_get : option (list string))
    (limit : option Z) (item_data : option pydict)
    (update_expression : option (list (string * pyval))) :
  table_name ∈ valid_tables →
  (operation ∈ ["query"; "get_item"; "update_item"] ∧ nonempty_dict key_condition = None)
  ∨ (operation = "put_item" ∧ if_truthy item_data = None)
  ∨ (operation = "update_item" ∧ nonempty_dict update_expression = None)
  ∨ operation ∉ ["query"; "get_item"; "scan"; "put_item"; "update_item"] →
  ∃ error,
    _run db now_iso table_name operation key_condition filter_expression
      index_name attributes_to_get limit item_data update_expression
    = (Failure error, []).
Proof.
  intros Hvalid Hmissing. unfold _run.
  rewrite (bool_decide_eq_true_2 (table_name ∈ valid_tables)) by done. cbn [negb].
  destruct Hmissing as [[Hop Hkey]|[[-> Hitem]|[[-> Hupd]|Hop]]].
  - apply elem_of_cons in Hop as [->|Hop];
      [|apply elem_of_cons in Hop as [->|Hop];
        [|apply list_elem_of_singleton in Hop as ->]].
    + rewrite (bool_decide_eq_true_2 ("query" = "query")) by done.
      unfold _execute_query. rewrite Hkey. eauto.
    + rewrite (bool_decide_eq_false_2 ("get_item" = "query")) by done.
      rewrite (bool_decide_eq_true_2 ("get_item" = "get_item")) by done.
      unfold _execute_get_item. rewrite Hkey. eauto.
    + rewrite (bool_decide_eq_false_2 ("update_item" = "query")) by done.
      rewrite (bool_decide_eq_false_2 ("update_item" = "get_item")) by done.
      rewrite (bool_decide_eq_false_2 ("update_item" = "scan")) by done.
      rewrite (bool_decide_eq_false_2 ("update_item" = "put_item")) by done.
      rewrite (bool_decide_eq_true_2 ("update_item" = "update_item")) by done.
      unfold _execute_update_item. rewrite Hkey. eauto.
  - rewrite (bool_decide_eq_false_2 ("put_item" = "query")) by done.
    rewrite (bool_decide_eq_false_2 ("put_item" = "get_item")) by done.
    rewrite (bool_decide_eq_false_2 ("put_item" = "scan")) by done.
    rewrite (bool_decide_eq_true_2 ("put_item" = "put_item")) by done.
    unfold _execute_put_item. rewrite Hitem. eauto.
  - rewrite (bool_decide_eq_false_2 ("update_item" = "query")) by done.
    rewrite (bool_decide_eq_false_2 ("update_item" = "get_item")) by done.
    rewrite (bool_decide_eq_false_2 ("update_item" = "scan")) by done.
    rewrite (bool_decide_eq_false_2 ("update_item" = "put_item")) by done.
    rewrite (bool_decide_eq_true_2 ("update_item" = "update_item")) by done.
    unfold _execute_update_item. destruct (nonempty_dict key_condition); [|eauto].
    rewrite Hupd. eauto.
  - rewrite !bool_decide_eq_false_2; [eauto|..];
      intros ->; apply Hop;
      repeat first [apply list_elem_of_here | apply list_elem_of_further].
Qed.
End QueryToolMore.

(** ** The retry decorator for any number of attempts *)

Lemma wrapper_from_outcome {A} (func : nat → exc A) max_attempts delay remaining attempt :
  (attempt + S remaining = max_attempts)%nat →
  let '(r, sleeps) := wrapper_from func max_attempts delay (S remaining) attempt in
  (length sleeps ≤ remaining)%nat ∧
  r ≠ Ret None ∧
  (r = (Some <$> func (attempt + length sleeps)%nat)
   ∨ ∃ e, wait_time delay (attempt + length sleeps) = Raise e ∧ r = Raise e) ∧
  (∀ k, (k < length sleeps)%nat → ∃ e, func (attempt + k)%nat = Raise e).
Proof.
  revert attempt. induction remaining as [|remaining IH]; intros attempt Hsum.
  - cbn [wrapper_from].
    rewrite (bool_decide_eq_true_2 (attempt = max_attempts - 1)%nat) by lia.
    destruct (func attempt) as [a|[code msg|cls msg]] eqn:Hcall;
      cbn [length]; rewrite Nat.add_0_r, Hcall;
      (split; [lia|]); (split; [done|]); (split; [by left|]); intros k Hk; lia.
  - specialize (IH (S attempt) ltac:(lia)).
    remember (S remaining) as n eqn:Hn. cbn [wrapper_from].
    rewrite (bool_decide_eq_false_2 (attempt = max_attempts - 1)%nat) by lia.
    destruct (func attempt) as [a|[code msg|cls msg]] eqn:Hcall.
    + cbn [length]. rewrite Nat.add_0_r, Hcall.
      split; [lia|]. split; [done|]. split; [by left|]. intros k Hk; lia.
    + case_bool_decide.
      * destruct (wait_time delay attempt) as [w|e] eqn:Hwait.
        -- destruct (wrapper_from func max_attempts delay n (S attempt)) as [r sleeps].
           destruct IH as (Hlen & Hsome & Hlast & Hraised).
           cbn [length]. rewrite <- Nat.add_succ_comm.
           split; [lia|]. split; [done|]. split; [done|].
           intros [|k] Hk; [rewrite Nat.add_0_r; eauto|].
           rewrite <- Nat.add_succ_comm. apply Hraised. lia.
        -- cbn [length]. rewrite Nat.add_0_r.
           split; [lia|]. split; [done|]. split; [right; eauto|]. intros k Hk; lia.
      * cbn [length]. rewrite Nat.add_0_r, Hcall.
        split; [lia|]. split; [done|]. split; [by left|]. intros k Hk; lia.
    + destruct (wrapper_from func max_attempts delay n (S attempt)) as [r sleeps].
      destruct IH as (Hlen & Hsome & Hlast & Hraised).
      cbn [length]. rewrite <- Nat.add_succ_comm.
      split; [lia|]. split; [done|]. split; [done|].
      intros [|k] Hk; [rewrite Nat.add_0_r; eauto|].
      rewrite <- Nat.add_succ_comm. apply Hraised. lia.
Qed.

(** X22. The retry decorator with any number of attempts and any delay.
    With [max_attempts = 0] the wrapped operation is not called and the
    wrapper returns [None]. With at least one attempt the wrapper never
    returns that [None]: it sleeps fewer than [max_attempts] times, every
    call followed by a sleep had raised, and it ends with the outcome of
    the call made after the last sleep, unless computing the back-off
    [delay * 2 ** attempt] itself raises, which is then what it raises. *)
Theorem async_retry_ends_with_a_call {A} (func : nat → exc A)
    (max_attempts : nat) (delay : float) :
  let '(r, sleeps) := async_retry func max_attempts delay in
  (max_attempts = 0%nat → r = Ret None ∧ sleeps = []) ∧
  ((0 < max_attempts)%nat →
     (length sleeps < max_attempts)%nat ∧
     r ≠ Ret None ∧
     (r = (Some <$> func (length sleeps))
      ∨ ∃ e, wait_time delay (length sleeps) = Raise e ∧ r = Raise e) ∧
     (∀ k, (k < length sleeps)%nat → ∃ e, func k = Raise e)).
Proof.
  unfold async_retry. destruct max_attempts as [|n].
  - cbn [wrapper_from]. split; [done|lia].
  - pose proof (wrapper_from_outcome func (S n) delay n 0 eq_refl) as Hout.
    destruct (wrapper_from func (S n) delay (S n) 0) as [r sleeps].
    destruct Hout as (Hlen & Hsome & Hlast & Hraised).
    split; [done|]. intros _. split; [lia|]. by repeat split.
Qed.

(** ** The request of [update_case] *)

Lemma str_app_cons (x : ascii) (a b : string) : String x a +:+ b = String x (a +:+ b).
Proof. reflexivity. Qed.

Lemma str_app_assoc (a b c : string) : (a +:+ b) +:+ c = a +:+ (b +:+ c).
Proof. induction a as [|x a IH]; [done|]. by rewrite !str_app_cons, IH. Qed.

Lemma str_app_empty_r (a : string) : a +:+ "" = a.
Proof. induction a as [|x a IH]; [done|]. by rewrite str_app_cons, IH. Qed.

Lemma rstrip_app (a b : string) :
  CaseRepository.rstrip_comma_space (a +:+ b) =
    match CaseRepository.rstrip_comma_space b with
    | EmptyString => CaseRepository.rstrip_comma_space a
    | String x b' => a +:+ String x b'
    end.
Proof.
  induction a as [|x a IH].
  - change ("" +:+ b) with b. by destruct (CaseRepository.rstrip_comma_space b).
  - rewrite str_app_cons. cbn [CaseRepository.rstrip_comma_space]. rewrite IH.
    destruct (CaseRepository.rstrip_comma_space b) as [|y b']; [done|].
    rewrite str_app_cons. by destruct a.
Qed.

Lemma rstrip_separator : CaseRepository.rstrip_comma_space ", " = "".
Proof. reflexivity. Qed.

Lemma rstrip_app_kept (a b : string) :
  CaseRepository.rstrip_comma_space b ≠ "" →
  CaseRepository.rstrip_comma_space (a +:+ b) = a +:+ CaseRepository.rstrip_comma_space b.
Proof.
  intros Hb. rewrite rstrip_app.
  by destruct (CaseRepository.rstrip_comma_space b).
Qed.

Lemma rstrip_assignment (k : string) :
  CaseRepository.rstrip_comma_space k = k →
  CaseRepository.rstrip_comma_space ("#" +:+ k +:+ " = :" +:+ k +:+ ", ")
  = "#" +:+ k +:+ " = :" +:+ k.
Proof.
  intros Hk.
  assert (Hlast : CaseRepository.rstrip_comma_space (" = :" +:+ k +:+ ", ") = " = :" +:+ k).
  { rewrite (rstrip_app " = :"), (rstrip_app k), rstrip_separator, Hk.
    destruct k; reflexivity. }
  assert (Hmid : CaseRepository.rstrip_comma_space (k +:+ " = :" +:+ k +:+ ", ")
                 = k +:+ " = :" +:+ k).
  { rewrite (rstrip_app_kept k); rewrite Hlast; done. }
  rewrite (rstrip_app_kept "#"); rewrite Hmid; [done|]. by destruct k.
Qed.

Lemma assignments_fold (pre : list (string * pyval)) (k acc : string) :
  foldl (λ acc kv, acc +:+ "#" +:+ kv.1 +:+ " = :" +:+ kv.1 +:+ ", ") acc pre
    +:+ "#" +:+ k +:+ " = :" +:+ k
  = acc +:+ assignments (pre.*1 ++ [k])%list.
Proof.
  unfold assignments. revert acc. induction pre as [|kv pre IH]; intros acc; [done|].
  cbn [foldl]. rewrite IH. cbn [fmap list_fmap app map].
  destruct (map (λ k0, "#" +:+ k0 +:+ " = :" +:+ k0) (pre.*1 ++ [k])%list)
    as [|a rest] eqn:Hrest.
  { by destruct pre. }
  cbn [join]. fold (join ", " (a :: rest)).
  destruct rest; by rewrite !str_app_assoc.
Qed.

Lemma converted_values_hold_no_float `{Runtime} (updates : list (string * pyval))
    (acc : pydict) :
  map_Forall (λ _ v, has_float v = false) acc →
  map_Forall (λ _ v, has_float v = false)
    (foldl (λ acc kv, <[":" +:+ kv.1 := kv.2]> acc) acc
       (map (λ kv, (kv.1, convert_floats_to_decimal kv.2)) updates)).
Proof.
  revert acc. induction updates as [|[k v] updates IH]; intros acc Hacc; [done|].
  cbn [map foldl fst snd]. apply IH, map_Forall_insert_2; [|done].
  apply convert_has_no_float.
Qed.

Section UpdateRequest.
Context `{Runtime}.

(** X23. The request [update_case] builds. Its values hold no float, and
    [:updated_at] is the clock of the call, also when the caller's updates
    name [updated_at]. For updates whose last key does not end in a comma
    or a blank, the expression is [SET #k = :k] for each key in order,
    separated by [", "], followed by [", #updated_at = :updated_at"]. With
    no update at all the expression is [SET, #updated_at = :updated_at]:
    stripping the trailing [", "] takes the blank of [SET ] with it. *)
Theorem update_case_request_shape (now_iso : string) (case_id : pyval)
    (updates : list (string * pyval)) :
  let request := update_case_request now_iso case_id updates in
  request_key request = case_id ∧
  expression_values request !! ":updated_at" = Some (VStr now_iso) ∧
  expression_names request !! "#updated_at" = Some "updated_at" ∧
  map_Forall (λ _ v, has_float v = false) (expression_values request) ∧
  (updates = [] → update_expression request = "SET, #updated_at = :updated_at") ∧
  (∀ pre k v, updates = (pre ++ [(k, v)])%list →
     CaseRepository.rstrip_comma_space k = k →
     update_expression request
     = "SET " +:+ assignments (updates.*1) +:+ ", #updated_at = :updated_at").
Proof.
  intros request. subst request. unfold update_case_request.
  cbn [request_key expression_values expression_names update_expression].
  split; [done|]. split; [apply lookup_insert_eq|]. split; [apply lookup_insert_eq|].
  split.
  { apply map_Forall_insert_2; [done|].
    apply converted_values_hold_no_float, map_Forall_empty. }
  split; [by intros ->|].
  intros pre k v -> Hk. rewrite map_app, foldl_app. cbn [map foldl fst snd].
  rewrite rstrip_app_kept by (by rewrite rstrip_assignment).
  rewrite rstrip_assignment by done.
  rewrite fmap_app. cbn [fmap list_fmap fst].
  assert (Hkeys : ∀ acc,
            foldl (λ acc kv, acc +:+ "#" +:+ kv.1 +:+ " = :" +:+ kv.1 +:+ ", ") acc
              (map (λ kv, (kv.1, convert_floats_to_decimal kv.2)) pre)
            = foldl (λ acc kv, acc +:+ "#" +:+ kv.1 +:+ " = :" +:+ kv.1 +:+ ", ") acc pre).
  { clear. induction pre as [|kv pre IH]; intros acc; [done|].
    cbn [map foldl fst snd]. apply IH. }
  by rewrite Hkeys, assignments_fold, str_app_assoc.
Qed.
End UpdateRequest.

(** ** Runs on sample data *)

(** Why the first call's query has to answer: after a first call whose
    query failed, the table may hold an open case that the first call did
    not see, and the second call returns it. *)
Lemma redecision_needs_first_query :
  let small := transaction "TXN001" "2024-05-22T10:00:00Z" "50.00" in
  let '(r1, s1) :=
    process_dispute (H:=sample) (order:=by_case_id) (failing_read "case-0002") small
      store_with_open_case in
  let '(r2, s2) :=
    process_dispute (H:=sample) (order:=by_case_id) (calm "case-0003") small s1 in
  outcome r1 = Ret (Some (VBool false), Some (VStr "RESOLVED_CUSTOMER"),
                    Some (VStr "case-0002")) ∧
  outcome r2 = Ret (Some (VBool true), Some (VStr "FORWARDED_TO_ACQUIRER"),
                    Some (VStr "case-0001")).
Proof. vm_compute. repeat split. Qed.

Lemma closed_decision_is_decided_again_witness :
  ∃ r1 s1 r2 s2,
    process_dispute (H:=sample) (order:=by_case_id)
        (calm "case-0001") small_purchase empty_store
      = (Ret r1, s1) ∧
    r1 !! "dispute_status" = Some (VStr "RESOLVED_CUSTOMER") ∧
    process_dispute (H:=sample) (order:=by_case_id)
        (calm "case-0002") small_purchase s1 = (Ret r2, s2) ∧
    r2 !! "existing_case" = Some (VBool false) ∧
    r1 !! "case_id" = Some (VStr "case-0001") ∧
    r2 !! "case_id" = Some (VStr "case-0002") ∧
    length (cases s2) = 2%nat.
Proof.
  pose proof (process_dispute_returns (H:=sample) (order:=by_case_id)
      (calm "case-0001") small_purchase
                empty_store) as Hfirst.
  set (r1 := try_except _ _) in Hfirst.
  set (s1 := (process_dispute _ _ _).2) in Hfirst.
  assert (Hnew : r1 !! "existing_case" = Some (VBool false)) by (vm_compute; reflexivity).
  assert (Hstatus : r1 !! "dispute_status" = Some (VStr "RESOLVED_CUSTOMER"))
    by (vm_compute; reflexivity).
  assert (Hclosed : r1 !! "dispute_status" ≠ Some (VStr "FORWARDED_TO_ACQUIRER"))
    by (rewrite Hstatus; discriminate).
  destruct (closed_decision_is_decided_again (H:=sample)
              (calm "case-0001") (calm "case-0002") small_purchase small_purchase
              "TXN002" empty_store r1 s1
              eq_refl eq_refl eq_refl Hfirst Hnew Hclosed eq_refl eq_refl
              ltac:(discriminate))
    as (r2 & s2 & first & second & Hsecond & Hnew2 & Hid1 & Hid2 & _).
  exists r1, s1, r2, s2.
  split; [exact Hfirst|]. split; [exact Hstatus|]. split; [exact Hsecond|].
  split; [exact Hnew2|]. split; [exact Hid1|]. split; [exact Hid2|].
  pose proof (f_equal snd Hsecond) as Hs2. cbn [snd] in Hs2. rewrite <- Hs2.
  vm_compute. reflexivity.
Defined.

Lemma lone_open_case_without_closed_lineage_witness :
  Forall (λ request : call_env * pydict, read_fault request.1 = None) three_requests ∧
  NoDup (map (λ request : call_env * pydict, uuid4 request.1) three_requests) ∧
  let s := process_disputes (H:=sample) (order:=by_case_id) three_requests empty_store in
  (Forall (λ case, is_open case = true) (cases_of "TXN001" s) →
   (length (cases_of "TXN001" s) ≤ 1)%nat ∧ (length (open_cases "TXN001" s) ≤ 1)%nat).
Proof.
  assert (Hreads : Forall (λ request : call_env * pydict, read_fault request.1 = None)
                     three_requests) by (repeat constructor).
  assert (Hids : NoDup (map (λ request : call_env * pydict, uuid4 request.1)
                          three_requests)).
  { apply (bool_decide_unpack _). vm_compute. exact I. }
  split; [exact Hreads|]. split; [exact Hids|].
  exact (lone_open_case_without_closed_lineage (H:=sample) (order:=by_case_id)
           three_requests Hreads Hids "TXN001").
Defined.

Lemma new_case_result_is_what_was_written_witness :
  ∃ r s' item,
    process_dispute (H:=sample) (order:=by_case_id)
        (calm "case-0001") disputed empty_store = (Ret r, s') ∧
    r !! "existing_case" = Some (VBool false) ∧
    head (cases s') = Some item ∧
    item !! "credit_amount" = convert_floats_to_decimal (H:=sample) <$> r !! "credit_amount".
Proof.
  pose proof (process_dispute_returns (H:=sample) (order:=by_case_id)
      (calm "case-0001") disputed
                empty_store) as Hfirst.
  set (r := try_except _ _) in Hfirst.
  set (s' := (process_dispute _ _ _).2) in Hfirst.
  assert (Hnew : r !! "existing_case" = Some (VBool false)) by (vm_compute; reflexivity).
  destruct (new_case_result_is_what_was_written (H:=sample) (calm "case-0001") disputed
              empty_store r s' Hfirst Hnew) as (item & _ & Hhead & Hkeys).
  exists r, s', item.
  split; [exact Hfirst|]. split; [exact Hnew|]. split; [exact Hhead|].
  rewrite Forall_forall in Hkeys. apply Hkeys.
  repeat first [apply list_elem_of_here | apply list_elem_of_further].
Defined.

Lemma created_case_is_read_back_witness :
  open_case !! "case_id" = Some (VStr "case-0001") ∧
  let '(created, s') := create_case (H:=sample) None open_case empty_store in
  created = true ∧
  get_case_details (λ _, None) (VStr "case-0001") s'
  = Some (convert_item (H:=sample) open_case).
Proof.
  split; [reflexivity|].
  pose proof (created_case_is_read_back (H:=sample) open_case "case-0001" empty_store
                unavailable eq_refl) as Hread.
  destruct (create_case (H:=sample) None open_case empty_store) as [created s'].
  destruct (create_case (H:=sample) (Some unavailable) open_case empty_store)
    as [refused s''].
  destruct Hread as (Hcreated & _ & Hdetails & _). by split.
Defined.

Lemma found_transaction (r : exc (option (option pydict))) :
  is_found r = true → r = Ret (Some (Some (transaction_found r))).
Proof. by destruct r as [[[d|]|]|e]. Qed.

Lemma returned_transaction_is_the_one_asked_for_witness :
  let d := transaction_found
             (get_transaction (H:=sample) no_fault [card_item] (VStr "TXN001")
                (Some "CUST001") (Some "1234")).1 in
  is_found (get_transaction (H:=sample) no_fault [card_item] (VStr "TXN001")
              (Some "CUST001") (Some "1234")).1 = true ∧
  d !! "customer_id" = Some (VStr "CUST001") ∧
  d !! "card_number" = Some (VStr "1234") ∧
  d !! "transaction_id" = Some (VStr "TXN001") ∧
  d !! "card_id" = None.
Proof.
  intros d.
  assert (Hfound : is_found (get_transaction (H:=sample) no_fault [card_item]
                               (VStr "TXN001") (Some "CUST001") (Some "1234")).1 = true)
    by (vm_compute; reflexivity).
  destruct (returned_transaction_is_the_one_asked_for (H:=sample) no_fault [card_item]
              (VStr "TXN001") (Some "CUST001") (Some "1234") d
              (found_transaction _ Hfound))
    as (Hcustomer & Hcard & (id & Hid & Htid) & _ & Hcard_id).
  split; [exact Hfound|]. split; [by apply Hcustomer|]. split; [by apply Hcard|].
  split; [|exact Hcard_id]. by injection Hid as <-.
Defined.

Lemma begins_with_replaces_earlier_conditions_witness :
  build_key_expr None
    [("customer_id", VStr "CUST001");
     ("transaction_id", VDict [("begins_with", VStr "TXN")])]
  = Ret (Some (KeyBeginsWith "transaction_id" (VStr "TXN"))).
Proof.
  exact (begins_with_replaces_earlier_conditions None
           (Some (KeyEq "customer_id" (VStr "CUST001")))
           [("customer_id", VStr "CUST001")] [] "transaction_id"
           [("begins_with", VStr "TXN")] (VStr "TXN") eq_refl eq_refl).
Defined.

Lemma incomplete_operations_make_no_call_witness :
  ∃ error,
    _run (H:=sample) sample_db "2024-06-01T12:00:00" CASE_DB_TABLE "delete_item"
      (Some [("case_id", VStr "case-0001")]) None None None None None None
    = (Failure error, []).
Proof.
  apply (incomplete_operations_make_no_call (H:=sample)).
  - apply list_elem_of_further, list_elem_of_here.
  - right. right. right. intros Hin.
    repeat (apply elem_of_cons in Hin as [Hin|Hin]; [discriminate|]).
    by apply elem_of_nil in Hin.
Defined.
